(** * mcp-ag-grid: the grid resource manager and its statistics reader

    A shallow embedding of [src/grid-manager.ts] (class [GridManager]),
    of the in-page helpers of [web/grid.html] and of the column profiling
    functions of [src/resources/data-resources.ts], with the properties
    the specification states about them.

    Conventions.
    - JavaScript numbers are exact rationals ([Q]) plus a separate [JNaN];
      the infinities are not represented (no JSON payload carries them).
    - An asynchronous method is a state transformer that returns either a
      value or the thrown error; calls are sequential.
    - The browser side (Puppeteer transport, the AG Grid api object) is
      external: the transport is a scripted schedule of deliveries, and
      the api object is an abstract interface. *)

From Stdlib Require Import List String Ascii Bool Arith ZArith QArith Qround Lia.
From Stdlib Require Import Permutation Sorted DecimalString.
Import ListNotations.

Local Open Scope string_scope.
Local Open Scope list_scope.
Local Open Scope nat_scope.

Set Implicit Arguments.
Set Warnings "-register-all".

(* ================================================================== *)
(** * JavaScript values *)
(* ================================================================== *)

Inductive JsValue : Type :=
| JUndefined
| JNull
| JBool (b : bool)
| JNum (q : Q)
| JNaN
| JStr (s : string)
| JDate (ms : Z)
| JArr (items : list JsValue)
| JObj (props : list (string * JsValue)).

(** A plain record such as a grid row: [Record<string, any>]. *)
Definition Row := list (string * JsValue).

(** [Boolean(v)]: the values that an [if], [&&] or [||] takes as true. *)
Definition truthy (v : JsValue) : bool :=
  match v with
  | JUndefined | JNull | JNaN => false
  | JBool b => b
  | JNum q => negb (Qeq_bool q 0)
  | JStr s => negb (String.eqb s "")
  | JDate _ | JArr _ | JObj _ => true
  end.

(** [v === null || v === undefined]. *)
Definition isNullish (v : JsValue) : bool :=
  match v with JUndefined | JNull => true | _ => false end.

Fixpoint lookup {A : Type} (k : string) (m : list (string * A)) : option A :=
  match m with
  | [] => None
  | (k', v) :: m' => if String.eqb k k' then Some v else lookup k m'
  end.

(** [SameValueZero], the equality of [Set]: primitives by value, [NaN]
    equal to itself; objects by reference, and the objects met here (cells
    of distinct deserialised rows) are distinct references. *)
Definition sameValueZero (a b : JsValue) : bool :=
  match a, b with
  | JUndefined, JUndefined => true
  | JNull, JNull => true
  | JBool x, JBool y => Bool.eqb x y
  | JNum x, JNum y => Qeq_bool x y
  | JNaN, JNaN => true
  | JStr x, JStr y => String.eqb x y
  | _, _ => false
  end.

(** [[...new Set(values)]]: first occurrences, in order. *)
Fixpoint setOf (seen : list JsValue) (values : list JsValue) : list JsValue :=
  match values with
  | [] => []
  | v :: rest =>
      if existsb (sameValueZero v) seen then setOf seen rest
      else v :: setOf (v :: seen) rest
  end.

(* ================================================================== *)
(** * Errors and outcomes *)
(* ================================================================== *)

Inductive ErrorCode :=
| BROWSER_INIT_FAILED | NOT_INITIALIZED | INVALID_CONFIG
| GRID_CREATION_FAILED | UPDATE_DATA_FAILED | METHOD_EXECUTION_FAILED
| INVALID_EXPORT_FORMAT | EXPORT_FAILED | GET_STATE_FAILED
| GRID_NOT_FOUND | DESTROY_FAILED | GRID_DESTROYED | HTML_LOAD_FAILED
| SUMMARY_GENERATION_FAILED.

(** What a [throw] carries: a plain [Error] (also a [TypeError], a
    [ZodError] or a transport error), or a [GridManagerError]. *)
Inductive JsError : Type :=
| PlainError (message : string)
| GridManagerError (message : string) (code : ErrorCode)
    (gridId : option string) (cause : option JsError).

Inductive Outcome (A : Type) : Type :=
| Ok (a : A)
| Throw (e : JsError).
Arguments Ok {A} a.
Arguments Throw {A} e.

Definition isOk {A} (o : Outcome A) : bool :=
  match o with Ok _ => true | Throw _ => false end.


(** The failure kind of an outcome, when it is a [GridManagerError]. *)
Definition failsWith {A} (o : Outcome A) (c : ErrorCode) : Prop :=
  exists msg gid cause, o = Throw (GridManagerError msg c gid cause).

(* ================================================================== *)
(** * Stable sorting: [Array.prototype.sort] with a comparator *)
(* ================================================================== *)

Section JsSort.
Variable A : Type.
(** [cmp a b]: the comparator's number; positive moves [b] before [a]. *)
Variable cmp : A -> A -> Q.

Fixpoint sortInsert (x : A) (sorted : list A) : list A :=
  match sorted with
  | [] => [x]
  | y :: rest =>
      if Qle_bool (cmp x y) 0 then x :: y :: rest
      else y :: sortInsert x rest
  end.

(** The specified result of [arr.sort(cmp)]: the stable sort (the
    engine's algorithm is free, its result for a consistent comparator
    is not). *)
Fixpoint jsSort (l : list A) : list A :=
  match l with
  | [] => []
  | x :: rest => sortInsert x (jsSort rest)
  end.
End JsSort.

(* ================================================================== *)
(** * Grid configuration ([grid-manager.ts], interfaces) *)
(* ================================================================== *)

(** [interface ColumnDef]; [filter_] and [type_] are the source's
    [filter] and [type], [extra] the index signature. *)
Record ColumnDef := mkColumnDef {
  field : string;
  headerName : option string;
  width : option Q;
  minWidth : option Q;
  maxWidth : option Q;
  sortable : option bool;
  filter_ : option bool;
  resizable : option bool;
  type_ : option string;
  extra : Row
}.

Record GridConfig := mkGridConfig {
  columnDefs : list ColumnDef;
  rowData : list Row;
  gridOptions : option Row
}.

(* ================================================================== *)
(** * Column statistics ([data-resources.ts]) *)
(* ================================================================== *)

Definition ofNat (n : nat) : Q := inject_Z (Z.of_nat n).

(** [a > b] on numbers. *)
Definition Qgtb (a b : Q) : bool := negb (Qle_bool a b).

(** [Math.round]: the nearest integer, halves upwards. *)
Definition Math_round (x : Q) : Q := inject_Z (Qfloor (x + (1 # 2))).

Record ColumnStats := mkColumnStats {
  statField : string;
  statType : string;
  nullCount : nat;
  uniqueCount : nat;
  sampleValues : list JsValue;
  statMin : option Q;
  statMax : option Q;
  statMean : option Q;
  statMedian : option Q;
  avgLength : option Q;
  maxLength : option nat;
  minLength : option nat
}.

Record GridSummaryStats := mkGridSummaryStats {
  summaryGridId : string;
  totalRows : nat;
  totalColumns : nat;
  columnStats : list ColumnStats;
  dataTypes : list (string * nat);
  completeness : Q;
  generatedAt : string
}.

Record Counts := mkCounts {
  numberCount : nat;
  stringCount : nat;
  booleanCount : nat;
  dateCount : nat
}.

Section Statistics.
(** [!isNaN(Date.parse(s))]: which strings the engine reads as a date
    (implementation-defined beyond the ISO format). *)
Variable dateParses : string -> bool.

(** One turn of the loop of [inferDataType]. *)
Definition countValue (c : Counts) (value : JsValue) : Counts :=
  match value with
  | JNum _ =>
      mkCounts (S (numberCount c)) (stringCount c) (booleanCount c) (dateCount c)
  | JBool _ =>
      mkCounts (numberCount c) (stringCount c) (S (booleanCount c)) (dateCount c)
  | JDate _ =>
      mkCounts (numberCount c) (stringCount c) (booleanCount c) (S (dateCount c))
  | JStr s =>
      if dateParses s
      then mkCounts (numberCount c) (stringCount c) (booleanCount c) (S (dateCount c))
      else mkCounts (numberCount c) (S (stringCount c)) (booleanCount c) (dateCount c)
  | _ => c
  end.

Definition inferDataType (values : list JsValue) : string :=
  match values with
  | [] => "unknown"
  | _ =>
      let sample := firstn 10 values in
      let c := fold_left countValue sample (mkCounts 0 0 0 0) in
      let total := ofNat (List.length sample) in
      if Qgtb (ofNat (numberCount c) / total) (8 # 10) then "number"
      else if Qgtb (ofNat (booleanCount c) / total) (8 # 10) then "boolean"
      else if Qgtb (ofNat (dateCount c) / total) (8 # 10) then "date"
      else "text"
  end.

(** [row[field]]: a [TypeError] on [null] and [undefined]; own
    properties of a record; nothing on other values (their prototype
    and index properties are outside the model). *)
Definition getField (row : JsValue) (fld : string) : Outcome JsValue :=
  match row with
  | JUndefined | JNull =>
      Throw (PlainError "TypeError: Cannot read properties of null or undefined")
  | JObj props =>
      Ok (match lookup fld props with Some v => v | None => JUndefined end)
  | _ => Ok JUndefined
  end.

(** [data.map(row => row[field])]. *)
Fixpoint columnCells (data : list JsValue) (fld : string)
  : Outcome (list JsValue) :=
  match data with
  | [] => Ok []
  | row :: rest =>
      match getField row fld with
      | Throw e => Throw e
      | Ok v =>
          match columnCells rest fld with
          | Throw e => Throw e
          | Ok vs => Ok (v :: vs)
          end
      end
  end.

(** [values.filter(val => typeof val === 'number' && !isNaN(val))]. *)
Definition numericValues (values : list JsValue) : list Q :=
  flat_map (fun v => match v with JNum q => [q] | _ => [] end) values.

(** [values.filter(val => typeof val === 'string')]. *)
Definition stringValues (values : list JsValue) : list string :=
  flat_map (fun v => match v with JStr s => [s] | _ => [] end) values.

Definition Qmin (a b : Q) : Q := if Qle_bool a b then a else b.
Definition Qmax (a b : Q) : Q := if Qle_bool a b then b else a.

(** [Math.min(...xs)] and [Math.max(...xs)] of a non-empty list. *)
Definition Math_min (x : Q) (xs : list Q) : Q := fold_left Qmin xs x.
Definition Math_max (x : Q) (xs : list Q) : Q := fold_left Qmax xs x.

Definition sumQ (xs : list Q) : Q := fold_left Qplus xs 0%Q.

Definition medianOf (nums : list Q) : Q :=
  let sorted := jsSort (fun a b => (a - b)%Q) nums in
  let mid := Nat.div (List.length sorted) 2 in
  if Nat.eqb (Nat.modulo (List.length sorted) 2) 0
  then ((nth (mid - 1) sorted 0%Q + nth mid sorted 0%Q) / 2)%Q
  else nth mid sorted 0%Q.

Definition analyzeColumnData (data : list JsValue) (fld : string)
    (columnDef : ColumnDef) : Outcome ColumnStats :=
  match columnCells data fld with
  | Throw e => Throw e
  | Ok cells =>
      let values := filter (fun v => negb (isNullish v)) cells in
      let nulls := List.length data - List.length values in
      let uniqueValues := setOf [] values in
      (* columnDef.type || inferDataType(values) *)
      let ty := match type_ columnDef with
                | Some t => if String.eqb t "" then inferDataType values else t
                | None => inferDataType values
                end in
      let nums := if String.eqb ty "number" then numericValues values else [] in
      let strs := if String.eqb ty "text" then stringValues values else [] in
      let lens := map String.length strs in
      Ok {| statField := fld;
            statType := ty;
            nullCount := nulls;
            uniqueCount := List.length uniqueValues;
            sampleValues := firstn 5 uniqueValues;
            statMin := match nums with [] => None | x :: xs => Some (Math_min x xs) end;
            statMax := match nums with [] => None | x :: xs => Some (Math_max x xs) end;
            statMean := match nums with
                        | [] => None
                        | _ => Some (sumQ nums / ofNat (List.length nums))%Q
                        end;
            statMedian := match nums with [] => None | _ => Some (medianOf nums) end;
            avgLength := match lens with
                         | [] => None
                         | _ => Some (ofNat (fold_left Nat.add lens 0%nat) / ofNat (List.length lens))%Q
                         end;
            maxLength := match lens with
                         | [] => None
                         | x :: xs => Some (fold_left Nat.max xs x)
                         end;
            minLength := match lens with
                         | [] => None
                         | x :: xs => Some (fold_left Nat.min xs x)
                         end |}
  end.

(** [columnDefs.map(colDef => analyzeColumnData(rowData, colDef.field, colDef))]. *)
Fixpoint analyzeColumns (data : list JsValue) (defs : list ColumnDef)
  : Outcome (list ColumnStats) :=
  match defs with
  | [] => Ok []
  | colDef :: rest =>
      match analyzeColumnData data (field colDef) colDef with
      | Throw e => Throw e
      | Ok st =>
          match analyzeColumns data rest with
          | Throw e => Throw e
          | Ok sts => Ok (st :: sts)
          end
      end
  end.

(** [dataTypes[t] = (dataTypes[t] || 0) + 1]. *)
Fixpoint bump (t : string) (m : list (string * nat)) : list (string * nat) :=
  match m with
  | [] => [(t, 1)]
  | (k, n) :: rest =>
      if String.eqb t k then (k, S n) :: rest else (k, n) :: bump t rest
  end.

Definition sumNulls (stats : list ColumnStats) : nat :=
  fold_left (fun sum stat => sum + nullCount stat) stats 0.

(** The body of [generateGridSummary] once the row snapshot is read. *)
Definition summaryOf (gridId : string) (isoNow : string) (defs : list ColumnDef)
    (rowData : list JsValue) : Outcome GridSummaryStats :=
  match analyzeColumns rowData defs with
  | Throw e => Throw e
  | Ok stats =>
      let types := fold_left (fun m stat => bump (statType stat) m) stats [] in
      let totalCells := List.length rowData * List.length stats in
      let nullCells := sumNulls stats in
      let c := if Nat.ltb 0 totalCells
               then ((ofNat totalCells - ofNat nullCells) / ofNat totalCells * 100)%Q
               else 0%Q in
      Ok {| summaryGridId := gridId;
            totalRows := List.length rowData;
            totalColumns := List.length stats;
            columnStats := stats;
            dataTypes := types;
            completeness := (Math_round (c * 100) / 100)%Q;
            generatedAt := isoNow |}
  end.
End Statistics.

(* ================================================================== *)
(** * Schema validation (zod) *)
(* ================================================================== *)

(** A schema maps a runtime value to its typed reading, or to [None]
    where [parse] throws a [ZodError]. *)
Definition z_string (v : JsValue) : option string :=
  match v with JStr s => Some s | _ => None end.

(** [z.number()] refuses [NaN]. *)
Definition z_number (v : JsValue) : option Q :=
  match v with JNum q => Some q | _ => None end.

Definition z_boolean (v : JsValue) : option bool :=
  match v with JBool b => Some b | _ => None end.

(** [z.record(z.any())]: a plain object, whatever its properties. *)
Definition z_record_any (v : JsValue) : option Row :=
  match v with JObj props => Some props | _ => None end.

(** [.optional()] applied to the property [k] of an object. *)
Definition z_optional {A} (schema : JsValue -> option A) (k : string)
    (props : Row) : option (option A) :=
  match lookup k props with
  | None | Some JUndefined => Some None
  | Some v => option_map Some (schema v)
  end.

Definition z_required {A} (schema : JsValue -> option A) (k : string)
    (props : Row) : option A :=
  match lookup k props with
  | None => None
  | Some v => schema v
  end.

(** [z.array(schema)]. *)
Fixpoint z_items {A} (schema : JsValue -> option A) (items : list JsValue)
  : option (list A) :=
  match items with
  | [] => Some []
  | v :: rest =>
      match schema v, z_items schema rest with
      | Some a, Some l => Some (a :: l)
      | _, _ => None
      end
  end.

Definition z_array {A} (schema : JsValue -> option A) (v : JsValue)
  : option (list A) :=
  match v with JArr items => z_items schema items | _ => None end.

Definition columnDefKeys : list string :=
  ["field"; "headerName"; "width"; "minWidth"; "maxWidth";
   "sortable"; "filter"; "resizable"; "type"].

(** [ColumnDefSchema]: [z.object({...}).passthrough()]. *)
Definition ColumnDefSchema (v : JsValue) : option ColumnDef :=
  match v with
  | JObj props =>
      match z_required z_string "field" props,
            z_optional z_string "headerName" props,
            z_optional z_number "width" props,
            z_optional z_number "minWidth" props,
            z_optional z_number "maxWidth" props,
            z_optional z_boolean "sortable" props,
            z_optional z_boolean "filter" props,
            z_optional z_boolean "resizable" props,
            z_optional z_string "type" props with
      | Some f, Some h, Some w, Some mi, Some ma, Some s, Some fi, Some r, Some t =>
          Some (mkColumnDef f h w mi ma s fi r t
                  (filter (fun kv => negb (existsb (String.eqb (fst kv)) columnDefKeys))
                          props))
      | _, _, _, _, _, _, _, _, _ => None
      end
  | _ => None
  end.

(** [GridConfigSchema]. *)
Definition GridConfigSchema (v : JsValue) : option GridConfig :=
  match v with
  | JObj props =>
      match z_required (z_array ColumnDefSchema) "columnDefs" props,
            z_required (z_array z_record_any) "rowData" props,
            z_optional z_record_any "gridOptions" props with
      | Some cols, Some rows, Some opts => Some (mkGridConfig cols rows opts)
      | _, _, _ => None
      end
  | _ => None
  end.

(** [ExportFormatSchema = z.enum(['csv', 'excel'])]. *)
Definition ExportFormatSchema (format : string) : bool :=
  String.eqb format "csv" || String.eqb format "excel".

(* ================================================================== *)
(** * The AG Grid api object (external) *)
(* ================================================================== *)

Inductive Nullable (A : Type) : Type :=
| Undefined
| Null
| Val (a : A).
Arguments Undefined {A}.
Arguments Null {A}.
Arguments Val {A} a.

(** An entry of [gridApi.getColumnState()]. *)
Record ColumnState := mkColumnState {
  colId : string;
  sort : Nullable string;
  sortIndex : Nullable Z;
  otherState : Row
}.

(** An entry of the derived sort state: [{colId, sort, sortIndex}]. *)
Record SortItem := mkSortItem {
  itemColId : string;
  itemSort : Nullable string;
  itemSortIndex : Nullable Z
}.

(** What the manager consumes from the grid library.  Getters read and
    leave the api object as it is; the other calls may change it. *)
Class GridApi (Api : Type) := {
  (** [agGrid.createGrid(container, options)], and the api it hands to
      [onGridReady]. *)
  agCreateGrid : GridConfig -> Outcome Api;
  getColumnState : Api -> Outcome (list ColumnState);
  getFilterModel : Api -> Outcome JsValue;
  getSelectedRows : Api -> Outcome (list JsValue);
  getDisplayedRowCount : Api -> Outcome Z;
  getDataAsCsv : Api -> Outcome string;
  (** [setGridOption('rowData', rows)]. *)
  setRowData : Api -> list Row -> Api * Outcome unit;
  apiDestroy : Api -> Api * Outcome unit;
  (** [gridApi[name]] when it is a function, applied to the arguments. *)
  apiMethod : Api -> string -> option (list JsValue -> Api * Outcome JsValue)
}.

(* ================================================================== *)
(** * The broadcast sink ([web-server/server.ts], [WebSocketManager]) *)
(* ================================================================== *)

(** The notifications the manager delivers; the sink's mirrored
    snapshots are a function of their sequence. *)
Inductive SinkCall : Type :=
| onGridCreated (gridId : string) (config : GridConfig) (data : list Row)
| onGridDataUpdated (gridId : string) (newData : list Row)
| onGridFiltered (gridId : string) (filterModel : JsValue) (displayedRows : Z)
| onGridSorted (gridId : string) (sortModel : JsValue)
| onGridExported (gridId : string) (format : string) (filename : string)
| removeGrid (gridId : string).

(* ================================================================== *)
(** * Pages and the browser (Puppeteer, external) *)
(* ================================================================== *)

(** The fate of one round trip to a page: answered; lost before the
    page ran anything; or run by the page with the answer lost. *)
Inductive Delivery :=
| Delivered
| LostBefore (message : string)
| LostAfter (message : string).

Definition errorMessage (e : JsError) : string :=
  match e with
  | PlainError m => m
  | GridManagerError m _ _ _ => m
  end.

(** The ambient values a call reads: [Date.now()], the digits of
    [Math.random()], the ISO print of [new Date()], and what
    [readFile(gridHtmlPath)] gives. *)
Record Env := mkEnv {
  now : Z;
  random : string;
  isoNow : string;
  gridHtml : Outcome string
}.

Section Manager.
Context {Api : Type} {GA : GridApi Api}.

(** The page's globals, as [web/grid.html] declares them. *)
Record Window := mkWindow {
  scriptLoaded : bool;          (* createAGGrid, updateGridData defined *)
  gridApi : option Api          (* window.gridApi, null at first *)
}.

Record Page := mkPage {
  window : Window;
  closed : bool;
  schedule : list Delivery;     (* fates of the coming round trips *)
  calls : nat                   (* round trips issued so far *)
}.

(** One round trip that runs [f] in the page. *)
Definition roundTrip {A} (f : Window -> Window * Outcome A) (p : Page)
  : Page * Outcome A :=
  if closed p
  then (mkPage (window p) true (schedule p) (S (calls p)),
        Throw (PlainError "Target closed"))
  else
    match schedule p with
    | LostBefore msg :: rest =>
        (mkPage (window p) false rest (S (calls p)), Throw (PlainError msg))
    | LostAfter msg :: rest =>
        (mkPage (fst (f (window p))) false rest (S (calls p)),
         Throw (PlainError msg))
    | Delivered :: rest =>
        (mkPage (fst (f (window p))) false rest (S (calls p)),
         snd (f (window p)))
    | [] =>
        (mkPage (fst (f (window p))) false [] (S (calls p)),
         snd (f (window p)))
    end.

(** [page.evaluate(f, ...args)]. *)
Definition evaluate {A} (f : Window -> Window * Outcome A) (p : Page)
  : Page * Outcome A := roundTrip f p.

(** [page.close()]. *)
Definition pageClose (p : Page) : Page * Outcome unit :=
  let (p', r) := roundTrip (fun w => (w, Ok tt)) p in
  match r with
  | Ok _ => (mkPage (window p') true (schedule p') (calls p'), Ok tt)
  | Throw e => (p', Throw e)
  end.

(** A scripted browser: the schedules of the pages it will open (or
    the error [newPage] will throw), and what [close] will do. *)
Record Browser := mkBrowser {
  upcomingPages : list (Outcome (list Delivery));
  closeResult : Outcome unit;
  browserClosed : bool
}.

Definition newPage (b : Browser) : Browser * Outcome Page :=
  match upcomingPages b with
  | [] => (b, Ok (mkPage (mkWindow false None) false [] 0))
  | Ok sched :: rest =>
      (mkBrowser rest (closeResult b) (browserClosed b),
       Ok (mkPage (mkWindow false None) false sched 0))
  | Throw e :: rest =>
      (mkBrowser rest (closeResult b) (browserClosed b), Throw e)
  end.

Definition browserClose (b : Browser) : Browser * Outcome unit :=
  match closeResult b with
  | Ok _ => (mkBrowser (upcomingPages b) (closeResult b) true, Ok tt)
  | Throw e => (b, Throw e)
  end.

(* ---------------------------------------------------------------- *)
(** ** In-page code ([web/grid.html] and the [evaluate] callbacks) *)
(* ---------------------------------------------------------------- *)

(** What [window.createAGGrid(config)] returns. *)
Record CreateResult := mkCreateResult {
  success : bool;
  error : option string
}.

(** [window.createAGGrid]: destroys the grid in place if any, creates
    the new one; any exception becomes [{success: false, error}]. *)
Definition createAGGrid (config : GridConfig) (w : Window)
  : Window * Outcome CreateResult :=
  match gridApi w with
  | Some old =>
      match apiDestroy old with
      | (old', Throw e) =>
          (mkWindow (scriptLoaded w) (Some old'),
           Ok (mkCreateResult false (Some (errorMessage e))))
      | (old', Ok _) =>
          match agCreateGrid config with
          | Ok api =>
              (mkWindow (scriptLoaded w) (Some api), Ok (mkCreateResult true None))
          | Throw e =>
              (mkWindow (scriptLoaded w) (Some old'),
               Ok (mkCreateResult false (Some (errorMessage e))))
          end
      end
  | None =>
      match agCreateGrid config with
      | Ok api =>
          (mkWindow (scriptLoaded w) (Some api), Ok (mkCreateResult true None))
      | Throw e => (w, Ok (mkCreateResult false (Some (errorMessage e))))
      end
  end.

(** The callback of [updateGridData], with [window.updateGridData]. *)
Definition inPageUpdateGridData (newData : list Row) (w : Window)
  : Window * Outcome unit :=
  if scriptLoaded w then
    match gridApi w with
    | None => (w, Throw (PlainError "Grid not initialized"))
    | Some api =>
        let (api', r) := setRowData api newData in
        (mkWindow (scriptLoaded w) (Some api'), r)
    end
  else (w, Throw (PlainError "updateGridData function not available")).

(** The callback of [executeGridMethod]. *)
Definition inPageMethod (methodName : string)
    (methodParams : option (list JsValue)) (w : Window)
  : Window * Outcome JsValue :=
  match gridApi w with
  | None => (w, Throw (PlainError "Grid API not available"))
  | Some api =>
      match apiMethod api methodName with
      | None =>
          (w, Throw (PlainError
                 ("Method '" ++ methodName ++ "' not found on grid API")))
      | Some apply =>
          let (api', r) :=
            apply (match methodParams with Some l => l | None => [] end) in
          (mkWindow (scriptLoaded w) (Some api'), r)
      end
  end.

(** [window.gridApi ? window.gridApi.getDisplayedRowCount() : 0]. *)
Definition inPageDisplayedRows (w : Window) : Window * Outcome Z :=
  match gridApi w with
  | Some api => (w, getDisplayedRowCount api)
  | None => (w, Ok 0%Z)
  end.

(** The callback of both branches of [exportGridData]. *)
Definition inPageCsv (w : Window) : Window * Outcome string :=
  match gridApi w with
  | None => (w, Throw (PlainError "Grid API not available"))
  | Some api => (w, getDataAsCsv api)
  end.

(** [if (window.gridApi) window.gridApi.destroy()]. *)
Definition inPageDestroy (w : Window) : Window * Outcome unit :=
  match gridApi w with
  | Some api =>
      let (api', r) := apiDestroy api in
      (mkWindow (scriptLoaded w) (Some api'), r)
  | None => (w, Ok tt)
  end.

Record GridState := mkGridState {
  columnState : list ColumnState;
  filterState : JsValue;
  sortState : list SortItem;
  selectedRows : list JsValue;
  rowCount : Z;
  displayedRowCount : Z
}.

(** [col.sort !== null]. *)
Definition sortIsNotNull (col : ColumnState) : bool :=
  match sort col with Null => false | _ => true end.

Definition toSortItem (col : ColumnState) : SortItem :=
  mkSortItem (colId col) (sort col) (sortIndex col).

(** [a.sortIndex || 0]. *)
Definition sortIndexOr0 (a : SortItem) : Z :=
  match itemSortIndex a with Val i => i | _ => 0%Z end.

(** [(a, b) => (a.sortIndex || 0) - (b.sortIndex || 0)]. *)
Definition bySortIndex (a b : SortItem) : Q :=
  inject_Z (sortIndexOr0 a - sortIndexOr0 b).

(** [columnState.filter(...).map(...).sort(...)]. *)
Definition extractSortState (cols : list ColumnState) : list SortItem :=
  jsSort bySortIndex (map toSortItem (filter sortIsNotNull cols)).

(** The callback of [getGridState]. *)
Definition inPageState (w : Window) : Window * Outcome GridState :=
  match gridApi w with
  | None => (w, Throw (PlainError "Grid API not available"))
  | Some api =>
      match getColumnState api with
      | Throw e => (w, Throw e)
      | Ok cols =>
          match getFilterModel api with
          | Throw e => (w, Throw e)
          | Ok filters =>
              match getSelectedRows api with
              | Throw e => (w, Throw e)
              | Ok selected =>
                  match getDisplayedRowCount api with
                  | Throw e => (w, Throw e)
                  | Ok displayed =>
                      (w, Ok {| columnState := cols;
                                filterState := filters;
                                sortState := extractSortState cols;
                                selectedRows := selected;
                                rowCount := displayed;
                                displayedRowCount := displayed |})
                  end
              end
          end
      end
  end.

(* ---------------------------------------------------------------- *)
(** ** The manager's state *)
(* ---------------------------------------------------------------- *)

Record GridInstance := mkGridInstance {
  id : string;
  page : Page;
  config : GridConfig;
  createdAt : Z;
  lastUpdated : Z;
  isDestroyed : bool
}.

(** The fields of [class GridManager], and the lines written with
    [console.error]. *)
Record GridManager := mkGridManager {
  browser : option Browser;
  grids : list (string * GridInstance);   (* a Map, in insertion order *)
  isInitialized : bool;
  webSocketManager : option (list SinkCall);
  console : list string
}.

(** [Map.prototype.set]: in place for a known key, at the end for a
    new one. *)
Fixpoint mapSet {V} (k : string) (v : V) (m : list (string * V))
  : list (string * V) :=
  match m with
  | [] => [(k, v)]
  | (k', v') :: rest =>
      if String.eqb k k' then (k, v) :: rest else (k', v') :: mapSet k v rest
  end.

Definition mapDelete {V} (k : string) (m : list (string * V))
  : list (string * V) :=
  filter (fun kv => negb (String.eqb k (fst kv))) m.

Definition mapKeys {V} (m : list (string * V)) : list string := map fst m.

Definition withGrids (m : GridManager) (g : list (string * GridInstance))
  : GridManager :=
  mkGridManager (browser m) g (isInitialized m) (webSocketManager m) (console m).

Definition log (line : string) (m : GridManager) : GridManager :=
  mkGridManager (browser m) (grids m) (isInitialized m) (webSocketManager m)
    (console m ++ [line]).

(** [if (this.webSocketManager) this.webSocketManager.call(...)]. *)
Definition notify (call : SinkCall) (m : GridManager) : GridManager :=
  mkGridManager (browser m) (grids m) (isInitialized m)
    (option_map (fun delivered => delivered ++ [call]) (webSocketManager m))
    (console m).

(** The page of a grid after a round trip. *)
Definition withPage (grid : GridInstance) (p : Page) : GridInstance :=
  mkGridInstance (id grid) p (config grid) (createdAt grid)
    (lastUpdated grid) (isDestroyed grid).

Definition storePage (gridId : string) (grid : GridInstance) (p : Page)
    (m : GridManager) : GridManager :=
  withGrids m (mapSet gridId (withPage grid p) (grids m)).

(* ---------------------------------------------------------------- *)
(** ** Methods of [GridManager] *)
(* ---------------------------------------------------------------- *)

(** [getGridInstance]: the registry lookup every operation starts with. *)
Definition getGridInstance (gridId : string) (m : GridManager)
  : Outcome GridInstance :=
  match lookup gridId (grids m) with
  | None =>
      Throw (GridManagerError ("Grid with ID " ++ gridId ++ " not found")
               GRID_NOT_FOUND (Some gridId) None)
  | Some grid =>
      if isDestroyed grid
      then Throw (GridManagerError
                    ("Grid with ID " ++ gridId ++ " has been destroyed")
                    GRID_DESTROYED (Some gridId) None)
      else Ok grid
  end.

Definition decimal (z : Z) : string :=
  NilZero.string_of_int (Z.to_int z).

Definition generateGridId (env : Env) : string :=
  "grid_" ++ decimal (now env) ++ "_" ++ random env.

(** [loadGridHtml]. *)
Definition loadGridHtml (env : Env) : Outcome string :=
  match gridHtml env with
  | Ok html => Ok html
  | Throw e =>
      Throw (GridManagerError "Failed to load grid HTML file"
               HTML_LOAD_FAILED None (Some e))
  end.

(** The [try] block of [createGrid] up to the evaluation of
    [createAGGrid]: the page, or what was thrown. *)
Definition setUpPage (env : Env) (cfg : GridConfig) (b : Browser)
  : Browser * Outcome Page :=
  match newPage b with
  | (b1, Throw e) => (b1, Throw e)
  | (b1, Ok p0) =>
      (* page.setViewport *)
      match roundTrip (fun w => (w, Ok tt)) p0 with
      | (_, Throw e) => (b1, Throw e)
      | (p1, Ok _) =>
          match loadGridHtml env with
          | Throw e => (b1, Throw e)
          | Ok _ =>
              (* page.setContent: the script of grid.html runs *)
              match roundTrip (fun _ => (mkWindow true None, Ok tt)) p1 with
              | (_, Throw e) => (b1, Throw e)
              | (p2, Ok _) =>
                  (* page.waitForFunction(() => window.createAGGrid !== undefined) *)
                  match roundTrip
                          (fun w => (w, if scriptLoaded w then Ok tt
                                        else Throw (PlainError "Waiting failed: 10000ms exceeded")))
                          p2 with
                  | (_, Throw e) => (b1, Throw e)
                  | (p3, Ok _) =>
                      match evaluate
                              (fun w => if scriptLoaded w then createAGGrid cfg w
                                        else (w, Throw (PlainError "TypeError: window.createAGGrid is not a function")))
                              p3 with
                      | (_, Throw e) => (b1, Throw e)
                      | (p4, Ok result) =>
                          if success result then (b1, Ok p4)
                          else (b1, Throw (PlainError
                                  (match error result with
                                   | Some msg => if String.eqb msg "" then "Unknown error creating grid" else msg
                                   | None => "Unknown error creating grid"
                                   end)))
                      end
                  end
              end
          end
      end
  end.

(** [createGrid]: [config] is the value received at run time; the
    instance stores it under its typed reading, which the schema gives. *)
Definition createGrid (env : Env) (config : JsValue) (m : GridManager)
  : GridManager * Outcome string :=
  match isInitialized m, browser m with
  | true, Some b =>
      match GridConfigSchema config with
      | None =>
          (m, Throw (GridManagerError "Invalid grid configuration"
                       INVALID_CONFIG None (Some (PlainError "ZodError"))))
      | Some cfg =>
          let gridId := generateGridId env in
          match setUpPage env cfg b with
          | (b', Throw e) =>
              (mkGridManager (Some b') (grids m) (isInitialized m)
                 (webSocketManager m) (console m),
               Throw (GridManagerError "Failed to create grid"
                        GRID_CREATION_FAILED (Some gridId) (Some e)))
          | (b', Ok p) =>
              let gridInstance := mkGridInstance gridId p cfg (now env) (now env) false in
              let m1 := mkGridManager (Some b') (mapSet gridId gridInstance (grids m))
                          (isInitialized m) (webSocketManager m) (console m) in
              let m2 := notify (onGridCreated gridId cfg (rowData cfg)) m1 in
              (log ("GridManager: Grid created successfully with ID: " ++ gridId) m2,
               Ok gridId)
          end
      end
  | _, _ =>
      (m, Throw (GridManagerError
                   "GridManager not initialized. Call initialize() first."
                   NOT_INITIALIZED None None))
  end.

(** [updateGridData]: a full replace of the rows on the page, then of
    the stored snapshot. *)
Definition updateGridData (env : Env) (gridId : string) (newData : list Row)
    (m : GridManager) : GridManager * Outcome unit :=
  match getGridInstance gridId m with
  | Throw e => (m, Throw e)
  | Ok grid =>
      match evaluate (inPageUpdateGridData newData) (page grid) with
      | (p, Throw e) =>
          (storePage gridId grid p m,
           Throw (GridManagerError "Failed to update grid data"
                    UPDATE_DATA_FAILED (Some gridId) (Some e)))
      | (p, Ok _) =>
          let grid' :=
            mkGridInstance (id grid) p
              (mkGridConfig (columnDefs (config grid)) newData
                 (gridOptions (config grid)))
              (createdAt grid) (now env) (isDestroyed grid) in
          let m1 := withGrids m (mapSet gridId grid' (grids m)) in
          let m2 := notify (onGridDataUpdated gridId newData) m1 in
          (log ("GridManager: Updated data for grid " ++ gridId) m2, Ok tt)
      end
  end.

(** [params && params[0]]: the first argument when it is truthy. *)
Definition firstTruthy (params : option (list JsValue)) : option JsValue :=
  match params with
  | Some (v :: _) => if truthy v then Some v else None
  | _ => None
  end.

Definition methodFailed {A} (method gridId : string) (e : JsError) : Outcome A :=
  Throw (GridManagerError ("Failed to execute grid method: " ++ method)
           METHOD_EXECUTION_FAILED (Some gridId) (Some e)).

(** [executeGridMethod]: the method call and the notifications that
    follow it are in one [try] block. *)
Definition executeGridMethod (gridId method : string)
    (params : option (list JsValue)) (m : GridManager)
  : GridManager * Outcome JsValue :=
  match getGridInstance gridId m with
  | Throw e => (m, Throw e)
  | Ok grid =>
      match evaluate (inPageMethod method params) (page grid) with
      | (p, Throw e) => (storePage gridId grid p m, methodFailed method gridId e)
      | (p, Ok result) =>
          let done := ("GridManager: Executed method " ++ method ++ " on grid " ++ gridId)%string in
          match webSocketManager m with
          | None => (log done (storePage gridId grid p m), Ok result)
          | Some _ =>
              if String.eqb method "setFilterModel" then
                match firstTruthy params with
                | Some filterModel =>
                    (* the read of the displayed row count, same try block *)
                    match evaluate inPageDisplayedRows p with
                    | (p', Throw e) =>
                        (storePage gridId grid p' m, methodFailed method gridId e)
                    | (p', Ok displayedRows) =>
                        (log done
                           (notify (onGridFiltered gridId filterModel displayedRows)
                              (storePage gridId grid p' m)),
                         Ok result)
                    end
                | None => (log done (storePage gridId grid p m), Ok result)
                end
              else if String.eqb method "applyColumnState" then
                match firstTruthy params with
                | Some sortModel =>
                    (log done
                       (notify (onGridSorted gridId sortModel)
                          (storePage gridId grid p m)),
                     Ok result)
                | None => (log done (storePage gridId grid p m), Ok result)
                end
              else (log done (storePage gridId grid p m), Ok result)
          end
      end
  end.

Record ExportResult := mkExportResult {
  data : string;
  format : string;
  filename : string
}.

(** [s.replace(/[:.]/g, '-')]. *)
Fixpoint replaceColonsAndPeriods (s : string) : string :=
  match s with
  | EmptyString => EmptyString
  | String c rest =>
      String (if Ascii.eqb c ":" || Ascii.eqb c "." then "-"%char else c)
             (replaceColonsAndPeriods rest)
  end.

(** [exportGridData]: the registry lookup, the format check, then the
    [try] block with the round trip. *)
Definition exportGridData (env : Env) (gridId : string) (fmt : string)
    (m : GridManager) : GridManager * Outcome ExportResult :=
  match getGridInstance gridId m with
  | Throw e => (m, Throw e)
  | Ok grid =>
      if ExportFormatSchema fmt then
        let timestamp := replaceColonsAndPeriods (isoNow env) in
        let name := ("grid-export-" ++ gridId ++ "-" ++ timestamp ++ "." ++ fmt)%string in
        (* csv and excel both read gridApi.getDataAsCsv() *)
        match evaluate inPageCsv (page grid) with
        | (p, Throw e) =>
            (storePage gridId grid p m,
             Throw (GridManagerError ("Failed to export grid data as " ++ fmt)
                      EXPORT_FAILED (Some gridId) (Some e)))
        | (p, Ok csv) =>
            (log ("GridManager: Exported grid " ++ gridId ++ " as " ++ fmt)
               (notify (onGridExported gridId fmt name)
                  (storePage gridId grid p m)),
             Ok (mkExportResult csv fmt name))
        end
      else
        (m, Throw (GridManagerError "Invalid export format"
                     INVALID_EXPORT_FORMAT (Some gridId)
                     (Some (PlainError "ZodError"))))
  end.

(** [getGridState]: one round trip that reads the four getters. *)
Definition getGridState (gridId : string) (m : GridManager)
  : GridManager * Outcome GridState :=
  match getGridInstance gridId m with
  | Throw e => (m, Throw e)
  | Ok grid =>
      match evaluate inPageState (page grid) with
      | (p, Throw e) =>
          (storePage gridId grid p m,
           Throw (GridManagerError "Failed to get grid state"
                    GET_STATE_FAILED (Some gridId) (Some e)))
      | (p, Ok state) =>
          (log ("GridManager: Retrieved state for grid " ++ gridId)
             (storePage gridId grid p m),
           Ok state)
      end
  end.

Definition destroyFailed {A} (gridId : string) (e : JsError) : Outcome A :=
  Throw (GridManagerError "Failed to destroy grid" DESTROY_FAILED
           (Some gridId) (Some e)).

Definition destroyed (gridId : string) (m : GridManager) : GridManager :=
  log ("GridManager: Destroyed grid " ++ gridId)
    (notify (removeGrid gridId)
       (withGrids m (mapDelete gridId (grids m)))).

(** [destroyGrid]: the deletion from the map is inside the [try]
    block, after the two calls on the page. *)
Definition destroyGrid (gridId : string) (m : GridManager)
  : GridManager * Outcome unit :=
  match lookup gridId (grids m) with
  | None =>
      (m, Throw (GridManagerError ("Grid with ID " ++ gridId ++ " not found")
                   GRID_NOT_FOUND (Some gridId) None))
  | Some grid =>
      if isDestroyed grid then (destroyed gridId m, Ok tt)
      else
        match evaluate inPageDestroy (page grid) with
        | (p, Throw e) => (storePage gridId grid p m, destroyFailed gridId e)
        | (p, Ok _) =>
            match pageClose p with
            | (p', Throw e) => (storePage gridId grid p' m, destroyFailed gridId e)
            | (p', Ok _) =>
                (* grid.isDestroyed = true, then this.grids.delete(gridId) *)
                (destroyed gridId m, Ok tt)
            end
        end
  end.

(** The loop of [cleanup] over [Array.from(this.grids.keys())]. *)
Fixpoint destroyAll (gridIds : list string) (m : GridManager) : GridManager :=
  match gridIds with
  | [] => m
  | gridId :: rest =>
      match destroyGrid gridId m with
      | (m', Ok _) => destroyAll rest m'
      | (m', Throw e) =>
          destroyAll rest
            (log ("Error destroying grid " ++ gridId ++ ": " ++ errorMessage e) m')
      end
  end.

(** [cleanup]: both of its [try] blocks catch and log. *)
Definition cleanup (m : GridManager) : GridManager * Outcome unit :=
  let m1 := log "GridManager: Starting cleanup..." m in
  let m2 := destroyAll (mapKeys (grids m1)) m1 in
  let m3 :=
    match browser m2 with
    | Some b =>
        match browserClose b with
        | (b', Ok _) =>
            mkGridManager None (grids m2) (isInitialized m2)
              (webSocketManager m2) (console m2)
        | (b', Throw e) =>
            log ("Error closing browser: " ++ errorMessage e)
              (mkGridManager (Some b') (grids m2) (isInitialized m2)
                 (webSocketManager m2) (console m2))
        end
    | None => m2
    end in
  (log "GridManager: Cleanup completed"
     (mkGridManager (browser m3) (grids m3) false (webSocketManager m3)
        (console m3)),
   Ok tt).

(** [getActiveGrids]: the keys whose record is not marked destroyed. *)
Definition getActiveGrids (m : GridManager) : list string :=
  filter (fun gridId =>
            negb (match lookup gridId (grids m) with
                  | Some grid => isDestroyed grid
                  | None => false
                  end))
         (mapKeys (grids m)).

(** [Omit<GridInstance, 'page'>]. *)
Record GridInfo := mkGridInfo {
  infoId : string;
  infoConfig : GridConfig;
  infoCreatedAt : Z;
  infoLastUpdated : Z;
  infoIsDestroyed : bool
}.

Definition getGridInfo (gridId : string) (m : GridManager) : Outcome GridInfo :=
  match getGridInstance gridId m with
  | Throw e => Throw e
  | Ok grid =>
      Ok (mkGridInfo (id grid) (config grid) (createdAt grid)
            (lastUpdated grid) (isDestroyed grid))
  end.

(* ---------------------------------------------------------------- *)
(** ** [generateGridSummary] ([data-resources.ts]) *)
(* ---------------------------------------------------------------- *)

Variable dateParses : string -> bool.

Definition summaryFailed {A} (gridId : string) (e : JsError) : Outcome A :=
  Throw (GridManagerError "Failed to generate grid summary"
           SUMMARY_GENERATION_FAILED (Some gridId) (Some e)).

Fixpoint nodesData (nodes : list JsValue) : Outcome (list JsValue) :=
  match nodes with
  | [] => Ok []
  | node :: rest =>
      match getField node "data" with
      | Throw e => Throw e
      | Ok d =>
          match nodesData rest with
          | Throw e => Throw e
          | Ok ds => Ok (d :: ds)
          end
      end
  end.

(** [currentData ? currentData.map(node => node.data) : config.rowData]. *)
Definition currentRows (currentData : JsValue) (stored : list Row)
  : Outcome (list JsValue) :=
  if truthy currentData then
    match currentData with
    | JArr nodes => nodesData nodes
    | _ => Throw (PlainError "TypeError: currentData.map is not a function")
    end
  else Ok (map JObj stored).

Definition generateGridSummary (env : Env) (gridId : string) (m : GridManager)
  : GridManager * Outcome GridSummaryStats :=
  match getGridInfo gridId m with
  | Throw e => (m, summaryFailed gridId e)
  | Ok gridInfo =>
      match getGridState gridId m with
      | (m1, Throw e) => (m1, summaryFailed gridId e)
      | (m1, Ok _) =>
          match executeGridMethod gridId "getRenderedNodes" None m1 with
          | (m2, Throw e) => (m2, summaryFailed gridId e)
          | (m2, Ok currentData) =>
              match currentRows currentData (rowData (infoConfig gridInfo)) with
              | Throw e => (m2, summaryFailed gridId e)
              | Ok rows =>
                  match summaryOf dateParses gridId (isoNow env)
                          (columnDefs (infoConfig gridInfo)) rows with
                  | Throw e => (m2, summaryFailed gridId e)
                  | Ok summary => (m2, Ok summary)
                  end
              end
          end
      end
  end.
End Manager.

Arguments Window Api : clear implicits.
Arguments Page Api : clear implicits.
Arguments Browser : clear implicits.
Arguments GridInstance Api : clear implicits.
Arguments GridManager Api : clear implicits.

(* ================================================================== *)
(** * A simulated grid, for running the manager on examples *)
(* ================================================================== *)

(** Rows, column state, a filter model of set filters
    ([{field: {filterType: 'set', values: [...]}}]) and a selection. *)
Record SimApi := mkSimApi {
  simRows : list Row;
  simColumns : list ColumnState;
  simFilter : Row;
  simSelected : list JsValue
}.

Definition cell (row : Row) (fld : string) : JsValue :=
  match lookup fld row with Some v => v | None => JUndefined end.

Definition passesFilter (filterModel : Row) (row : Row) : bool :=
  forallb (fun kv =>
             match snd kv with
             | JObj setFilter =>
                 match lookup "values" setFilter with
                 | Some (JArr allowed) =>
                     existsb (sameValueZero (cell row (fst kv))) allowed
                 | _ => true
                 end
             | _ => true
             end) filterModel.

Definition simDisplayed (api : SimApi) : list Row :=
  filter (passesFilter (simFilter api)) (simRows api).

Definition simMethod (api : SimApi) (name : string)
  : option (list JsValue -> SimApi * Outcome JsValue) :=
  if String.eqb name "setFilterModel" then
    Some (fun args =>
            (mkSimApi (simRows api) (simColumns api)
               (match args with JObj fm :: _ => fm | _ => [] end)
               (simSelected api),
             Ok JUndefined))
  else if String.eqb name "applyColumnState" then
    Some (fun _ => (api, Ok (JBool true)))
  else if String.eqb name "getRenderedNodes" then
    Some (fun _ =>
            (api, Ok (JArr (map (fun r => JObj [("data", JObj r)])
                              (simDisplayed api)))))
  else if String.eqb name "getDisplayedRowCount" then
    Some (fun _ =>
            (api, Ok (JNum (inject_Z (Z.of_nat (List.length (simDisplayed api)))))))
  else None.

#[export] Instance SimGrid : GridApi SimApi := {
  agCreateGrid cfg :=
    Ok (mkSimApi (rowData cfg)
          (map (fun c => mkColumnState (field c) Null Null []) (columnDefs cfg))
          [] []);
  getColumnState api := Ok (simColumns api);
  getFilterModel api := Ok (JObj (simFilter api));
  getSelectedRows api := Ok (simSelected api);
  getDisplayedRowCount api := Ok (Z.of_nat (List.length (simDisplayed api)));
  getDataAsCsv api := Ok "";
  setRowData api rows :=
    (mkSimApi rows (simColumns api) (simFilter api) (simSelected api), Ok tt);
  apiDestroy api := (api, Ok tt);
  apiMethod := simMethod
}.


Definition simWindow (api : SimApi) : Window SimApi := mkWindow true (Some api).

Definition simPage (api : SimApi) (sched : list Delivery) : Page SimApi :=
  mkPage (simWindow api) false sched 0.

Definition simGrid (gridId : string) (api : SimApi) (sched : list Delivery)
  : GridInstance SimApi :=
  mkGridInstance gridId (simPage api sched)
    (mkGridConfig
       (map (fun c => mkColumnDef (colId c) None None None None None None None None [])
            (simColumns api))
       (simRows api) None)
    0%Z 0%Z false.

Definition simManager (gs : list (string * GridInstance SimApi))
    (sink : bool) (closeResult : Outcome unit) : GridManager SimApi :=
  mkGridManager (Some (mkBrowser [] closeResult false)) gs true
    (if sink then Some [] else None) [].

Definition simEnv : Env := mkEnv 1700000000000%Z "k3x9q2m1z" "2023-11-14T22:13:20.000Z"
                             (Ok "<html>").

(* ================================================================== *)
(** * Vocabulary of the properties, and examples *)
(* ================================================================== *)

Section ByKey.
Variable A : Type.
Variable key : A -> Z.

(** The comparators met in the source subtract two keys. *)
Definition byKey (a b : A) : Q := inject_Z (key a - key b).


End ByKey.

(** The rows of the summary's scenario: prices 10, null and 30. *)
Definition priceRows : list JsValue :=
  [JObj [("price", JNum 10)]; JObj [("price", JNull)]; JObj [("price", JNum 30)]].

(** Eight numbers and two words: 80% numeric exactly. *)
Definition eightOfTen : list JsValue :=
  [JNum 1; JNum 2; JNum 3; JNum 4; JNum 5; JNum 6; JNum 7; JNum 8;
   JStr "n/a"; JStr "none"].

(** The three tests of the loop of [inferDataType], each on its own. *)
Definition isNumeric (v : JsValue) : bool :=
  match v with JNum _ => true | _ => false end.

Definition isBoolean (v : JsValue) : bool :=
  match v with JBool _ => true | _ => false end.

Definition isDateLike (dateParses : string -> bool) (v : JsValue) : bool :=
  match v with
  | JDate _ => true
  | JStr s => dateParses s
  | _ => false
  end.

Definition countIf {A} (p : A -> bool) (l : list A) : nat :=
  List.length (filter p l).



(** A date reader that accepts no string, for the examples whose
    strings are not dates. *)
Definition noDateStrings : string -> bool := fun _ => false.


Section Observations.
Context {Api : Type}.



End Observations.

(** The summary's scenario as a configuration, and the same column
    without any row. *)
Definition priceConfig : JsValue :=
  JObj [("columnDefs", JArr [JObj [("field", JStr "price")]]);
        ("rowData", JArr priceRows)].


(** A configuration with the column [status] and two rows. *)
Definition statusConfig : JsValue :=
  JObj [("columnDefs", JArr [JObj [("field", JStr "status")]]);
        ("rowData", JArr [JObj [("status", JStr "completed")];
                          JObj [("status", JStr "pending")]])].

(** [{status: {filterType: 'set', values: ['completed']}}]. *)
Definition completedOnly : JsValue :=
  JObj [("status", JObj [("filterType", JStr "set");
                         ("values", JArr [JStr "completed"])])].


(** A configuration whose row data is not an array. *)
Definition malformedConfig : JsValue :=
  JObj [("columnDefs", JArr [JObj [("field", JStr "a")]]);
        ("rowData", JStr "none")].

Definition statusApi : SimApi :=
  mkSimApi [[("status", JStr "completed")]; [("status", JStr "pending")]]
    [mkColumnState "status" Null Null []] [] [].

(** Five columns: two sorted at index 1, one at index 0, one unsorted,
    one whose sort is undefined and sort index null. *)
Definition sortedApi : SimApi :=
  mkSimApi []
    [mkColumnState "a" (Val "asc") (Val 1%Z) [];
     mkColumnState "b" Null Null [];
     mkColumnState "c" (Val "desc") (Val 0%Z) [];
     mkColumnState "d" (Val "asc") (Val 1%Z) [];
     mkColumnState "e" Undefined Null []]
    [] [].

(** A manager with a sink and no grid. *)
Definition idleManager : GridManager SimApi := simManager [] true (Ok tt).

(** One grid, on a page that answers. *)
Definition healthyManager : GridManager SimApi :=
  simManager [("g1", simGrid "g1" statusApi [])] true (Ok tt).

(** One grid, on a page whose next round trip is lost. *)
Definition fragileManager : GridManager SimApi :=
  simManager [("g1", simGrid "g1" statusApi [LostBefore "Protocol error"])]
    true (Ok tt).

(** One grid, on a page that answers once and then loses a round trip. *)
Definition flakyManager : GridManager SimApi :=
  simManager
    [("g1", simGrid "g1" statusApi [Delivered; LostBefore "Protocol error"])]
    true (Ok tt).

(** Two live grids; the page of the second loses its next round trip,
    and the browser refuses to close. *)
Definition twoGridsManager : GridManager SimApi :=
  simManager
    [("g1", simGrid "g1" statusApi []);
     ("g2", simGrid "g2" statusApi [LostBefore "Protocol error"])]
    true (Throw (PlainError "Browser close failed")).

Definition sortedManager : GridManager SimApi :=
  simManager [("g1", simGrid "g1" sortedApi [])] false (Ok tt).




(* ================================================================== *)
(** * The manager's life cycle, and sequences of operations *)
(* ================================================================== *)

Section Lifecycle.
Context {Api : Type} {GA : GridApi Api}.

(** The manager the constructor gives: no browser, no grid, no sink. *)
Definition newGridManager : GridManager Api :=
  mkGridManager None [] false None [].

(** [setWebSocketManager], with a sink to which no call was made yet. *)
Definition setWebSocketManager (m : GridManager Api) : GridManager Api :=
  mkGridManager (browser m) (grids m) (isInitialized m) (Some []) (console m).

(** [initialize]; [launch] is what [puppeteer.launch(...)] gives. *)
Definition initialize (launch : Outcome Browser) (m : GridManager Api)
  : GridManager Api * Outcome unit :=
  if isInitialized m then (m, Ok tt)
  else
    match launch with
    | Ok b =>
        (log "GridManager: Browser initialized successfully"
           (mkGridManager (Some b) (grids m) true (webSocketManager m) (console m)),
         Ok tt)
    | Throw e =>
        (m, Throw (GridManagerError "Failed to initialize browser"
                     BROWSER_INIT_FAILED None (Some e)))
    end.

(** A call of one of the manager's methods, with what it reads from
    the outside. *)
Inductive Operation : Type :=
| Initialize (launch : Outcome Browser)
| CreateGrid (env : Env) (config : JsValue)
| UpdateGridData (env : Env) (gridId : string) (newData : list Row)
| ExecuteGridMethod (gridId method : string) (params : option (list JsValue))
| ExportGridData (env : Env) (gridId fmt : string)
| GetGridState (gridId : string)
| GenerateGridSummary (dateParses : string -> bool) (env : Env) (gridId : string)
| DestroyGrid (gridId : string)
| Cleanup.

(** The manager after the call, whether it returned or threw. *)
Definition perform (op : Operation) (m : GridManager Api) : GridManager Api :=
  match op with
  | Initialize launch => fst (initialize launch m)
  | CreateGrid env config => fst (createGrid env config m)
  | UpdateGridData env gridId newData => fst (updateGridData env gridId newData m)
  | ExecuteGridMethod gridId method params =>
      fst (executeGridMethod gridId method params m)
  | ExportGridData env gridId fmt => fst (exportGridData env gridId fmt m)
  | GetGridState gridId => fst (getGridState gridId m)
  | GenerateGridSummary dp env gridId => fst (generateGridSummary dp env gridId m)
  | DestroyGrid gridId => fst (destroyGrid gridId m)
  | Cleanup => fst (cleanup m)
  end.

Definition performAll (ops : list Operation) (m : GridManager Api)
  : GridManager Api :=
  fold_left (fun m' op => perform op m') ops m.

(** No record of the registry is marked destroyed. *)
Definition allLive (m : GridManager Api) : Prop :=
  Forall (fun kv => isDestroyed (snd kv) = false) (grids m).

(** The failure is a [GridManagerError] of one of the given codes that
    carries the given identifier. *)
Definition typedFailure {A} (o : Outcome A) (codes : list ErrorCode)
    (gridId : option string) : Prop :=
  match o with
  | Ok _ => True
  | Throw (GridManagerError _ c gid _) => In c codes /\ gid = gridId
  | Throw (PlainError _) => False
  end.

(** The notifications about a grid that neither add it to the mirror
    nor remove it from it. *)
Definition isPassive (gridId : string) (call : SinkCall) : bool :=
  match call with
  | onGridFiltered g _ _ => String.eqb g gridId
  | onGridSorted g _ => String.eqb g gridId
  | onGridExported g _ _ => String.eqb g gridId
  | _ => false
  end.

Definition delivered (notes : list SinkCall) (m : GridManager Api)
  : option (list SinkCall) :=
  option_map (fun calls => calls ++ notes) (webSocketManager m).

(** What one step of a method does to the registry and to the sink:
    nothing; a new page state for a registered grid, with passive
    notifications; new rows for a registered live grid; a new record; a
    deletion. *)
Inductive effect : GridManager Api -> GridManager Api -> Prop :=
| effect_none m m' :
    grids m' = grids m ->
    webSocketManager m' = webSocketManager m ->
    effect m m'
| effect_page m m' gridId grid p notes :
    lookup gridId (grids m) = Some grid ->
    grids m' = mapSet gridId (withPage grid p) (grids m) ->
    forallb (isPassive gridId) notes = true ->
    webSocketManager m' = delivered notes m ->
    effect m m'
| effect_update m m' gridId grid p rows t :
    lookup gridId (grids m) = Some grid ->
    isDestroyed grid = false ->
    grids m' =
      mapSet gridId
        (mkGridInstance (id grid) p
           (mkGridConfig (columnDefs (config grid)) rows (gridOptions (config grid)))
           (createdAt grid) t (isDestroyed grid))
        (grids m) ->
    webSocketManager m' = delivered [onGridDataUpdated gridId rows] m ->
    effect m m'
| effect_create m m' gridId p cfg t :
    grids m' = mapSet gridId (mkGridInstance gridId p cfg t t false) (grids m) ->
    webSocketManager m' = delivered [onGridCreated gridId cfg (rowData cfg)] m ->
    effect m m'
| effect_destroy m m' gridId :
    grids m' = mapDelete gridId (grids m) ->
    webSocketManager m' = delivered [removeGrid gridId] m ->
    effect m m'.

(** Finitely many steps, one after the other. *)
Inductive effects : GridManager Api -> GridManager Api -> Prop :=
| effects_refl m : effects m m
| effects_step m1 m2 m3 : effects m1 m2 -> effect m2 m3 -> effects m1 m3.
End Lifecycle.

(* ================================================================== *)
(** * The broadcast sink's mirror ([web-server/websocket.ts]) *)
(* ================================================================== *)

Module WebSocket.

(** The [config] of a mirrored state: the grid's, or the [{}] that
    [updateGridState] puts by default.  The grid's config is the very
    object the manager's record holds. *)
Inductive MirrorConfig : Type :=
| EmptyObject
| FromGrid (cfg : GridConfig).

(** [interface GridState] of the sink. *)
Record GridState := mkGridState {
  id : string;
  config : MirrorConfig;
  data : list Row;
  filters : option JsValue;
  sorting : option JsValue;
  stats : option JsValue;
  createdAt : string;
  lastUpdated : string
}.

(** [Partial<GridState>]: the keys an update carries. *)
Record Updates := mkUpdates {
  newId : option string;
  newConfig : option MirrorConfig;
  newData : option (list Row);
  newFilters : option JsValue;
  newSorting : option JsValue;
  newStats : option JsValue;
  newCreatedAt : option string;
  newLastUpdated : option string
}.

Definition noUpdates : Updates :=
  mkUpdates None None None None None None None None.

Inductive EventType :=
| grid_created | grid_updated | grid_filtered | grid_sorted
| grid_exported | grid_destroyed.

Inductive EventData : Type :=
| NoData
| Created (config : MirrorConfig) (rowCount : nat)
| Updated (rowCount : nat)
| Filtered (filterModel : JsValue) (displayedRows : Z)
| Sorted (sortModel : JsValue)
| Exported (format filename : string).

(** [interface GridEvent]. *)
Record GridEvent := mkGridEvent {
  type : EventType;
  gridId : string;
  timestamp : string;
  eventData : EventData
}.

(** What [io.emit] broadcasts to the connected clients. *)
Inductive Emission : Type :=
| grid_event (event : GridEvent)
| grid_state_updated (state : GridState)
| grid_removed (gridId : string).

(** [class WebSocketManager]: the mirrored states, a Map in insertion
    order; what was broadcast so far; and the number of readings of the
    clock made so far. *)
Record WebSocketManager := mkWebSocketManager {
  gridStates : list (string * GridState);
  emitted : list Emission;
  clockReads : nat
}.

Definition empty : WebSocketManager := mkWebSocketManager [] [] 0.

Section Methods.
(** [new Date().toISOString()] at the n-th reading of the clock. *)
Variable clock : nat -> string.

Definition emitGridEvent (event : GridEvent) (ws : WebSocketManager)
  : WebSocketManager :=
  mkWebSocketManager (gridStates ws) (emitted ws ++ [grid_event event])
    (clockReads ws).

Definition orElse {A} (o : option A) (d : A) : A :=
  match o with Some a => a | None => d end.

Definition orKeep {A} (o : option A) (d : option A) : option A :=
  match o with Some a => Some a | None => d end.

(** [{id, config: {}, data: [], createdAt: now, ...existing,
    ...updates, lastUpdated: now}]. *)
Definition mergeState (gridId now1 now2 : string) (existing : option GridState)
    (updates : Updates) : GridState :=
  let base :=
    match existing with
    | Some s => s
    | None => mkGridState gridId EmptyObject [] None None None now1 now1
    end in
  mkGridState
    (orElse (newId updates) (id base))
    (orElse (newConfig updates) (config base))
    (orElse (newData updates) (data base))
    (orKeep (newFilters updates) (filters base))
    (orKeep (newSorting updates) (sorting base))
    (orKeep (newStats updates) (stats base))
    (orElse (newCreatedAt updates) (createdAt base))
    now2.

Definition updateGridState (gridId : string) (updates : Updates)
    (ws : WebSocketManager) : WebSocketManager :=
  let gridState :=
    mergeState gridId (clock (clockReads ws)) (clock (S (clockReads ws)))
      (lookup gridId (gridStates ws)) updates in
  mkWebSocketManager (mapSet gridId gridState (gridStates ws))
    (emitted ws ++ [grid_state_updated gridState])
    (S (S (clockReads ws))).

Definition removeGrid (gridId : string) (ws : WebSocketManager)
  : WebSocketManager :=
  mkWebSocketManager (mapDelete gridId (gridStates ws))
    (emitted ws ++
       [grid_removed gridId;
        grid_event (mkGridEvent grid_destroyed gridId (clock (clockReads ws)) NoData)])
    (S (clockReads ws)).

Definition getAllGridStates (ws : WebSocketManager) : list GridState :=
  map snd (gridStates ws).

Definition getGridState (gridId : string) (ws : WebSocketManager)
  : option GridState :=
  lookup gridId (gridStates ws).

Definition onGridCreated (gridId : string) (config : MirrorConfig)
    (data : list Row) (ws : WebSocketManager) : WebSocketManager :=
  let n := clockReads ws in
  let gridState :=
    mkGridState gridId config data None None None (clock n) (clock (S n)) in
  mkWebSocketManager (mapSet gridId gridState (gridStates ws))
    (emitted ws ++
       [grid_event (mkGridEvent grid_created gridId (clock (S (S n)))
                      (Created config (List.length data)));
        grid_state_updated gridState])
    (S (S (S n))).

Definition onGridDataUpdated (gridId : string) (rows : list Row)
    (ws : WebSocketManager) : WebSocketManager :=
  let ws1 :=
    updateGridState gridId
      (mkUpdates None None (Some rows) None None None None None) ws in
  mkWebSocketManager (gridStates ws1)
    (emitted ws1 ++
       [grid_event (mkGridEvent grid_updated gridId (clock (clockReads ws1))
                      (Updated (List.length rows)))])
    (S (clockReads ws1)).

Definition onGridFiltered (gridId : string) (filterModel : JsValue)
    (displayedRows : Z) (ws : WebSocketManager) : WebSocketManager :=
  let ws1 :=
    updateGridState gridId
      (mkUpdates None None None (Some filterModel) None None None None) ws in
  mkWebSocketManager (gridStates ws1)
    (emitted ws1 ++
       [grid_event (mkGridEvent grid_filtered gridId (clock (clockReads ws1))
                      (Filtered filterModel displayedRows))])
    (S (clockReads ws1)).

Definition onGridSorted (gridId : string) (sortModel : JsValue)
    (ws : WebSocketManager) : WebSocketManager :=
  let ws1 :=
    updateGridState gridId
      (mkUpdates None None None None (Some sortModel) None None None) ws in
  mkWebSocketManager (gridStates ws1)
    (emitted ws1 ++
       [grid_event (mkGridEvent grid_sorted gridId (clock (clockReads ws1))
                      (Sorted sortModel))])
    (S (clockReads ws1)).

Definition onGridExported (gridId format filename : string)
    (ws : WebSocketManager) : WebSocketManager :=
  mkWebSocketManager (gridStates ws)
    (emitted ws ++
       [grid_event (mkGridEvent grid_exported gridId (clock (clockReads ws))
                      (Exported format filename))])
    (S (clockReads ws)).

(** What a client receives on connection: [socket.emit('grid_states',
    Array.from(this.gridStates.values()))]. *)
Definition onConnection (ws : WebSocketManager) : list GridState :=
  getAllGridStates ws.

End Methods.
End WebSocket.

Section SinkGlue.
Variable clock : nat -> string.

(** The write [grid.config.rowData = rows] of [updateGridData], as it
    shows in a mirrored state whose config is the object that the
    manager's record of the grid holds. *)
Definition writeRowData (rows : list Row) (s : WebSocket.GridState)
  : WebSocket.GridState :=
  match WebSocket.config s with
  | WebSocket.FromGrid cfg =>
      WebSocket.mkGridState (WebSocket.id s)
        (WebSocket.FromGrid (mkGridConfig (columnDefs cfg) rows (gridOptions cfg)))
        (WebSocket.data s) (WebSocket.filters s) (WebSocket.sorting s)
        (WebSocket.stats s) (WebSocket.createdAt s) (WebSocket.lastUpdated s)
  | WebSocket.EmptyObject => s
  end.

(** That write, seen from the mirror: the state of the grid shares the
    config object, the other states do not. *)
Definition sharedConfigWrite (gridId : string) (rows : list Row)
    (ws : WebSocket.WebSocketManager) : WebSocket.WebSocketManager :=
  WebSocket.mkWebSocketManager
    (map (fun kv =>
            if String.eqb (fst kv) gridId
            then (fst kv, writeRowData rows (snd kv))
            else kv)
         (WebSocket.gridStates ws))
    (WebSocket.emitted ws) (WebSocket.clockReads ws).

(** A call of the manager, carried out by the sink. *)
Definition deliver (call : SinkCall) (ws : WebSocket.WebSocketManager)
  : WebSocket.WebSocketManager :=
  match call with
  | onGridCreated gridId cfg rows =>
      WebSocket.onGridCreated clock gridId (WebSocket.FromGrid cfg) rows ws
  | onGridDataUpdated gridId rows =>
      WebSocket.onGridDataUpdated clock gridId rows
        (sharedConfigWrite gridId rows ws)
  | onGridFiltered gridId filterModel displayedRows =>
      WebSocket.onGridFiltered clock gridId filterModel displayedRows ws
  | onGridSorted gridId sortModel => WebSocket.onGridSorted clock gridId sortModel ws
  | onGridExported gridId fmt name => WebSocket.onGridExported clock gridId fmt name ws
  | removeGrid gridId => WebSocket.removeGrid clock gridId ws
  end.

(** The sink after the calls the manager made, from an empty mirror. *)
Definition replay (calls : list SinkCall) : WebSocket.WebSocketManager :=
  fold_left (fun ws call => deliver call ws) calls WebSocket.empty.


End SinkGlue.

(* ================================================================== *)
(** * Further vocabulary of the properties *)
(* ================================================================== *)


Section PageHealth.
Context {Api : Type}.

(** The page is open and answers its next round trip. *)
Definition answers (p : Page Api) : Prop :=
  closed p = false /\
  (schedule p = [] \/ exists rest, schedule p = Delivered :: rest).
End PageHealth.
(* ================================================================== *)
(** * Columns and rows of the examples *)
(* ================================================================== *)

(** The column descriptors [{field: f}] and [{field: f, type: t}]. *)
Definition plainColumn (f : string) : ColumnDef :=
  mkColumnDef f None None None None None None None None [].




(** The names that every object inherits from [Object.prototype]:
    read through [dataTypes[t]] they are not [undefined] before the first
    write, so that the counter of such a type does not start from 0. *)
Definition inheritedNames : list string :=
  ["constructor"; "hasOwnProperty"; "isPrototypeOf"; "propertyIsEnumerable";
   "toLocaleString"; "toString"; "valueOf"; "__proto__"; "__defineGetter__";
   "__defineSetter__"; "__lookupGetter__"; "__lookupSetter__"].

(** No column declares such a name as its type. *)
Definition declaresOwnNames (defs : list ColumnDef) : Prop :=
  forall def t, In def defs -> type_ def = Some t -> ~ In t inheritedNames.

(** How many of the columns were given the type [t]. *)
Definition columnsOfType (t : string) (stats : list ColumnStats) : nat :=
  countIf (fun st => String.eqb (statType st) t) stats.

(** The entry of a counter that was bumped [n] times. *)
Definition counted (n : nat) : option nat :=
  match n with 0 => None | S _ => Some n end.

(* ================================================================== *)
(** * The stored snapshots *)
(* ================================================================== *)

Section Snapshots.
Context {Api : Type} {GA : GridApi Api}.

(** What the registry keeps of a grid besides its page. *)
Definition snapshotOf (grid : GridInstance Api) : GridInfo :=
  mkGridInfo (id grid) (config grid) (createdAt grid) (lastUpdated grid)
    (isDestroyed grid).

Definition snapshots (m : GridManager Api) : list (string * GridInfo) :=
  map (fun kv => (fst kv, snapshotOf (snd kv))) (grids m).

(** The calls that go to the page of a grid without writing to its
    record: method calls, exports, state reads and summaries. *)
Definition keepsSnapshot (op : Operation) : bool :=
  match op with
  | ExecuteGridMethod _ _ _ | ExportGridData _ _ _ | GetGridState _
  | GenerateGridSummary _ _ _ => true
  | _ => false
  end.
End Snapshots.

(* ================================================================== *)
(** * The callers: the grid list and data sample resources
      ([data-resources.ts]) and the routes that serve a grid
      ([web-server/routes.ts]) *)
(* ================================================================== *)

(** [s.includes(sub)]. *)
Fixpoint includes (sub s : string) : bool :=
  String.prefix sub s ||
  match s with
  | EmptyString => false
  | String _ rest => includes sub rest
  end.

(** An entry of the grid list: what was read of the grid, or the
    report of the inner [catch]. *)
Record GridListEntry := mkGridListEntry {
  listedId : string;
  listedCreatedAt : Z;
  listedLastUpdated : Z;
  listedColumnCount : nat;
  listedRowCount : nat;
  listedColumnFields : list string;
  listedHasFilters : bool
}.

Inductive GridListItem : Type :=
| Listed (entry : GridListEntry)
| NotRetrieved (gridId error message : string).

Record GridListResponse := mkGridListResponse {
  totalGrids : nat;
  listedGrids : list GridListItem;
  listGeneratedAt : string
}.

(** What a route answers: a status and a body, or a status and an
    error message. *)
Inductive RouteReply (A : Type) : Type :=
| Replied (status : nat) (body : A)
| Refused (status : nat) (error : string).
Arguments Replied {A} status body.
Arguments Refused {A} status error.

Record GridData := mkGridData {
  servedColumnDefs : list ColumnDef;
  servedRowData : list Row;
  servedGridOptions : Row
}.


(** The body of a resource: its contents, or the report of its
    [catch]. *)
Inductive ResourceBody (A : Type) : Type :=
| Contents (a : A)
| ErrorReport (gridId error message generatedAt : string).
Arguments Contents {A} a.
Arguments ErrorReport {A} gridId error message generatedAt.

Record DataSample := mkDataSample {
  sampleGridId : string;
  sampleSize : nat;
  sampleTotalRows : Z;
  sampleDisplayedRows : Z;
  sampleIsFiltered : bool;
  sampleIsSorted : bool;
  sampleColumnFields : list string;
  sampleData : list JsValue;
  sampleNote : string;
  sampleGeneratedAt : string
}.

(** [Object.keys(v).length > 0]: a [TypeError] on [null] and
    [undefined]; the own keys of an object, the indices of an array or
    of a string; nothing on the other values. *)
Definition hasKeys (v : JsValue) : Outcome bool :=
  match v with
  | JUndefined | JNull =>
      Throw (PlainError "TypeError: Cannot convert undefined or null to object")
  | JObj props => Ok (negb (Nat.eqb (List.length props) 0))
  | JArr items => Ok (negb (Nat.eqb (List.length items) 0))
  | JStr s => Ok (negb (Nat.eqb (String.length s) 0))
  | _ => Ok false
  end.

Section Callers.
Context {Api : Type} {GA : GridApi Api}.

(** [Object.keys(gridOptions || {})]. *)
Definition optionKeys (gridOptions : option Row) : list string :=
  match gridOptions with
  | Some props => map fst props
  | None => []
  end.

(** The callback of [activeGrids.map] in the grid list resource. *)
Definition gridListItem (m : GridManager Api) (gridId : string) : GridListItem :=
  match getGridInfo gridId m with
  | Ok info =>
      Listed
        {| listedId := gridId;
           listedCreatedAt := infoCreatedAt info;
           listedLastUpdated := infoLastUpdated info;
           listedColumnCount := List.length (columnDefs (infoConfig info));
           listedRowCount := List.length (rowData (infoConfig info));
           listedColumnFields := map field (columnDefs (infoConfig info));
           listedHasFilters :=
             existsb (includes "filter") (optionKeys (gridOptions (infoConfig info))) |}
  | Throw e =>
      NotRetrieved gridId "Failed to retrieve grid information" (errorMessage e)
  end.

(** The response of the resource [grid://list], before it is printed
    as JSON. *)
Definition gridListResource (env : Env) (m : GridManager Api) : GridListResponse :=
  let activeGrids := getActiveGrids m in
  {| totalGrids := List.length activeGrids;
     listedGrids := map (gridListItem m) activeGrids;
     listGeneratedAt := isoNow env |}.

(** [GET /api/grids/:gridId/data]. *)
Definition gridDataRoute (gridId : string) (m : GridManager Api)
    (wsManager : WebSocket.WebSocketManager) : RouteReply GridData :=
  match getGridInfo gridId m with
  | Throw e => Refused 404 (errorMessage e)
  | Ok gridInfo =>
      match WebSocket.getGridState gridId wsManager with
      | None => Refused 404 "Grid data not found"
      | Some webState =>
          Replied 200
            {| servedColumnDefs := columnDefs (infoConfig gridInfo);
               servedRowData := WebSocket.data webState;
               servedGridOptions :=
                 match gridOptions (infoConfig gridInfo) with
                 | Some options => options
                 | None => []
                 end |}
      end
  end.

(** [displayedNodes ? displayedNodes.slice(0, 10).map(node => node.data) : []]. *)
Definition renderedSample (displayedNodes : JsValue) : Outcome (list JsValue) :=
  if truthy displayedNodes then
    match displayedNodes with
    | JArr nodes => nodesData (firstn 10 nodes)
    | _ => Throw (PlainError "TypeError: displayedNodes.slice(...).map is not a function")
    end
  else Ok [].

Definition sampleFailed {A} (env : Env) (gridId : string) (e : JsError)
  : ResourceBody A :=
  ErrorReport gridId "Failed to retrieve grid data sample" (errorMessage e)
    (isoNow env).

(** The response of the resource [grid://data/<gridId>], before it is
    printed as JSON. *)
Definition dataSampleResource (env : Env) (gridId : string) (m : GridManager Api)
  : GridManager Api * ResourceBody DataSample :=
  match getGridInfo gridId m with
  | Throw e => (m, sampleFailed env gridId e)
  | Ok gridInfo =>
      match getGridState gridId m with
      | (m1, Throw e) => (m1, sampleFailed env gridId e)
      | (m1, Ok gridState) =>
          let fallback := map JObj (firstn 10 (rowData (infoConfig gridInfo))) in
          let (m2, read) := executeGridMethod gridId "getRenderedNodes" None m1 in
          let sample :=
            match read with
            | Ok displayedNodes =>
                match renderedSample displayedNodes with
                | Ok rows => rows
                | Throw _ => fallback
                end
            | Throw _ => fallback
            end in
          match hasKeys (filterState gridState) with
          | Throw e => (m2, sampleFailed env gridId e)
          | Ok filtered =>
              (m2,
               Contents
                 {| sampleGridId := gridId;
                    sampleSize := List.length sample;
                    sampleTotalRows := rowCount gridState;
                    sampleDisplayedRows := displayedRowCount gridState;
                    sampleIsFiltered := filtered;
                    sampleIsSorted := negb (Nat.eqb (List.length (sortState gridState)) 0);
                    sampleColumnFields := map field (columnDefs (infoConfig gridInfo));
                    sampleData := sample;
                    sampleNote :=
                      if Nat.ltb (List.length sample) 10
                      then "Showing all available data"
                      else "Showing first 10 rows of displayed data";
                    sampleGeneratedAt := isoNow env |})
          end
      end
  end.
End Callers.

(* ================================================================== *)
(** * The insights of the demo scenarios ([examples/demo-scenarios.ts]) *)
(* ================================================================== *)

(** A plain object used as a table, [{} as Record<string, number>]:
    its own properties in the order of their creation.  Reads of the
    names in [inheritedNames] are outside this model. *)

(** [10 * acc + digit] along a string of decimal digits. *)
Fixpoint digitsValue (s : string) (acc : N) : option N :=
  match s with
  | EmptyString => Some acc
  | String c rest =>
      let n := N_of_ascii c in
      if (N.leb 48 n && N.leb n 57)%bool
      then digitsValue rest (10 * acc + (n - 48))%N
      else None
  end.

(** An array index: the canonical decimal print of an integer below
    2^32 - 1. *)
Definition arrayIndex (s : string) : option N :=
  match s with
  | EmptyString => None
  | String c rest =>
      if Ascii.eqb c "0" then
        if String.eqb rest "" then Some 0%N else None
      else
        match digitsValue s 0%N with
        | Some n => if N.ltb n 4294967295%N then Some n else None
        | None => None
        end
  end.

Definition isArrayIndex {V} (kv : string * V) : bool :=
  match arrayIndex (fst kv) with Some _ => true | None => false end.

Definition indexValue {V} (kv : string * V) : Z :=
  match arrayIndex (fst kv) with Some n => Z.of_N n | None => 0%Z end.

(** [Object.entries(o)]: the array indices first, in ascending order,
    then the other names in the order of their creation. *)
Definition objectEntries {V} (o : list (string * V)) : list (string * V) :=
  jsSort (byKey indexValue) (filter isArrayIndex o)
  ++ filter (fun kv => negb (isArrayIndex kv)) o.



(** [.sort((a, b) => b.count - a.count)]. *)
Definition mostFirst (x y : string * nat) : Q := (ofNat (snd y) - ofNat (snd x))%Q.




Section SalesInsights.
(** The sales records that the sales scenario passes, and the fields
    read of them: a string and a number. *)
Variable SalesRecord : Type.
Variable region : SalesRecord -> string.
Variable revenue : SalesRecord -> Q.

End SalesInsights.

Section ItemInsights.
(** The rows that the sales, e-commerce and business intelligence
    scenarios pass, and the fields read of them. *)
Variable Item : Type.
Variable category : Item -> string.
Variable revenue : Item -> Q.
Variable leadSource : Item -> string.
Variable customerLifetimeValue : Item -> Q.


End ItemInsights.

Section EmployeeInsights.
Variable Employee : Type.
Variable department : Employee -> string.

(** The result stands for the array of [{department, count}]. *)
Definition getDepartmentDistribution (employeeData : list Employee)
  : list (string * nat) :=
  let deptCounts :=
    fold_left (fun acc emp => bump (department emp) acc) employeeData [] in
  jsSort mostFirst (objectEntries deptCounts).
End EmployeeInsights.

Section FinancialInsights.
Variable Transaction : Type.
Variable category : Transaction -> string.
Variable amount : Transaction -> Q.

End FinancialInsights.


(** No row is filed under a name that every object inherits. *)
Definition ownNames {A} (key : A -> string) (data : list A) : Prop :=
  forall item, In item data -> ~ In (key item) inheritedNames.



(** Three employees in two departments. *)
Definition staff : list (string * string) :=
  [("Ann", "Sales"); ("Bob", "Engineering"); ("Cy", "Engineering")].

(* ================================================================== *)
(** * Properties of the statistics reader *)
(* ================================================================== *)

Lemma countValue_counts (dp : string -> bool) (l : list JsValue) (c : Counts) :
  numberCount (fold_left (countValue dp) l c) = numberCount c + countIf isNumeric l /\
  booleanCount (fold_left (countValue dp) l c) = booleanCount c + countIf isBoolean l /\
  dateCount (fold_left (countValue dp) l c) = dateCount c + countIf (isDateLike dp) l.
Proof.
  revert c. induction l as [|v l IH]; intro c; simpl.
  - unfold countIf; simpl. lia.
  - destruct (IH (countValue dp c v)) as (Hn & Hb & Hd).
    rewrite Hn, Hb, Hd. unfold countIf.
    destruct v; simpl; try destruct (dp s); simpl; lia.
Qed.

Lemma Qgtb_ratio (n t : nat) :
  0 < t -> Qgtb (ofNat n / ofNat t) (8 # 10) = (8 * t <? 10 * n).
Proof.
  intro Ht. unfold Qgtb.
  destruct (8 * t <? 10 * n) eqn:E.
  - apply Nat.ltb_lt in E. apply negb_true_iff.
    destruct (Qle_bool (ofNat n / ofNat t) (8 # 10)) eqn:L; [|reflexivity].
    exfalso. apply Qle_bool_iff in L.
    assert (Hpos : (0 < ofNat t)%Q).
    { unfold ofNat, Qlt; simpl. lia. }
    apply (Qmult_le_r _ _ _ Hpos) in L.
    unfold Qdiv in L. rewrite <- Qmult_assoc in L.
    rewrite (Qmult_comm (/ ofNat t)) in L.
    rewrite Qmult_inv_r in L by (intro H0; rewrite H0 in Hpos; inversion Hpos).
    rewrite Qmult_1_r in L.
    unfold ofNat, Qle, Qmult, inject_Z in L; cbn [Qnum Qden Pos.mul] in L. lia.
  - apply Nat.ltb_ge in E. apply negb_false_iff. apply Qle_bool_iff.
    assert (Hpos : (0 < ofNat t)%Q).
    { unfold ofNat, Qlt; simpl. lia. }
    apply Qle_shift_div_r; [exact Hpos|].
    unfold ofNat, Qle, Qmult, inject_Z; cbn [Qnum Qden Pos.mul]. lia.
Qed.



Lemma analyzeColumns_nth dp data defs stats :
  analyzeColumns dp data defs = Ok stats ->
  List.length stats = List.length defs /\
  forall i def, nth_error defs i = Some def ->
    exists st, nth_error stats i = Some st /\
               analyzeColumnData dp data (field def) def = Ok st.
Proof.
  revert stats. induction defs as [|d defs IH]; intros stats H; simpl in H.
  - inversion H; subst. split; [reflexivity|]. intros [|i] def Hn; discriminate.
  - destruct (analyzeColumnData dp data (field d) d) as [st|] eqn:Hd; [|discriminate].
    destruct (analyzeColumns dp data defs) as [sts|] eqn:Hs; [|discriminate].
    inversion H; subst. destruct (IH sts eq_refl) as [Hl Hn]. split.
    + simpl. f_equal. exact Hl.
    + intros [|i] def Hi; simpl in Hi.
      * inversion Hi; subst. exists st. split; [reflexivity|exact Hd].
      * apply Hn. exact Hi.
Qed.

Lemma Math_round_comp (x y : Q) : (x == y)%Q -> Math_round x = Math_round y.
Proof.
  intro H. unfold Math_round. f_equal. apply Qfloor_comp. rewrite H. reflexivity.
Qed.

(** C8, as the specification states it, fails: eight numeric values in a
    sample of ten are 80% of it, and the column is inferred as text, not
    as number (the comparison is [> 0.8]). *)
Lemma inferDataType_eight_of_ten_cex :
  countIf isNumeric (firstn 10 eightOfTen) = 8 /\
  List.length (firstn 10 eightOfTen) = 10 /\
  inferDataType noDateStrings eightOfTen = "text" /\
  inferDataType noDateStrings eightOfTen <> "number".
Proof.
  repeat split; try reflexivity.
  vm_compute. discriminate.
Qed.

(** C8 (amended). The inferred type is computed from the first 10
    non-null values: with no value at all it is unknown; otherwise it is
    number when strictly more than 80% of the sample are numeric, else
    boolean when strictly more than 80% are booleans, else date when
    strictly more than 80% are dates or strings that parse as a date,
    else text. *)
Theorem inferDataType_strict_thresholds (dp : string -> bool) (values : list JsValue) :
  let sample := firstn 10 values in
  let total := List.length sample in
  let numbers := countIf isNumeric sample in
  let booleans := countIf isBoolean sample in
  let dates := countIf (isDateLike dp) sample in
  (values = [] -> inferDataType dp values = "unknown") /\
  (values <> [] ->
     (8 * total < 10 * numbers -> inferDataType dp values = "number") /\
     (10 * numbers <= 8 * total -> 8 * total < 10 * booleans ->
        inferDataType dp values = "boolean") /\
     (10 * numbers <= 8 * total -> 10 * booleans <= 8 * total ->
      8 * total < 10 * dates -> inferDataType dp values = "date") /\
     (10 * numbers <= 8 * total -> 10 * booleans <= 8 * total ->
      10 * dates <= 8 * total -> inferDataType dp values = "text")).
Proof.
  intros sample total numbers booleans dates. split.
  - intros ->. reflexivity.
  - intro Hne.
    assert (Hpos : 0 < total).
    { subst total sample. destruct values as [|v vs]; [congruence|]. simpl. lia. }
    assert (Hdef : inferDataType dp values =
                   if 8 * total <? 10 * numbers then "number"
                   else if 8 * total <? 10 * booleans then "boolean"
                   else if 8 * total <? 10 * dates then "date"
                   else "text").
    { unfold inferDataType. destruct values as [|v vs]; [congruence|].
      fold sample. fold total.
      destruct (countValue_counts dp sample (mkCounts 0 0 0 0)) as (Hn & Hb & Hd).
      rewrite Hn, Hb, Hd. simpl numberCount. simpl booleanCount. simpl dateCount.
      rewrite !Nat.add_0_l.
      rewrite !(Qgtb_ratio _ Hpos). reflexivity. }
    rewrite Hdef. repeat split; intros.
    + replace (8 * total <? 10 * numbers) with true
        by (symmetry; apply Nat.ltb_lt; assumption).
      reflexivity.
    + replace (8 * total <? 10 * numbers) with false
        by (symmetry; apply Nat.ltb_ge; assumption).
      replace (8 * total <? 10 * booleans) with true
        by (symmetry; apply Nat.ltb_lt; assumption).
      reflexivity.
    + replace (8 * total <? 10 * numbers) with false
        by (symmetry; apply Nat.ltb_ge; assumption).
      replace (8 * total <? 10 * booleans) with false
        by (symmetry; apply Nat.ltb_ge; assumption).
      replace (8 * total <? 10 * dates) with true
        by (symmetry; apply Nat.ltb_lt; assumption).
      reflexivity.
    + replace (8 * total <? 10 * numbers) with false
        by (symmetry; apply Nat.ltb_ge; assumption).
      replace (8 * total <? 10 * booleans) with false
        by (symmetry; apply Nat.ltb_ge; assumption).
      replace (8 * total <? 10 * dates) with false
        by (symmetry; apply Nat.ltb_ge; assumption).
      reflexivity.
Qed.

Lemma inferDataType_strict_thresholds_witness :
  eightOfTen <> [] /\ inferDataType noDateStrings eightOfTen = "text".
Proof.
  split; [discriminate|].
  destruct (inferDataType_strict_thresholds noDateStrings eightOfTen) as [_ H].
  destruct (H ltac:(discriminate)) as (_ & _ & _ & Ht).
  apply Ht; vm_compute; lia.
Defined.

(* ================================================================== *)
(** * Properties of the stable sort *)
(* ================================================================== *)

Section SortByKey.
Variable A : Type.
Variable key : A -> Z.


Lemma sortInsert_perm (x : A) (l : list A) :
  Permutation (x :: l) (sortInsert (byKey key) x l).
Proof.
  induction l as [|y l IH]; simpl; [apply Permutation_refl|].
  destruct (Qle_bool (byKey key x y) 0); [apply Permutation_refl|].
  eapply perm_trans; [apply perm_swap|]. apply perm_skip. exact IH.
Qed.

Lemma jsSort_perm (l : list A) : Permutation l (jsSort (byKey key) l).
Proof.
  induction l as [|x l IH]; simpl; [apply perm_nil|].
  eapply perm_trans; [apply perm_skip; exact IH|apply sortInsert_perm].
Qed.




End SortByKey.

(* ================================================================== *)
(** * The registry and the transport: basic facts *)
(* ================================================================== *)

Section MapFacts.
Variable V : Type.

Lemma lookup_mapSet_same (k : string) (v : V) (l : list (string * V)) :
  lookup k (mapSet k v l) = Some v.
Proof.
  induction l as [|[k' v'] l IH]; simpl.
  - rewrite String.eqb_refl. reflexivity.
  - destruct (String.eqb k k') eqn:E; simpl.
    + rewrite String.eqb_refl. reflexivity.
    + rewrite E. exact IH.
Qed.

Lemma lookup_mapSet_other (k k0 : string) (v : V) (l : list (string * V)) :
  k <> k0 -> lookup k0 (mapSet k v l) = lookup k0 l.
Proof.
  intro Hne. induction l as [|[k' v'] l IH]; simpl.
  - destruct (String.eqb_spec k0 k); [congruence|reflexivity].
  - destruct (String.eqb_spec k k'); simpl.
    + subst k'. destruct (String.eqb_spec k0 k); [congruence|reflexivity].
    + destruct (String.eqb k0 k'); [reflexivity|exact IH].
Qed.

Lemma lookup_mapDelete_same (k : string) (l : list (string * V)) :
  lookup k (mapDelete k l) = None.
Proof.
  induction l as [|[k' v'] l IH]; simpl; [reflexivity|].
  destruct (String.eqb k k') eqn:E; simpl; [exact IH|].
  rewrite E. exact IH.
Qed.

Lemma lookup_mapDelete_other (k k0 : string) (l : list (string * V)) :
  k <> k0 -> lookup k0 (mapDelete k l) = lookup k0 l.
Proof.
  intro Hne. induction l as [|[k' v'] l IH]; simpl; [reflexivity|].
  destruct (String.eqb_spec k k'); simpl.
  - subst k'. destruct (String.eqb_spec k0 k); [congruence|exact IH].
  - destruct (String.eqb k0 k'); [reflexivity|exact IH].
Qed.

Lemma lookup_Some_In_keys (k : string) (v : V) (l : list (string * V)) :
  lookup k l = Some v -> In k (mapKeys l).
Proof.
  induction l as [|[k' v'] l IH]; simpl; [discriminate|].
  destruct (String.eqb_spec k k'); [left; congruence|].
  intro H. right. apply IH. exact H.
Qed.

Lemma lookup_None_not_In_keys (k : string) (l : list (string * V)) :
  lookup k l = None -> ~ In k (mapKeys l).
Proof.
  induction l as [|[k' v'] l IH]; simpl; [tauto|].
  destruct (String.eqb_spec k k'); [discriminate|].
  intros H [Hk|Hin]; [congruence|]. exact (IH H Hin).
Qed.

End MapFacts.

Section PageFacts.
Context {Api : Type} {GA : GridApi Api}.

Lemma roundTrip_calls {A} (f : Window Api -> Window Api * Outcome A) (p : Page Api) :
  calls (fst (roundTrip f p)) = S (calls p).
Proof.
  unfold roundTrip. destruct (closed p); [reflexivity|].
  destruct (schedule p) as [|[|msg|msg] rest]; reflexivity.
Qed.





Lemma getGridInstance_lookup (gridId : string) (m : GridManager Api) grid :
  getGridInstance gridId m = Ok grid ->
  lookup gridId (grids m) = Some grid /\ isDestroyed grid = false.
Proof.
  unfold getGridInstance. destruct (lookup gridId (grids m)) as [g|]; [|discriminate].
  destruct (isDestroyed g) eqn:E; [discriminate|].
  intro H. inversion H; subst. auto.
Qed.

End PageFacts.

(* ================================================================== *)
(** * Reading the state of a grid *)
(* ================================================================== *)




(* ================================================================== *)
(** * Exporting *)
(* ================================================================== *)

(** C7. For an identifier that resolves, an export in a format other
    than csv and excel fails with the invalid-format error and leaves the
    manager and every page untouched: no round trip is made; a round
    trip to the grid's page is made for the two valid formats only. *)
Theorem exportGridData_validates_format_first {Api} {GA : GridApi Api}
    (env : Env) (gridId fmt : string) (m : GridManager Api) (grid : GridInstance Api) :
  getGridInstance gridId m = Ok grid ->
  (fmt <> "csv" -> fmt <> "excel" ->
     exists cause,
       exportGridData env gridId fmt m
       = (m, Throw (GridManagerError "Invalid export format" INVALID_EXPORT_FORMAT
                      (Some gridId) (Some cause)))) /\
  (fmt = "csv" \/ fmt = "excel" ->
     exists grid',
       lookup gridId (grids (fst (exportGridData env gridId fmt m))) = Some grid' /\
       calls (page grid') = S (calls (page grid))) /\
  (forall grid',
     lookup gridId (grids (fst (exportGridData env gridId fmt m))) = Some grid' ->
     calls (page grid') <> calls (page grid) -> fmt = "csv" \/ fmt = "excel").
Proof.
  intro Hg. destruct (getGridInstance_lookup _ _ Hg) as [Hl _].
  assert (Hbad : fmt <> "csv" -> fmt <> "excel" ->
                 exportGridData env gridId fmt m
                 = (m, Throw (GridManagerError "Invalid export format"
                                INVALID_EXPORT_FORMAT (Some gridId)
                                (Some (PlainError "ZodError"))))).
  { intros H1 H2. unfold exportGridData. rewrite Hg. unfold ExportFormatSchema.
    destruct (String.eqb_spec fmt "csv"); [congruence|].
    destruct (String.eqb_spec fmt "excel"); [congruence|]. reflexivity. }
  split; [|split].
  - intros H1 H2. eexists. apply Hbad; assumption.
  - intro Hok. unfold exportGridData. rewrite Hg.
    replace (ExportFormatSchema fmt) with true
      by (unfold ExportFormatSchema; destruct Hok; subst; reflexivity).
    destruct (evaluate inPageCsv (page grid)) as [p r] eqn:He.
    assert (Hc : calls p = S (calls (page grid))).
    { unfold evaluate in He. rewrite <- (roundTrip_calls inPageCsv (page grid)).
      rewrite He. reflexivity. }
    exists (withPage grid p). split; [|exact Hc].
    destruct r; simpl; apply lookup_mapSet_same.
  - intros grid' Hl' Hcalls.
    destruct (String.eqb_spec fmt "csv") as [|H1]; [auto|].
    destruct (String.eqb_spec fmt "excel") as [|H2]; [auto|].
    exfalso. rewrite (Hbad H1 H2) in Hl'. simpl in Hl'.
    rewrite Hl in Hl'. inversion Hl'; subst. apply Hcalls. reflexivity.
Qed.

Lemma exportGridData_validates_format_first_witness :
  exists grid cause,
    getGridInstance "g1" healthyManager = Ok grid /\
    exportGridData simEnv "g1" "pdf" healthyManager
    = (healthyManager,
       Throw (GridManagerError "Invalid export format" INVALID_EXPORT_FORMAT
                (Some "g1") (Some cause))).
Proof.
  eexists. 
  assert (Hg : getGridInstance "g1" healthyManager = Ok (simGrid "g1" statusApi []))
    by reflexivity.
  destruct (@exportGridData_validates_format_first SimApi SimGrid simEnv "g1" "pdf"
              healthyManager _ Hg) as [H _].
  destruct (H ltac:(discriminate) ltac:(discriminate)) as [cause Hc].
  exists cause. split; [exact Hg|exact Hc].
Defined.

(* ================================================================== *)
(** * Row counts *)
(* ================================================================== *)


(* ================================================================== *)
(** * Destroying a grid *)
(* ================================================================== *)

(** C1, as the specification states it, fails: the page of the grid
    loses the round trip of the destroy call; destroy reports the
    destroy-failed error, and the record is still registered, still
    resolves and is still listed. *)
Lemma destroyGrid_failure_leaves_entry_cex :
  exists m' cause,
    destroyGrid "g1" fragileManager
    = (m', Throw (GridManagerError "Failed to destroy grid" DESTROY_FAILED
                    (Some "g1") (Some cause))) /\
    lookup "g1" (grids m') <> None /\
    isOk (getGridInstance "g1" m') = true /\
    In "g1" (getActiveGrids m').
Proof.
  do 2 eexists. split; [vm_compute; reflexivity|].
  split; [discriminate|]. split; [reflexivity|].
  left. reflexivity.
Qed.

(** C1 (amended). For a registered, live grid, when the destroy call on
    the surface throws, or the closing of the page does, destroy reports
    a DestroyFailedError that carries the identifier and wraps the cause,
    and the record stays in the registry, not marked destroyed: the
    identifier still resolves and is still listed. *)
Theorem destroyGrid_failure_keeps_record {Api} {GA : GridApi Api}
    (gridId : string) (m : GridManager Api) (grid : GridInstance Api) (e : JsError) :
  lookup gridId (grids m) = Some grid ->
  isDestroyed grid = false ->
  (exists p, evaluate inPageDestroy (page grid) = (p, Throw e)) \/
  (exists p p', evaluate inPageDestroy (page grid) = (p, Ok tt) /\
                pageClose p = (p', Throw e)) ->
  exists m' grid',
    destroyGrid gridId m
    = (m', Throw (GridManagerError "Failed to destroy grid" DESTROY_FAILED
                    (Some gridId) (Some e))) /\
    lookup gridId (grids m') = Some grid' /\
    isDestroyed grid' = false /\
    getGridInstance gridId m' = Ok grid' /\
    In gridId (getActiveGrids m').
Proof.
  intros Hl Hd Hfail.
  assert (Hkept : forall p,
             lookup gridId (grids (storePage gridId grid p m)) = Some (withPage grid p) /\
             isDestroyed (withPage grid p) = false /\
             getGridInstance gridId (storePage gridId grid p m) = Ok (withPage grid p) /\
             In gridId (getActiveGrids (storePage gridId grid p m))).
  { intro p.
    assert (Hs : lookup gridId (grids (storePage gridId grid p m))
                 = Some (withPage grid p)) by apply lookup_mapSet_same.
    split; [exact Hs|]. split; [exact Hd|]. split.
    - unfold getGridInstance. rewrite Hs. simpl. rewrite Hd. reflexivity.
    - unfold getActiveGrids. apply filter_In. split.
      + eapply lookup_Some_In_keys. exact Hs.
      + rewrite Hs. simpl. rewrite Hd. reflexivity. }
  unfold destroyGrid. rewrite Hl, Hd.
  destruct Hfail as [[p Hp]|(p & p' & Hp & Hc)].
  - rewrite Hp. exists (storePage gridId grid p m), (withPage grid p).
    split; [reflexivity|apply Hkept].
  - rewrite Hp, Hc. exists (storePage gridId grid p' m), (withPage grid p').
    split; [reflexivity|apply Hkept].
Qed.

Lemma destroyGrid_failure_keeps_record_witness :
  exists m' grid',
    destroyGrid "g1" fragileManager
    = (m', Throw (GridManagerError "Failed to destroy grid" DESTROY_FAILED
                    (Some "g1") (Some (PlainError "Protocol error")))) /\
    lookup "g1" (grids m') = Some grid' /\
    isDestroyed grid' = false /\
    getGridInstance "g1" m' = Ok grid' /\
    In "g1" (getActiveGrids m').
Proof.
  apply (@destroyGrid_failure_keeps_record SimApi SimGrid "g1" fragileManager
           (simGrid "g1" statusApi [LostBefore "Protocol error"])
           (PlainError "Protocol error")).
  - reflexivity.
  - reflexivity.
  - left. eexists. vm_compute. reflexivity.
Defined.

Lemma destroyGrid_Ok_absent {Api} {GA : GridApi Api} (gridId : string)
    (m m' : GridManager Api) (u : unit) :
  destroyGrid gridId m = (m', Ok u) -> lookup gridId (grids m') = None.
Proof.
  unfold destroyGrid.
  destruct (lookup gridId (grids m)) as [grid|]; [|discriminate].
  destruct (isDestroyed grid).
  - intro H. inversion H; subst. simpl. apply lookup_mapDelete_same.
  - destruct (evaluate inPageDestroy (page grid)) as [p [u1|e1]]; [|discriminate].
    destruct (pageClose p) as [p' [u2|e2]]; [|discriminate].
    intro H. inversion H; subst. simpl. apply lookup_mapDelete_same.
Qed.




(* ================================================================== *)
(** * Invoking a method *)
(* ================================================================== *)

(** C5, as the specification states it, fails: with a sink attached,
    setFilterModel runs on the page, the round trip that reads the
    displayed row count is lost, and the operation fails with the
    method-execution error. *)
Lemma executeGridMethod_secondary_read_cex :
  exists grid p r p' cause,
    getGridInstance "g1" flakyManager = Ok grid /\
    evaluate (inPageMethod "setFilterModel" (Some [completedOnly])) (page grid)
    = (p, Ok r) /\
    evaluate inPageDisplayedRows p = (p', Throw cause) /\
    failsWith (snd (executeGridMethod "g1" "setFilterModel" (Some [completedOnly])
                      flakyManager))
              METHOD_EXECUTION_FAILED.
Proof.
  do 5 eexists.
  split; [reflexivity|].
  split; [vm_compute; reflexivity|].
  split; [vm_compute; reflexivity|].
  do 3 eexists. vm_compute. reflexivity.
Qed.

(** C5 (amended). With a sink attached and a truthy first argument,
    once the method itself has run on the surface: for setFilterModel the
    displayed row count is read in a second round trip, and when that
    read fails the operation fails with MethodExecutionError wrapping the
    read's error and no notification is sent, and when it succeeds the
    filter notification is sent and the method's result returned; for
    applyColumnState no second read is made, the sort notification is
    sent and the method's result returned. *)
Theorem executeGridMethod_notification_reads {Api} {GA : GridApi Api}
    (gridId method : string) (params : option (list JsValue))
    (m : GridManager Api) (grid : GridInstance Api) (p : Page Api)
    (result first : JsValue) :
  getGridInstance gridId m = Ok grid ->
  webSocketManager m <> None ->
  firstTruthy params = Some first ->
  evaluate (inPageMethod method params) (page grid) = (p, Ok result) ->
  (method = "setFilterModel" ->
     (forall p' e, evaluate inPageDisplayedRows p = (p', Throw e) ->
        executeGridMethod gridId method params m
        = (storePage gridId grid p' m,
           Throw (GridManagerError ("Failed to execute grid method: " ++ method)
                    METHOD_EXECUTION_FAILED (Some gridId) (Some e))) /\
        webSocketManager (storePage gridId grid p' m) = webSocketManager m) /\
     (forall p' n, evaluate inPageDisplayedRows p = (p', Ok n) ->
        executeGridMethod gridId method params m
        = (log ("GridManager: Executed method " ++ method ++ " on grid " ++ gridId)
             (notify (onGridFiltered gridId first n) (storePage gridId grid p' m)),
           Ok result))) /\
  (method = "applyColumnState" ->
     executeGridMethod gridId method params m
     = (log ("GridManager: Executed method " ++ method ++ " on grid " ++ gridId)
          (notify (onGridSorted gridId first) (storePage gridId grid p m)),
        Ok result)).
Proof.
  intros Hg Hws Hfirst Hmain.
  destruct (webSocketManager m) as [sink|] eqn:Hsink; [|congruence].
  split.
  - intros ->. split.
    + intros p' e Hread. split; [|simpl; exact Hsink].
      unfold executeGridMethod. rewrite Hg, Hmain, Hsink. simpl String.eqb.
      rewrite Hfirst, Hread. reflexivity.
    + intros p' n Hread.
      unfold executeGridMethod. rewrite Hg, Hmain, Hsink. simpl String.eqb.
      rewrite Hfirst, Hread. reflexivity.
  - intros ->.
    unfold executeGridMethod. rewrite Hg, Hmain, Hsink. simpl String.eqb.
    rewrite Hfirst. reflexivity.
Qed.

Lemma executeGridMethod_notification_reads_witness :
  failsWith (snd (executeGridMethod "g1" "setFilterModel" (Some [completedOnly])
                    flakyManager))
            METHOD_EXECUTION_FAILED.
Proof.
  assert (Hg : getGridInstance "g1" flakyManager
               = Ok (simGrid "g1" statusApi [Delivered; LostBefore "Protocol error"]))
    by reflexivity.
  destruct (@executeGridMethod_notification_reads SimApi SimGrid "g1" "setFilterModel"
              (Some [completedOnly]) flakyManager _
              (fst (evaluate (inPageMethod "setFilterModel" (Some [completedOnly]))
                      (simPage statusApi [Delivered; LostBefore "Protocol error"])))
              JUndefined completedOnly Hg
              ltac:(discriminate) ltac:(reflexivity) ltac:(vm_compute; reflexivity))
    as [Hfilter _].
  destruct (Hfilter eq_refl) as [Hfail _].
  destruct (Hfail _ (PlainError "Protocol error") ltac:(vm_compute; reflexivity))
    as [Hrun _].
  rewrite Hrun. do 3 eexists. reflexivity.
Defined.

(* ================================================================== *)
(** * Creating a grid *)
(* ================================================================== *)








(* ================================================================== *)
(** * Shutting down *)
(* ================================================================== *)

Section CleanupFacts.
Context {Api : Type} {GA : GridApi Api}.

Lemma destroyGrid_other (gridId k : string) (m : GridManager Api) :
  gridId <> k ->
  lookup k (grids (fst (destroyGrid gridId m))) = lookup k (grids m).
Proof.
  intro Hne. unfold destroyGrid.
  destruct (lookup gridId (grids m)) as [grid|]; [|reflexivity].
  destruct (isDestroyed grid).
  - simpl. apply lookup_mapDelete_other. exact Hne.
  - destruct (evaluate inPageDestroy (page grid)) as [p [u|e]].
    + destruct (pageClose p) as [p' [u'|e']]; simpl.
      * apply lookup_mapDelete_other. exact Hne.
      * apply lookup_mapSet_other. exact Hne.
    + simpl. apply lookup_mapSet_other. exact Hne.
Qed.

(** What destroy answers depends on the record of the identifier only. *)
Lemma destroyGrid_local (gridId : string) (m1 m2 : GridManager Api) :
  lookup gridId (grids m1) = lookup gridId (grids m2) ->
  snd (destroyGrid gridId m1) = snd (destroyGrid gridId m2).
Proof.
  intro H. unfold destroyGrid. rewrite H.
  destruct (lookup gridId (grids m2)) as [grid|]; [|reflexivity].
  destruct (isDestroyed grid); [reflexivity|].
  destruct (evaluate inPageDestroy (page grid)) as [p [u|e]]; [|reflexivity].
  destruct (pageClose p) as [p' [u'|e']]; reflexivity.
Qed.

Lemma destroyGrid_browser (gridId : string) (m : GridManager Api) :
  browser (fst (destroyGrid gridId m)) = browser m.
Proof.
  unfold destroyGrid.
  destruct (lookup gridId (grids m)) as [grid|]; [|reflexivity].
  destruct (isDestroyed grid); [reflexivity|].
  destruct (evaluate inPageDestroy (page grid)) as [p [u|e]]; [|reflexivity].
  destruct (pageClose p) as [p' [u'|e']]; reflexivity.
Qed.

Lemma destroyGrid_Ok_registered (gridId : string) (m : GridManager Api) (u : unit) :
  snd (destroyGrid gridId m) = Ok u -> In gridId (mapKeys (grids m)).
Proof.
  unfold destroyGrid.
  destruct (lookup gridId (grids m)) as [grid|] eqn:Hl; [|discriminate].
  intros _. eapply lookup_Some_In_keys. exact Hl.
Qed.

Lemma destroyGrid_absent_stays (gridId k : string) (m : GridManager Api) :
  lookup k (grids m) = None ->
  lookup k (grids (fst (destroyGrid gridId m))) = None.
Proof.
  intro Habs. destruct (String.eqb_spec gridId k) as [->|Hne].
  - unfold destroyGrid. rewrite Habs. exact Habs.
  - rewrite destroyGrid_other by exact Hne. exact Habs.
Qed.

Lemma destroyAll_absent_stays (k : string) (ids : list string) (m : GridManager Api) :
  lookup k (grids m) = None -> lookup k (grids (destroyAll ids m)) = None.
Proof.
  revert m. induction ids as [|gridId ids IH]; intros m Habs; [exact Habs|].
  cbn [destroyAll].
  pose proof (destroyGrid_absent_stays gridId k m Habs) as Hstep.
  destruct (destroyGrid gridId m) as [m' [u|e]]; apply IH; exact Hstep.
Qed.

Lemma destroyAll_browser (ids : list string) (m : GridManager Api) :
  browser (destroyAll ids m) = browser m.
Proof.
  revert m. induction ids as [|gridId ids IH]; intro m; [reflexivity|].
  cbn [destroyAll].
  pose proof (destroyGrid_browser gridId m) as Hstep.
  destruct (destroyGrid gridId m) as [m' [u|e]]; rewrite IH; exact Hstep.
Qed.

(** A grid whose destroy succeeds is gone once the loop has met it. *)
Lemma destroyAll_destroys (gridId : string) (ids : list string) (m : GridManager Api) :
  In gridId ids -> snd (destroyGrid gridId m) = Ok tt ->
  lookup gridId (grids (destroyAll ids m)) = None.
Proof.
  revert m. induction ids as [|k ids IH]; intros m Hin Hok; [contradiction|].
  cbn [destroyAll]. destruct (String.eqb_spec k gridId) as [->|Hne].
  - destruct (destroyGrid gridId m) as [m' [u|e]] eqn:E; [|discriminate].
    apply destroyAll_absent_stays. eapply destroyGrid_Ok_absent. exact E.
  - destruct Hin as [Hk|Hin]; [congruence|].
    pose proof (destroyGrid_other m Hne) as Hsame.
    destruct (destroyGrid k m) as [m' [u|e]]; apply IH; try exact Hin;
      rewrite <- Hok; apply destroyGrid_local; exact Hsame.
Qed.
End CleanupFacts.

(** C4, as the specification states it, fails twice: of two live grids
    the destroy of the second fails, and after shutdown that grid is
    still listed as active; and the closing of the browser fails while
    shutdown raises nothing. *)
Lemma cleanup_leaves_failed_grid_cex :
  getActiveGrids twoGridsManager = ["g1"; "g2"] /\
  (exists e, snd (destroyGrid "g2" twoGridsManager) = Throw e) /\
  In "g2" (getActiveGrids (fst (cleanup twoGridsManager))) /\
  (exists b b' e, browser twoGridsManager = Some b /\
                  browserClose b = (b', Throw e)) /\
  snd (cleanup twoGridsManager) = Ok tt.
Proof.
  split; [reflexivity|].
  split; [eexists; vm_compute; reflexivity|].
  split; [vm_compute; left; reflexivity|].
  split; [do 3 eexists; split; reflexivity|].
  reflexivity.
Qed.

(** C4 (amended). shutdown goes through every known grid instance and
    destroys it, a failure of one destroy being logged and not
    propagated: after shutdown every grid whose destroy succeeds is out
    of the registry and absent from listActive().  It then closes the
    engine, which releases the handle when the close succeeds, and it
    raises no error in any case: a failure of the engine-level close is
    logged too. *)
Theorem cleanup_tolerates_failures {Api} {GA : GridApi Api} (m : GridManager Api) :
  snd (cleanup m) = Ok tt /\
  isInitialized (fst (cleanup m)) = false /\
  (forall gridId, snd (destroyGrid gridId m) = Ok tt ->
     lookup gridId (grids (fst (cleanup m))) = None /\
     ~ In gridId (getActiveGrids (fst (cleanup m)))) /\
  (forall b b', browser m = Some b -> browserClose b = (b', Ok tt) ->
     browser (fst (cleanup m)) = None) /\
  (forall b b' e, browser m = Some b -> browserClose b = (b', Throw e) ->
     browser (fst (cleanup m)) = Some b').
Proof.
  split; [reflexivity|]. split; [reflexivity|].
  set (m1 := log "GridManager: Starting cleanup..." m).
  set (m2 := destroyAll (mapKeys (grids m1)) m1).
  assert (Hgrids : grids (fst (cleanup m)) = grids m2).
  { unfold cleanup. fold m1. fold m2. simpl.
    destruct (browser m2) as [b|]; [|reflexivity].
    destruct (browserClose b) as [b' [u|e]]; reflexivity. }
  assert (Hbrowser : browser m2 = browser m).
  { unfold m2. rewrite destroyAll_browser. reflexivity. }
  split; [|split].
  - intros gridId Hok.
    assert (Habs : lookup gridId (grids (fst (cleanup m))) = None).
    { rewrite Hgrids. unfold m2. apply destroyAll_destroys.
      - apply (destroyGrid_Ok_registered gridId m Hok).
      - rewrite <- Hok. apply destroyGrid_local. reflexivity. }
    split; [exact Habs|].
    unfold getActiveGrids. intro Hin. apply filter_In in Hin.
    destruct Hin as [Hin _]. exact (lookup_None_not_In_keys _ _ Habs Hin).
  - intros b b' Hb Hclose. unfold cleanup. fold m1. fold m2. simpl.
    rewrite Hbrowser, Hb, Hclose. reflexivity.
  - intros b b' e Hb Hclose. unfold cleanup. fold m1. fold m2. simpl.
    rewrite Hbrowser, Hb, Hclose. reflexivity.
Qed.

Lemma cleanup_tolerates_failures_witness :
  snd (destroyGrid "g1" twoGridsManager) = Ok tt /\
  ~ In "g1" (getActiveGrids (fst (cleanup twoGridsManager))) /\
  browser (fst (cleanup twoGridsManager))
  = Some (mkBrowser [] (Throw (PlainError "Browser close failed")) false).
Proof.
  destruct (@cleanup_tolerates_failures SimApi SimGrid twoGridsManager)
    as (_ & _ & Hgone & _ & Hkept).
  split; [vm_compute; reflexivity|]. split.
  - apply (Hgone "g1"). vm_compute. reflexivity.
  - apply (Hkept (mkBrowser [] (Throw (PlainError "Browser close failed")) false)
                 _ (PlainError "Browser close failed")); reflexivity.
Defined.

(* ================================================================== *)
(** * Summarising a grid *)
(* ================================================================== *)


(** A summary that is returned was computed from the declared columns
    of the registered grid and from the current row snapshot. *)
Lemma generateGridSummary_Ok {Api} {GA : GridApi Api} (dp : string -> bool)
    (env : Env) (gridId : string) (m m' : GridManager Api) (s : GridSummaryStats) :
  generateGridSummary dp env gridId m = (m', Ok s) ->
  exists grid currentData rows,
    getGridInstance gridId m = Ok grid /\
    currentRows currentData (rowData (config grid)) = Ok rows /\
    summaryOf dp gridId (isoNow env) (columnDefs (config grid)) rows = Ok s.
Proof.
  unfold generateGridSummary, getGridInfo.
  destruct (getGridInstance gridId m) as [grid|e] eqn:Hg; [|discriminate].
  destruct (getGridState gridId m) as [m1 [st|e]]; [|discriminate].
  destruct (executeGridMethod gridId "getRenderedNodes" None m1)
    as [m2 [currentData|e]]; [|discriminate].
  cbn [infoConfig].
  destruct (currentRows currentData (rowData (config grid))) as [rows|e] eqn:Hr;
    [|discriminate].
  destruct (summaryOf dp gridId (isoNow env) (columnDefs (config grid)) rows)
    as [s'|e] eqn:Hs; [|discriminate].
  intro H. inversion H; subst. exists grid, currentData, rows. auto.
Qed.




(* ================================================================== *)
(** * What the methods do to the registry and to the sink *)
(* ================================================================== *)

Section RegistryFacts.
Variable V : Type.

Lemma lookup_Some_In (k : string) (v : V) (l : list (string * V)) :
  lookup k l = Some v -> In (k, v) l.
Proof.
  induction l as [|[k' v'] l IH]; simpl; [discriminate|].
  destruct (String.eqb_spec k k') as [->|Hne].
  - intro H. inversion H; subst. left. reflexivity.
  - intro H. right. apply IH. exact H.
Qed.

Lemma Forall_mapSet (P : string * V -> Prop) (k : string) (v : V)
    (l : list (string * V)) :
  Forall P l -> P (k, v) -> Forall P (mapSet k v l).
Proof.
  intros Hl Hv. induction Hl as [|[k' v'] l Hx Hl IH]; simpl.
  - constructor; [exact Hv|constructor].
  - destruct (String.eqb k k'); constructor; assumption.
Qed.

Lemma Forall_mapDelete (P : string * V -> Prop) (k : string)
    (l : list (string * V)) :
  Forall P l -> Forall P (mapDelete k l).
Proof.
  intro Hl. unfold mapDelete. apply Forall_forall. intros x Hx.
  apply filter_In in Hx. destruct Hx as [Hx _].
  rewrite Forall_forall in Hl. apply Hl. exact Hx.
Qed.

(** The keys after a [set]: the same for a known key, one more at the
    end for a new one. *)
Lemma mapKeys_mapSet (k : string) (v : V) (l : list (string * V)) :
  mapKeys (mapSet k v l)
  = if existsb (String.eqb k) (mapKeys l) then mapKeys l else mapKeys l ++ [k].
Proof.
  unfold mapKeys. induction l as [|[k' v'] l IH]; simpl; [reflexivity|].
  destruct (String.eqb k k') eqn:E; simpl.
  - apply String.eqb_eq in E. subst. reflexivity.
  - rewrite IH.
    destruct (existsb (String.eqb k) (map fst l)); reflexivity.
Qed.

Lemma mapKeys_mapDelete (k : string) (l : list (string * V)) :
  mapKeys (mapDelete k l)
  = filter (fun k' => negb (String.eqb k k')) (mapKeys l).
Proof.
  unfold mapKeys, mapDelete. induction l as [|[k' v'] l IH]; simpl; [reflexivity|].
  destruct (String.eqb k k'); simpl; [exact IH|].
  f_equal. exact IH.
Qed.

Lemma lookup_Some_existsb (k : string) (v : V) (l : list (string * V)) :
  lookup k l = Some v -> existsb (String.eqb k) (mapKeys l) = true.
Proof.
  unfold mapKeys. induction l as [|[k' v'] l IH]; simpl; [discriminate|].
  destruct (String.eqb k k'); [reflexivity|]. exact IH.
Qed.
End RegistryFacts.

Section EffectFacts.
Context {Api : Type} {GA : GridApi Api}.

Lemma delivered_nil (m : GridManager Api) : webSocketManager m = delivered [] m.
Proof.
  unfold delivered. destruct (webSocketManager m); simpl; [|reflexivity].
  rewrite app_nil_r. reflexivity.
Qed.

Lemma effect_stored (gridId : string) (grid : GridInstance Api) (p : Page Api)
    (m m' : GridManager Api) :
  lookup gridId (grids m) = Some grid ->
  grids m' = grids (storePage gridId grid p m) ->
  webSocketManager m' = webSocketManager m ->
  effect m m'.
Proof.
  intros Hl Hg Hw.
  apply effect_page with (gridId := gridId) (grid := grid) (p := p) (notes := []);
    [exact Hl|exact Hg|reflexivity|].
  rewrite Hw. apply delivered_nil.
Qed.

Lemma effects_one (m m' : GridManager Api) : effect m m' -> effects m m'.
Proof.
  intro H. eapply effects_step; [apply effects_refl|exact H].
Qed.

Lemma effects_trans (m1 m2 m3 : GridManager Api) :
  effects m1 m2 -> effects m2 m3 -> effects m1 m3.
Proof.
  intros H12 H23. induction H23 as [|m2 m3 m4 _ IH Hstep]; [exact H12|].
  eapply effects_step; [apply IH; exact H12|exact Hstep].
Qed.

Lemma initialize_effect (launch : Outcome Browser) (m : GridManager Api) :
  effect m (fst (initialize launch m)).
Proof.
  unfold initialize. destruct (isInitialized m); [apply effect_none; reflexivity|].
  destruct launch; apply effect_none; reflexivity.
Qed.

Lemma createGrid_effect (env : Env) (config : JsValue) (m : GridManager Api) :
  effect m (fst (createGrid env config m)).
Proof.
  unfold createGrid.
  destruct (isInitialized m); [|apply effect_none; reflexivity].
  destruct (browser m) as [b|]; [|apply effect_none; reflexivity].
  destruct (GridConfigSchema config) as [cfg|]; [|apply effect_none; reflexivity].
  destruct (setUpPage env cfg b) as [b' [p|e]]; simpl.
  - eapply effect_create; reflexivity.
  - apply effect_none; reflexivity.
Qed.

Lemma updateGridData_effect (env : Env) (gridId : string) (rows : list Row)
    (m : GridManager Api) :
  effect m (fst (updateGridData env gridId rows m)).
Proof.
  unfold updateGridData.
  destruct (getGridInstance gridId m) as [grid|e] eqn:Hg;
    [|apply effect_none; reflexivity].
  destruct (getGridInstance_lookup _ _ Hg) as [Hl Hd].
  destruct (evaluate (inPageUpdateGridData rows) (page grid)) as [p [u|e]]; simpl.
  - eapply effect_update; [exact Hl|exact Hd| |reflexivity].
    simpl. rewrite Hd. reflexivity.
  - eapply effect_stored; [exact Hl|reflexivity|reflexivity].
Qed.

Lemma executeGridMethod_effect (gridId method : string)
    (params : option (list JsValue)) (m : GridManager Api) :
  effect m (fst (executeGridMethod gridId method params m)).
Proof.
  unfold executeGridMethod.
  destruct (getGridInstance gridId m) as [grid|e] eqn:Hg;
    [|apply effect_none; reflexivity].
  destruct (getGridInstance_lookup _ _ Hg) as [Hl Hd].
  destruct (evaluate (inPageMethod method params) (page grid)) as [p [r|e]];
    [|eapply effect_stored; [exact Hl|reflexivity|reflexivity]].
  destruct (webSocketManager m) as [calls|] eqn:Hw;
    [|eapply effect_stored; [exact Hl|reflexivity|simpl; congruence]].
  destruct (String.eqb method "setFilterModel").
  - destruct (firstTruthy params) as [v|];
      [|eapply effect_stored; [exact Hl|reflexivity|simpl; congruence]].
    destruct (evaluate inPageDisplayedRows p) as [p' [n|e]]; simpl.
    + apply effect_page with (gridId := gridId) (grid := grid) (p := p')
                             (notes := [onGridFiltered gridId v n]);
        [exact Hl|reflexivity| |reflexivity].
      simpl. rewrite String.eqb_refl. reflexivity.
    + eapply effect_stored; [exact Hl|reflexivity|simpl; congruence].
  - destruct (String.eqb method "applyColumnState");
      [|eapply effect_stored; [exact Hl|reflexivity|simpl; congruence]].
    destruct (firstTruthy params) as [v|];
      [|eapply effect_stored; [exact Hl|reflexivity|simpl; congruence]].
    apply effect_page with (gridId := gridId) (grid := grid) (p := p)
                           (notes := [onGridSorted gridId v]);
      [exact Hl|reflexivity| |reflexivity].
    simpl. rewrite String.eqb_refl. reflexivity.
Qed.

Lemma exportGridData_effect (env : Env) (gridId fmt : string) (m : GridManager Api) :
  effect m (fst (exportGridData env gridId fmt m)).
Proof.
  unfold exportGridData.
  destruct (getGridInstance gridId m) as [grid|e] eqn:Hg;
    [|apply effect_none; reflexivity].
  destruct (getGridInstance_lookup _ _ Hg) as [Hl Hd].
  destruct (ExportFormatSchema fmt); [|apply effect_none; reflexivity].
  destruct (evaluate inPageCsv (page grid)) as [p [csv|e]]; simpl.
  - eapply effect_page with (gridId := gridId) (grid := grid) (p := p)
                            (notes := [onGridExported gridId fmt _]);
      [exact Hl|reflexivity| |reflexivity].
    simpl. rewrite String.eqb_refl. reflexivity.
  - eapply effect_stored; [exact Hl|reflexivity|reflexivity].
Qed.

Lemma getGridState_effect (gridId : string) (m : GridManager Api) :
  effect m (fst (getGridState gridId m)).
Proof.
  unfold getGridState.
  destruct (getGridInstance gridId m) as [grid|e] eqn:Hg;
    [|apply effect_none; reflexivity].
  destruct (getGridInstance_lookup _ _ Hg) as [Hl Hd].
  destruct (evaluate inPageState (page grid)) as [p [st|e]]; simpl;
    eapply effect_stored; solve [exact Hl|reflexivity].
Qed.

Lemma destroyGrid_effect (gridId : string) (m : GridManager Api) :
  effect m (fst (destroyGrid gridId m)).
Proof.
  unfold destroyGrid.
  destruct (lookup gridId (grids m)) as [grid|] eqn:Hl;
    [|apply effect_none; reflexivity].
  destruct (isDestroyed grid);
    [apply effect_destroy with (gridId := gridId); reflexivity|].
  destruct (evaluate inPageDestroy (page grid)) as [p [u|e]];
    [|eapply effect_stored; [exact Hl|reflexivity|reflexivity]].
  destruct (pageClose p) as [p' [u'|e']]; simpl.
  - apply effect_destroy with (gridId := gridId); reflexivity.
  - eapply effect_stored; [exact Hl|reflexivity|reflexivity].
Qed.

Lemma effects_logged (line : string) (m m' : GridManager Api) :
  effects m m' -> effects m (log line m').
Proof.
  intro H. eapply effects_step; [exact H|]. apply effect_none; reflexivity.
Qed.

Lemma destroyAll_effects (ids : list string) (m : GridManager Api) :
  effects m (destroyAll ids m).
Proof.
  revert m. induction ids as [|gridId ids IH]; intro m; [apply effects_refl|].
  cbn [destroyAll]. pose proof (destroyGrid_effect gridId m) as Hstep.
  destruct (destroyGrid gridId m) as [m' [u|e]]; simpl in Hstep.
  - eapply effects_trans; [apply effects_one; exact Hstep|apply IH].
  - eapply effects_trans; [|apply IH].
    apply effects_logged. apply effects_one. exact Hstep.
Qed.

Lemma cleanup_effects (m : GridManager Api) : effects m (fst (cleanup m)).
Proof.
  unfold cleanup.
  set (m1 := log "GridManager: Starting cleanup..." m).
  set (m2 := destroyAll (mapKeys (grids m1)) m1).
  assert (H2 : effects m m2).
  { eapply effects_trans; [|apply destroyAll_effects].
    apply effects_logged. apply effects_refl. }
  eapply effects_step; [exact H2|].
  simpl. destruct (browser m2) as [b|]; [|apply effect_none; reflexivity].
  destruct (browserClose b) as [b' [u|e]]; apply effect_none; reflexivity.
Qed.

Lemma generateGridSummary_effects (dp : string -> bool) (env : Env)
    (gridId : string) (m : GridManager Api) :
  effects m (fst (generateGridSummary dp env gridId m)).
Proof.
  unfold generateGridSummary.
  destruct (getGridInfo gridId m) as [info|e]; [|apply effects_refl].
  pose proof (getGridState_effect gridId m) as H1.
  destruct (getGridState gridId m) as [m1 [st|e]]; simpl in H1;
    [|apply effects_one; exact H1].
  pose proof (executeGridMethod_effect gridId "getRenderedNodes" None m1) as H2.
  assert (H12 : effects m (fst (executeGridMethod gridId "getRenderedNodes" None m1))).
  { eapply effects_step; [apply effects_one; exact H1|exact H2]. }
  destruct (executeGridMethod gridId "getRenderedNodes" None m1) as [m2 [cd|e]];
    simpl in H12; [|exact H12].
  destruct (currentRows cd (rowData (infoConfig info))) as [rows|e]; [|exact H12].
  destruct (summaryOf dp gridId (isoNow env) (columnDefs (infoConfig info)) rows);
    exact H12.
Qed.

(** Every call is a finite sequence of steps. *)
Lemma perform_effects (op : Operation) (m : GridManager Api) :
  effects m (perform op m).
Proof.
  destruct op; simpl.
  - apply effects_one, initialize_effect.
  - apply effects_one, createGrid_effect.
  - apply effects_one, updateGridData_effect.
  - apply effects_one, executeGridMethod_effect.
  - apply effects_one, exportGridData_effect.
  - apply effects_one, getGridState_effect.
  - apply generateGridSummary_effects.
  - apply effects_one, destroyGrid_effect.
  - apply cleanup_effects.
Qed.

Lemma performAll_effects (ops : list Operation) (m : GridManager Api) :
  effects m (performAll ops m).
Proof.
  revert m. induction ops as [|op ops IH]; intro m; [apply effects_refl|].
  simpl. eapply effects_trans; [apply perform_effects|apply IH].
Qed.

(** A property of managers that every step keeps holds after every
    sequence of calls. *)
Lemma effects_invariant (P : GridManager Api -> Prop) :
  (forall m m', effect m m' -> P m -> P m') ->
  forall m m', effects m m' -> P m -> P m'.
Proof.
  intros Hstep m m' H. induction H as [|m1 m2 m3 _ IH Hs]; [auto|].
  intro HP. eapply Hstep; [exact Hs|]. apply IH. exact HP.
Qed.
End EffectFacts.

(* ================================================================== *)
(** * The registry across calls *)
(* ================================================================== *)

Section RegistryInvariants.
Context {Api : Type} {GA : GridApi Api}.

Lemma roundTrip_Ok_inv {A} (f : Window Api -> Window Api * Outcome A)
    (p p' : Page Api) (a : A) :
  roundTrip f p = (p', Ok a) ->
  closed p = false /\ f (window p) = (window p', Ok a) /\
  closed p' = false /\ calls p' = S (calls p).
Proof.
  unfold roundTrip. destruct (closed p); [discriminate|].
  destruct (schedule p) as [|[|msg|msg] rest]; intro H; inversion H; subst; simpl;
    repeat split; try reflexivity;
    rewrite (surjective_pairing (f (window p))); f_equal; assumption.
Qed.

(** A page that answers runs the code and returns its outcome. *)
Lemma roundTrip_answers {A} (f : Window Api -> Window Api * Outcome A) (p : Page Api) :
  answers p ->
  window (fst (roundTrip f p)) = fst (f (window p)) /\
  snd (roundTrip f p) = snd (f (window p)) /\
  closed (fst (roundTrip f p)) = false.
Proof.
  intros [Hc Hs]. unfold roundTrip. rewrite Hc.
  destruct Hs as [->|[rest ->]]; simpl; auto.
Qed.

Lemma stored_other (gridId k : string) (grid : GridInstance Api) (p : Page Api)
    (m : GridManager Api) :
  gridId <> k ->
  lookup k (grids (storePage gridId grid p m)) = lookup k (grids m).
Proof.
  intro Hne. simpl. apply lookup_mapSet_other. exact Hne.
Qed.

Lemma effect_allLive (m m' : GridManager Api) :
  effect m m' -> allLive m -> allLive m'.
Proof.
  unfold allLive. intros He Hlive.
  assert (Hof : forall k g, lookup k (grids m) = Some g -> isDestroyed g = false).
  { intros k g Hl. apply lookup_Some_In in Hl.
    rewrite Forall_forall in Hlive. exact (Hlive _ Hl). }
  destruct He as [m m' Hg _|m m' gridId grid p notes Hl Hg _ _
                 |m m' gridId grid p rows t Hl Hd Hg _
                 |m m' gridId p cfg t Hg _|m m' gridId Hg _]; rewrite Hg.
  - exact Hlive.
  - apply Forall_mapSet; [exact Hlive|]. simpl. exact (Hof _ _ Hl).
  - apply Forall_mapSet; [exact Hlive|]. simpl. exact Hd.
  - apply Forall_mapSet; [exact Hlive|]. reflexivity.
  - apply Forall_mapDelete. exact Hlive.
Qed.

Lemma allLive_lookup (m : GridManager Api) (k : string) (g : GridInstance Api) :
  allLive m -> lookup k (grids m) = Some g -> isDestroyed g = false.
Proof.
  intros Hlive Hl. apply lookup_Some_In in Hl.
  unfold allLive in Hlive. rewrite Forall_forall in Hlive. exact (Hlive _ Hl).
Qed.

Lemma In_keys_lookup (k : string) (l : list (string * GridInstance Api)) :
  In k (mapKeys l) -> exists g, lookup k l = Some g.
Proof.
  unfold mapKeys. induction l as [|[k' g'] l IH]; simpl; [tauto|].
  destruct (String.eqb_spec k k'); [eauto|].
  intros [Hk|Hin]; [congruence|]. apply IH. exact Hin.
Qed.

Lemma allLive_active (m : GridManager Api) :
  allLive m -> getActiveGrids m = mapKeys (grids m).
Proof.
  intro Hlive. unfold getActiveGrids.
  assert (Hall : forall k, In k (mapKeys (grids m)) ->
                   negb (match lookup k (grids m) with
                         | Some grid => isDestroyed grid
                         | None => false
                         end) = true).
  { intros k Hin. destruct (In_keys_lookup _ _ Hin) as [g Hg].
    rewrite Hg, (allLive_lookup _ Hlive Hg). reflexivity. }
  induction (mapKeys (grids m)) as [|k ks IH]; [reflexivity|].
  simpl. rewrite (Hall k (or_introl eq_refl)). f_equal.
  apply IH. intros k' Hk'. apply Hall. right. exact Hk'.
Qed.
End RegistryInvariants.

(** X1. From a registry without a destroyed record (such as that of a
    new manager), no sequence of calls of the manager's methods brings
    one in: a record is marked destroyed only as it is deleted.  So every
    registered identifier is listed as active, and resolving never gives
    the destroyed error. *)
Theorem no_destroyed_record_is_registered {Api} {GA : GridApi Api}
    (ops : list Operation) (m : GridManager Api) :
  allLive m ->
  allLive (performAll ops m) /\
  getActiveGrids (performAll ops m) = mapKeys (grids (performAll ops m)) /\
  forall gridId, ~ failsWith (getGridInstance gridId (performAll ops m)) GRID_DESTROYED.
Proof.
  intro Hlive.
  assert (H : allLive (performAll ops m)).
  { exact (effects_invariant allLive effect_allLive
             (performAll_effects ops m) Hlive). }
  split; [exact H|]. split; [apply allLive_active; exact H|].
  intros gridId (msg & gid & cause & Hf). unfold getGridInstance in Hf.
  destruct (lookup gridId (grids (performAll ops m))) as [g|] eqn:Hl;
    [|discriminate].
  rewrite (allLive_lookup _ H Hl) in Hf. discriminate.
Qed.

Lemma no_destroyed_record_is_registered_witness :
  getActiveGrids
    (performAll [Initialize (Ok (mkBrowser [] (Ok tt) false));
                 CreateGrid simEnv statusConfig;
                 ExecuteGridMethod (generateGridId simEnv) "setFilterModel"
                   (Some [completedOnly])]
       (newGridManager (Api := SimApi)))
  = [generateGridId simEnv].
Proof.
  destruct (@no_destroyed_record_is_registered SimApi SimGrid
              [Initialize (Ok (mkBrowser [] (Ok tt) false));
               CreateGrid simEnv statusConfig;
               ExecuteGridMethod (generateGridId simEnv) "setFilterModel"
                 (Some [completedOnly])]
              newGridManager (Forall_nil _)) as (_ & Hactive & _).
  rewrite Hactive. vm_compute. reflexivity.
Defined.

(* ================================================================== *)
(** * Creating and replacing, in full *)
(* ================================================================== *)

Section FrameFacts.
Context {Api : Type} {GA : GridApi Api}.







End FrameFacts.





(** X4. When create fails, whatever the reason, the registry and the
    sink are as before: no record is inserted and nothing is announced.
    The failure is NOT_INITIALIZED exactly when the manager is not
    initialised or has no browser, and then the configuration is not even
    validated; otherwise it is INVALID_CONFIG, or GRID_CREATION_FAILED
    carrying the identifier that was minted for the grid. *)
Theorem createGrid_failure_registers_nothing {Api} {GA : GridApi Api}
    (env : Env) (config : JsValue) (m : GridManager Api) (e : JsError) :
  snd (createGrid env config m) = Throw e ->
  grids (fst (createGrid env config m)) = grids m /\
  webSocketManager (fst (createGrid env config m)) = webSocketManager m /\
  isInitialized (fst (createGrid env config m)) = isInitialized m /\
  ((isInitialized m = false \/ browser m = None) /\
   e = GridManagerError "GridManager not initialized. Call initialize() first."
         NOT_INITIALIZED None None
   \/
   isInitialized m = true /\ browser m <> None /\
   (GridConfigSchema config = None /\
    (exists cause, e = GridManagerError "Invalid grid configuration"
                         INVALID_CONFIG None (Some cause))
    \/
    GridConfigSchema config <> None /\
    (exists cause, e = GridManagerError "Failed to create grid"
                         GRID_CREATION_FAILED (Some (generateGridId env))
                         (Some cause)))).
Proof.
  unfold createGrid.
  destruct (isInitialized m) eqn:Hi.
  - destruct (browser m) as [b|] eqn:Hb.
    + destruct (GridConfigSchema config) as [cfg|] eqn:Hc.
      * destruct (setUpPage env cfg b) as [b' [p|err]]; simpl; [discriminate|].
        intro H. inversion H; subst.
        repeat split; try reflexivity.
        right. split; [reflexivity|]. split; [discriminate|].
        right. split; [discriminate|]. eexists. reflexivity.
      * simpl. intro H. inversion H; subst.
        repeat split; try assumption.
        right. split; [reflexivity|]. split; [congruence|].
        left. split; [reflexivity|]. eexists. reflexivity.
    + simpl. intro H. inversion H; subst.
      repeat split; try assumption. left. auto.
  - simpl. intro H. inversion H; subst.
    repeat split; try assumption. left. auto.
Qed.

Lemma createGrid_failure_registers_nothing_witness :
  grids (fst (createGrid simEnv statusConfig (newGridManager (Api := SimApi)))) = [] /\
  grids (fst (createGrid simEnv malformedConfig idleManager)) = [].
Proof.
  split.
  - destruct (@createGrid_failure_registers_nothing SimApi SimGrid simEnv statusConfig
                newGridManager _ eq_refl) as [H _].
    exact H.
  - destruct (@createGrid_failure_registers_nothing SimApi SimGrid simEnv
                malformedConfig idleManager _ eq_refl) as [H _].
    exact H.
Defined.

(** X5. When replaceData returns, the surface was handed the full row
    set (one call of setRowData on the grid's api object, which
    succeeded), the stored snapshot is the new rows with the columns and
    engine options unchanged, lastUpdated is the time of the call and
    createdAt is kept, the grid still resolves, the set of identifiers is
    unchanged, and the sink, if any, is told of the new rows. *)
Theorem updateGridData_replaces_the_rows {Api} {GA : GridApi Api}
    (env : Env) (gridId : string) (rows : list Row) (m m' : GridManager Api) :
  updateGridData env gridId rows m = (m', Ok tt) ->
  exists grid grid' api api',
    getGridInstance gridId m = Ok grid /\
    gridApi (window (page grid)) = Some api /\
    setRowData api rows = (api', Ok tt) /\
    getGridInstance gridId m' = Ok grid' /\
    gridApi (window (page grid')) = Some api' /\
    getGridInfo gridId m'
    = Ok (mkGridInfo (id grid)
            (mkGridConfig (columnDefs (config grid)) rows (gridOptions (config grid)))
            (createdAt grid) (now env) false) /\
    mapKeys (grids m') = mapKeys (grids m) /\
    webSocketManager m' = delivered [onGridDataUpdated gridId rows] m.
Proof.
  unfold updateGridData.
  destruct (getGridInstance gridId m) as [grid|e] eqn:Hg; [|discriminate].
  destruct (getGridInstance_lookup _ _ Hg) as [Hl Hd].
  destruct (evaluate (inPageUpdateGridData rows) (page grid)) as [p [u|e]] eqn:He;
    [|discriminate].
  intro H. inversion H; subst m'; clear H.
  unfold evaluate in He. apply roundTrip_Ok_inv in He.
  destruct He as (_ & Hrun & _ & _).
  unfold inPageUpdateGridData in Hrun.
  destruct (scriptLoaded (window (page grid))); [|discriminate].
  destruct (gridApi (window (page grid))) as [api|] eqn:Hapi; [|discriminate].
  destruct (setRowData api rows) as [api' r] eqn:Hset.
  injection Hrun as Hw Hr. subst r.
  set (grid' := mkGridInstance (id grid) p
                  (mkGridConfig (columnDefs (config grid)) rows
                     (gridOptions (config grid)))
                  (createdAt grid) (now env) (isDestroyed grid)).
  assert (Hl' : lookup gridId (mapSet gridId grid' (grids m)) = Some grid')
    by apply lookup_mapSet_same.
  assert (Hg' : forall m0 : GridManager Api,
             grids m0 = mapSet gridId grid' (grids m) ->
             getGridInstance gridId m0 = Ok grid').
  { intros m0 Hm0. unfold getGridInstance. rewrite Hm0, Hl'. simpl.
    rewrite Hd. reflexivity. }
  exists grid, grid', api, api'.
  split; [reflexivity|]. split; [exact Hapi|].
  split; [destruct u; exact Hset|].
  split; [apply Hg'; reflexivity|].
  split; [simpl; rewrite <- Hw; reflexivity|].
  split; [unfold getGridInfo; rewrite Hg' by reflexivity; simpl; rewrite Hd;
          reflexivity|].
  split; [|reflexivity].
  simpl. rewrite mapKeys_mapSet, (lookup_Some_existsb _ _ Hl). reflexivity.
Qed.

Lemma updateGridData_replaces_the_rows_witness :
  exists m',
    updateGridData simEnv "g1" [[("status", JStr "new")]] healthyManager = (m', Ok tt) /\
    option_map (fun info => rowData (infoConfig info))
      (match getGridInfo "g1" m' with Ok info => Some info | Throw _ => None end)
    = Some [[("status", JStr "new")]].
Proof.
  eexists.
  assert (H : updateGridData simEnv "g1" [[("status", JStr "new")]] healthyManager
              = (fst (updateGridData simEnv "g1" [[("status", JStr "new")]]
                        healthyManager), Ok tt)) by (vm_compute; reflexivity).
  split; [exact H|].
  destruct (@updateGridData_replaces_the_rows SimApi SimGrid simEnv "g1" _
              healthyManager _ H)
    as (grid & grid' & api & api' & _ & _ & _ & _ & _ & Hinfo & _).
  rewrite Hinfo. reflexivity.
Defined.

(** X6. When replaceData fails on a grid that resolves, the failure is
    UPDATE_DATA_FAILED, carrying the identifier and wrapping the cause;
    the stored snapshot, the timestamps and the registry's identifiers
    are as before, the grid still resolves, and the sink is told
    nothing. *)
Theorem updateGridData_failure_keeps_the_snapshot {Api} {GA : GridApi Api}
    (env : Env) (gridId : string) (rows : list Row) (m : GridManager Api)
    (grid : GridInstance Api) (e : JsError) :
  getGridInstance gridId m = Ok grid ->
  snd (updateGridData env gridId rows m) = Throw e ->
  (exists cause, e = GridManagerError "Failed to update grid data"
                       UPDATE_DATA_FAILED (Some gridId) (Some cause)) /\
  getGridInfo gridId (fst (updateGridData env gridId rows m)) = getGridInfo gridId m /\
  mapKeys (grids (fst (updateGridData env gridId rows m))) = mapKeys (grids m) /\
  webSocketManager (fst (updateGridData env gridId rows m)) = webSocketManager m.
Proof.
  intros Hg. destruct (getGridInstance_lookup _ _ Hg) as [Hl Hd].
  unfold updateGridData. rewrite Hg.
  destruct (evaluate (inPageUpdateGridData rows) (page grid)) as [p [u|err]];
    simpl; [discriminate|].
  intro H. inversion H; subst e; clear H.
  split; [eexists; reflexivity|]. split; [|split; [|reflexivity]].
  - unfold getGridInfo, getGridInstance. simpl.
    rewrite lookup_mapSet_same, Hl. simpl. rewrite Hd. reflexivity.
  - rewrite mapKeys_mapSet, (lookup_Some_existsb _ _ Hl). reflexivity.
Qed.

Lemma updateGridData_failure_keeps_the_snapshot_witness :
  getGridInfo "g1" (fst (updateGridData simEnv "g1" [] fragileManager))
  = getGridInfo "g1" fragileManager.
Proof.
  destruct (@updateGridData_failure_keeps_the_snapshot SimApi SimGrid simEnv "g1" []
              fragileManager _ _ eq_refl eq_refl) as (_ & H & _).
  exact H.
Defined.

(* ================================================================== *)
(** * Exporting, in full *)
(* ================================================================== *)




Lemma string_append_assoc (a b c : string) :
  ((a ++ b) ++ c)%string = (a ++ (b ++ c))%string.
Proof.
  induction a as [|ch a IH]; simpl; [reflexivity|]. rewrite IH. reflexivity.
Qed.

(** X8. The excel format is the csv format under another name: on the
    same manager, an export as excel returns exactly when an export as
    csv does, with the same data and the same file name but for the
    extension, and leaves the same pages behind. *)
Theorem exportGridData_excel_is_csv {Api} {GA : GridApi Api}
    (env : Env) (gridId : string) (m : GridManager Api) :
  grids (fst (exportGridData env gridId "excel" m))
  = grids (fst (exportGridData env gridId "csv" m)) /\
  (forall e, snd (exportGridData env gridId "csv" m) = Throw e ->
     exists e', snd (exportGridData env gridId "excel" m) = Throw e') /\
  (forall x, snd (exportGridData env gridId "csv" m) = Ok x ->
     exists stem,
       filename x = (stem ++ ".csv")%string /\
       snd (exportGridData env gridId "excel" m)
       = Ok (mkExportResult (data x) "excel" (stem ++ ".excel")%string)).
Proof.
  unfold exportGridData.
  destruct (getGridInstance gridId m) as [grid|e0];
    [|split; [reflexivity|split; [eauto|discriminate]]].
  change (ExportFormatSchema "excel") with true.
  change (ExportFormatSchema "csv") with true. cbv iota.
  destruct (evaluate inPageCsv (page grid)) as [p [csv|e0]]; simpl.
  - split; [reflexivity|]. split; [discriminate|].
    intros x Hx. inversion Hx; subst; clear Hx. simpl.
    exists ("grid-export-" ++ gridId ++ "-" ++
            replaceColonsAndPeriods (isoNow env))%string.
    split; [|f_equal; f_equal];
      rewrite !string_append_assoc; reflexivity.
  - split; [reflexivity|]. split; [eauto|discriminate].
Qed.

Lemma exportGridData_excel_is_csv_witness :
  exists stem,
    snd (exportGridData simEnv "g1" "excel" healthyManager)
    = Ok (mkExportResult "" "excel" (stem ++ ".excel")%string).
Proof.
  destruct (@exportGridData_excel_is_csv SimApi SimGrid simEnv "g1" healthyManager)
    as (_ & _ & H).
  destruct (H (mkExportResult "" "csv" "grid-export-g1-2023-11-14T22-13-20-000Z.csv")
              ltac:(vm_compute; reflexivity)) as (stem & _ & Hx).
  exists stem. exact Hx.
Defined.

(* ================================================================== *)
(** * Invoking a method, in full *)
(* ================================================================== *)



(** X10. A call that cannot be dispatched fails at the surface and is
    wrapped: on a page that answers, when the api object has no function
    under the method's name, or when the page has no api object,
    invokeMethod fails with METHOD_EXECUTION_FAILED carrying the
    identifier and the surface's message, the page's globals are left as
    they were, the grid still resolves and the sink is told nothing. *)
Theorem executeGridMethod_unknown_method {Api} {GA : GridApi Api}
    (gridId method : string) (params : option (list JsValue))
    (m : GridManager Api) (grid : GridInstance Api) :
  getGridInstance gridId m = Ok grid ->
  answers (page grid) ->
  (gridApi (window (page grid)) = None \/
   exists api, gridApi (window (page grid)) = Some api /\
               apiMethod api method = None) ->
  exists message grid',
    snd (executeGridMethod gridId method params m)
    = Throw (GridManagerError ("Failed to execute grid method: " ++ method)
               METHOD_EXECUTION_FAILED (Some gridId) (Some (PlainError message))) /\
    (message = "Grid API not available" \/
     message = "Method '" ++ method ++ "' not found on grid API")%string /\
    getGridInstance gridId (fst (executeGridMethod gridId method params m))
    = Ok grid' /\
    window (page grid') = window (page grid) /\
    webSocketManager (fst (executeGridMethod gridId method params m))
    = webSocketManager m.
Proof.
  intros Hg Hans Hno. destruct (getGridInstance_lookup _ _ Hg) as [Hl Hd].
  destruct (roundTrip_answers (inPageMethod method params) Hans) as (Hw & Hr & _).
  assert (Hrun : exists message,
             inPageMethod method params (window (page grid))
             = (window (page grid), Throw (PlainError message)) /\
             (message = "Grid API not available" \/
              message = "Method '" ++ method ++ "' not found on grid API")%string).
  { unfold inPageMethod. destruct Hno as [Hnone|(api & Hapi & Hm)].
    - rewrite Hnone. eexists. split; [reflexivity|]. left. reflexivity.
    - rewrite Hapi, Hm. eexists. split; [reflexivity|]. right. reflexivity. }
  destruct Hrun as (message & Hrun & Hmsg). rewrite Hrun in Hw, Hr.
  unfold executeGridMethod. rewrite Hg. unfold evaluate.
  destruct (roundTrip (inPageMethod method params) (page grid)) as [p o] eqn:E.
  rewrite ?E in Hw, Hr. simpl in Hw, Hr. subst o. simpl.
  exists message, (withPage grid p).
  split; [reflexivity|]. split; [exact Hmsg|]. split; [|split; [exact Hw|reflexivity]].
  unfold getGridInstance. simpl. rewrite lookup_mapSet_same. simpl.
  rewrite Hd. reflexivity.
Qed.

Lemma executeGridMethod_unknown_method_witness :
  exists message,
    snd (executeGridMethod "g1" "selectEverything" None healthyManager)
    = Throw (GridManagerError "Failed to execute grid method: selectEverything"
               METHOD_EXECUTION_FAILED (Some "g1") (Some (PlainError message))).
Proof.
  assert (Hg : getGridInstance "g1" healthyManager = Ok (simGrid "g1" statusApi []))
    by (vm_compute; reflexivity).
  assert (Hans : answers (page (simGrid "g1" statusApi [])))
    by (split; [reflexivity|left; reflexivity]).
  assert (Hno : apiMethod statusApi "selectEverything" = None)
    by (vm_compute; reflexivity).
  destruct (@executeGridMethod_unknown_method SimApi SimGrid "g1" "selectEverything"
              None healthyManager (simGrid "g1" statusApi []) Hg Hans
              (or_intror (ex_intro _ statusApi (conj eq_refl Hno))))
    as (message & grid' & Hthrow & _).
  exists message. exact Hthrow.
Defined.

(* ================================================================== *)
(** * Initialising and shutting down *)
(* ================================================================== *)

(** X11. initialize is idempotent: once it has succeeded, or on a
    manager that is initialised already, a further call returns at once
    without launching anything and changes nothing.  When the launch
    fails the call fails with BROWSER_INIT_FAILED wrapping the cause and
    the manager is unchanged, still uninitialised.  In no case does it
    touch the registry or the sink. *)
Theorem initialize_is_idempotent {Api} {GA : GridApi Api}
    (launch again : Outcome Browser) (m : GridManager Api) :
  (snd (initialize launch m) = Ok tt ->
     isInitialized (fst (initialize launch m)) = true /\
     initialize again (fst (initialize launch m))
     = (fst (initialize launch m), Ok tt)) /\
  (forall e, snd (initialize launch m) = Throw e ->
     fst (initialize launch m) = m /\ isInitialized m = false /\
     exists cause,
       launch = Throw cause /\
       e = GridManagerError "Failed to initialize browser" BROWSER_INIT_FAILED
             None (Some cause)) /\
  (isInitialized m = false -> forall b, launch = Ok b ->
     browser (fst (initialize launch m)) = Some b) /\
  grids (fst (initialize launch m)) = grids m /\
  webSocketManager (fst (initialize launch m)) = webSocketManager m.
Proof.
  unfold initialize. destruct (isInitialized m) eqn:Hi.
  - simpl. rewrite Hi.
    split; [intros _; split; reflexivity|].
    split; [intros e H; discriminate|].
    split; [intro H; discriminate|].
    split; reflexivity.
  - destruct launch as [b|cause]; simpl.
    + split; [intros _; split; reflexivity|].
      split; [intros e H; discriminate|].
      split; [intros _ b0 Hb; inversion Hb; reflexivity|].
      split; reflexivity.
    + rewrite Hi.
      split; [intro H; discriminate|].
      split.
      { intros e H. inversion H; subst e.
        split; [reflexivity|]. split; [reflexivity|].
        exists cause. split; reflexivity. }
      split; [intros _ b0 Hb; discriminate|].
      split; reflexivity.
Qed.

Lemma initialize_is_idempotent_witness :
  initialize (Throw (PlainError "no chrome"))
    (fst (initialize (Ok (mkBrowser [] (Ok tt) false)) (newGridManager (Api := SimApi))))
  = (fst (initialize (Ok (mkBrowser [] (Ok tt) false)) newGridManager), Ok tt).
Proof.
  destruct (@initialize_is_idempotent SimApi SimGrid
              (Ok (mkBrowser [] (Ok tt) false)) (Throw (PlainError "no chrome"))
              newGridManager) as [H _].
  destruct (H eq_refl) as [_ Hagain]. exact Hagain.
Defined.

(** X12. Shutdown closes the door on create alone.  After cleanup,
    whatever happened during it, create fails with NOT_INITIALIZED and
    changes nothing, for every configuration; a later initialize whose
    launch succeeds installs the new browser, and create no longer fails
    with NOT_INITIALIZED. *)
Theorem createGrid_after_cleanup {Api} {GA : GridApi Api}
    (env : Env) (config : JsValue) (m : GridManager Api) (b : Browser) :
  createGrid env config (fst (cleanup m))
  = (fst (cleanup m),
     Throw (GridManagerError "GridManager not initialized. Call initialize() first."
              NOT_INITIALIZED None None)) /\
  isInitialized (fst (initialize (Ok b) (fst (cleanup m)))) = true /\
  browser (fst (initialize (Ok b) (fst (cleanup m)))) = Some b /\
  ~ failsWith (snd (createGrid env config (fst (initialize (Ok b) (fst (cleanup m))))))
      NOT_INITIALIZED.
Proof.
  assert (Hoff : isInitialized (fst (cleanup m)) = false) by reflexivity.
  split; [unfold createGrid; rewrite Hoff; reflexivity|].
  unfold initialize. rewrite Hoff. simpl fst.
  split; [reflexivity|]. split; [reflexivity|].
  unfold createGrid. simpl isInitialized. simpl browser. cbv iota.
  destruct (GridConfigSchema config) as [cfg|].
  - destruct (setUpPage env cfg b) as [b' [p|e]]; simpl;
      intros (msg & gid & cause & H); discriminate.
  - simpl. intros (msg & gid & cause & H). discriminate.
Qed.

(** X13. Every failure of a method is a GridManagerError of the
    method's own kinds: resolving gives GRID_NOT_FOUND or GRID_DESTROYED;
    replaceData, invokeMethod, export and readState add to these
    UPDATE_DATA_FAILED, METHOD_EXECUTION_FAILED, INVALID_EXPORT_FORMAT or
    EXPORT_FAILED, and GET_STATE_FAILED; destroy gives GRID_NOT_FOUND or
    DESTROY_FAILED; summarize gives SUMMARY_GENERATION_FAILED only; each
    carries the identifier of the call.  initialize gives
    BROWSER_INIT_FAILED, without identifier, and cleanup never fails. *)
Theorem failures_are_typed {Api} {GA : GridApi Api}
    (dp : string -> bool) (env : Env) (gridId : string) (rows : list Row)
    (method : string) (params : option (list JsValue)) (fmt : string)
    (launch : Outcome Browser) (m : GridManager Api) :
  typedFailure (getGridInstance gridId m) [GRID_NOT_FOUND; GRID_DESTROYED]
    (Some gridId) /\
  typedFailure (getGridInfo gridId m) [GRID_NOT_FOUND; GRID_DESTROYED]
    (Some gridId) /\
  typedFailure (snd (updateGridData env gridId rows m))
    [GRID_NOT_FOUND; GRID_DESTROYED; UPDATE_DATA_FAILED] (Some gridId) /\
  typedFailure (snd (executeGridMethod gridId method params m))
    [GRID_NOT_FOUND; GRID_DESTROYED; METHOD_EXECUTION_FAILED] (Some gridId) /\
  typedFailure (snd (exportGridData env gridId fmt m))
    [GRID_NOT_FOUND; GRID_DESTROYED; INVALID_EXPORT_FORMAT; EXPORT_FAILED]
    (Some gridId) /\
  typedFailure (snd (getGridState gridId m))
    [GRID_NOT_FOUND; GRID_DESTROYED; GET_STATE_FAILED] (Some gridId) /\
  typedFailure (snd (destroyGrid gridId m)) [GRID_NOT_FOUND; DESTROY_FAILED]
    (Some gridId) /\
  typedFailure (snd (generateGridSummary dp env gridId m))
    [SUMMARY_GENERATION_FAILED] (Some gridId) /\
  typedFailure (snd (initialize launch m)) [BROWSER_INIT_FAILED] None /\
  snd (cleanup m) = Ok tt.
Proof.
  assert (Hres : forall e, getGridInstance gridId m = Throw e ->
             exists msg c, e = GridManagerError msg c (Some gridId) None /\
                           (c = GRID_NOT_FOUND \/ c = GRID_DESTROYED)).
  { unfold getGridInstance. intros e.
    destruct (lookup gridId (grids m)) as [g|].
    - destruct (isDestroyed g); [|discriminate].
      intro H. inversion H. eauto.
    - intro H. inversion H. eauto. }
  split.
  { destruct (getGridInstance gridId m) as [g|e] eqn:Hg; [exact I|].
    destruct (Hres e eq_refl) as (msg & c & -> & [-> | ->]); simpl; auto. }
  split.
  { unfold getGridInfo. destruct (getGridInstance gridId m) as [g|e] eqn:Hg; [exact I|].
    destruct (Hres e eq_refl) as (msg & c & -> & [-> | ->]); simpl; auto. }
  split.
  { unfold updateGridData. destruct (getGridInstance gridId m) as [g|e] eqn:Hg.
    - destruct (evaluate (inPageUpdateGridData rows) (page g)) as [p [u|e]];
        simpl; auto.
    - destruct (Hres e eq_refl) as (msg & c & -> & [-> | ->]); simpl; auto. }
  split.
  { unfold executeGridMethod. destruct (getGridInstance gridId m) as [g|e] eqn:Hg.
    - destruct (evaluate (inPageMethod method params) (page g)) as [p [r|e]];
        [|simpl; auto].
      destruct (webSocketManager m); [|exact I].
      destruct (String.eqb method "setFilterModel").
      + destruct (firstTruthy params); [|exact I].
        destruct (evaluate inPageDisplayedRows p) as [p' [n|e]]; simpl; auto.
      + destruct (String.eqb method "applyColumnState"); [|exact I].
        destruct (firstTruthy params); exact I.
    - destruct (Hres e eq_refl) as (msg & c & -> & [-> | ->]); simpl; auto. }
  split.
  { unfold exportGridData. destruct (getGridInstance gridId m) as [g|e] eqn:Hg.
    - destruct (ExportFormatSchema fmt); [|simpl; auto].
      destruct (evaluate inPageCsv (page g)) as [p [csv|e]]; simpl; auto 6.
    - destruct (Hres e eq_refl) as (msg & c & -> & [-> | ->]); simpl; auto. }
  split.
  { unfold getGridState. destruct (getGridInstance gridId m) as [g|e] eqn:Hg.
    - destruct (evaluate inPageState (page g)) as [p [st|e]]; simpl; auto.
    - destruct (Hres e eq_refl) as (msg & c & -> & [-> | ->]); simpl; auto. }
  split.
  { unfold destroyGrid. destruct (lookup gridId (grids m)) as [g|]; [|simpl; auto].
    destruct (isDestroyed g); [exact I|].
    destruct (evaluate inPageDestroy (page g)) as [p [u|e]]; [|simpl; auto].
    destruct (pageClose p) as [p' [u'|e']]; simpl; auto. }
  split.
  { unfold generateGridSummary.
    destruct (getGridInfo gridId m) as [info|e]; [|simpl; auto].
    destruct (getGridState gridId m) as [m1 [st|e]]; [|simpl; auto].
    destruct (executeGridMethod gridId "getRenderedNodes" None m1) as [m2 [cd|e]];
      [|simpl; auto].
    destruct (currentRows cd (rowData (infoConfig info))) as [rs|e]; [|simpl; auto].
    destruct (summaryOf dp gridId (isoNow env) (columnDefs (infoConfig info)) rs);
      simpl; auto. }
  split; [|reflexivity].
  unfold initialize. destruct (isInitialized m); [exact I|].
  destruct launch; simpl; auto.
Qed.

(* ================================================================== *)
(** * The registry and the sink's mirror *)
(* ================================================================== *)

Section KeyFacts.
Variable V : Type.



End KeyFacts.

Section MirrorFacts.
Variable clock : nat -> string.
Context {Api : Type} {GA : GridApi Api}.







End MirrorFacts.



(* ================================================================== *)
(** * The statistics of a column *)
(* ================================================================== *)

Section NumberFacts.

Lemma Qmin_spec (a b : Q) :
  (Qmin a b = a \/ Qmin a b = b) /\ (Qmin a b <= a)%Q /\ (Qmin a b <= b)%Q.
Proof.
  unfold Qmin. destruct (Qle_bool a b) eqn:E.
  - apply Qle_bool_iff in E. split; [left; reflexivity|].
    split; [apply Qle_refl|exact E].
  - split; [right; reflexivity|]. split; [|apply Qle_refl].
    apply Qlt_le_weak. apply Qnot_le_lt. intro H.
    apply Qle_bool_iff in H. congruence.
Qed.

Lemma Qmax_spec (a b : Q) :
  (Qmax a b = a \/ Qmax a b = b) /\ (a <= Qmax a b)%Q /\ (b <= Qmax a b)%Q.
Proof.
  unfold Qmax. destruct (Qle_bool a b) eqn:E.
  - apply Qle_bool_iff in E. split; [right; reflexivity|].
    split; [exact E|apply Qle_refl].
  - split; [left; reflexivity|]. split; [apply Qle_refl|].
    apply Qlt_le_weak. apply Qnot_le_lt. intro H.
    apply Qle_bool_iff in H. congruence.
Qed.

Lemma Math_min_spec (xs : list Q) (x : Q) :
  In (Math_min x xs) (x :: xs) /\
  forall y, In y (x :: xs) -> (Math_min x xs <= y)%Q.
Proof.
  unfold Math_min. revert x. induction xs as [|a xs IH]; intro x.
  - split; [left; reflexivity|]. intros y [<-|[]]. apply Qle_refl.
  - cbn [fold_left]. destruct (IH (Qmin x a)) as [Hin Hle].
    destruct (Qmin_spec x a) as (Hc & Hx & Ha). split.
    + destruct Hin as [H|H]; [|right; right; exact H].
      destruct Hc as [E|E]; [left|right; left]; congruence.
    + intros y [<-|[<-|Hy]].
      * eapply Qle_trans; [apply Hle; left; reflexivity|exact Hx].
      * eapply Qle_trans; [apply Hle; left; reflexivity|exact Ha].
      * apply Hle. right. exact Hy.
Qed.

Lemma Math_max_spec (xs : list Q) (x : Q) :
  In (Math_max x xs) (x :: xs) /\
  forall y, In y (x :: xs) -> (y <= Math_max x xs)%Q.
Proof.
  unfold Math_max. revert x. induction xs as [|a xs IH]; intro x.
  - split; [left; reflexivity|]. intros y [<-|[]]. apply Qle_refl.
  - cbn [fold_left]. destruct (IH (Qmax x a)) as [Hin Hle].
    destruct (Qmax_spec x a) as (Hc & Hx & Ha). split.
    + destruct Hin as [H|H]; [|right; right; exact H].
      destruct Hc as [E|E]; [left|right; left]; congruence.
    + intros y [<-|[<-|Hy]].
      * eapply Qle_trans; [exact Hx|apply Hle; left; reflexivity].
      * eapply Qle_trans; [exact Ha|apply Hle; left; reflexivity].
      * apply Hle. right. exact Hy.
Qed.

Lemma numericValues_In (q : Q) (values : list JsValue) :
  In q (numericValues values) <-> In (JNum q) values.
Proof.
  unfold numericValues. rewrite in_flat_map. split.
  - intros (v & Hv & Hq). destruct v; simpl in Hq; try tauto.
    destruct Hq as [<-|[]]. exact Hv.
  - intro H. exists (JNum q). split; [exact H|left; reflexivity].
Qed.

Lemma numericValues_nonNull (cells : list JsValue) :
  numericValues (filter (fun v => negb (isNullish v)) cells) = numericValues cells.
Proof.
  unfold numericValues. induction cells as [|c cells IH]; [reflexivity|].
  destruct c; simpl; rewrite ?IH; reflexivity.
Qed.




End NumberFacts.

(** X15. The numeric bounds of a column are attained.  When the
    analysis of a column returns, min is absent exactly when max is, and
    exactly when the column's type is not number or no cell of the column
    is a number; when present, min and max are numbers found in cells of
    the column and every numeric cell lies between them. *)
Theorem numeric_bounds_are_attained (dp : string -> bool) (data : list JsValue)
    (fld : string) (def : ColumnDef) (st : ColumnStats) :
  analyzeColumnData dp data fld def = Ok st ->
  exists cells,
    columnCells data fld = Ok cells /\
    (statMin st = None <->
     statType st <> "number" \/ forall q, ~ In (JNum q) cells) /\
    (statMin st = None <-> statMax st = None) /\
    forall lo hi, statMin st = Some lo -> statMax st = Some hi ->
      In (JNum lo) cells /\ In (JNum hi) cells /\
      forall q, In (JNum q) cells -> (lo <= q)%Q /\ (q <= hi)%Q.
Proof.
  unfold analyzeColumnData. intro H.
  destruct (columnCells data fld) as [cells|e]; [|discriminate].
  exists cells. split; [reflexivity|].
  injection H as <-. cbn [statMin statMax statType].
  set (ty := match type_ def with
             | Some t => if String.eqb t "" then inferDataType dp _ else t
             | None => inferDataType dp _
             end).
  rewrite numericValues_nonNull.
  destruct (String.eqb_spec ty "number") as [Hty|Hty].
  - destruct (numericValues cells) as [|x xs] eqn:Hn.
    + split; [|split; [tauto|discriminate]].
      split; [|reflexivity]. intros _. right. intros q Hq.
      apply numericValues_In in Hq. rewrite Hn in Hq. exact Hq.
    + split; [|split; [split; discriminate|]].
      * split; [discriminate|]. intros [Hne|Hno]; [congruence|].
        exfalso. apply (Hno x). apply numericValues_In. rewrite Hn. left. reflexivity.
      * intros lo hi Hlo Hhi. injection Hlo as <-. injection Hhi as <-.
        destruct (Math_min_spec xs x) as [Hmin Hle].
        destruct (Math_max_spec xs x) as [Hmax Hge].
        rewrite <- Hn in Hmin, Hmax. apply numericValues_In in Hmin, Hmax.
        split; [exact Hmin|]. split; [exact Hmax|].
        intros q Hq. apply numericValues_In in Hq. rewrite Hn in Hq.
        split; [apply Hle|apply Hge]; exact Hq.
  - split; [|split; [tauto|discriminate]].
    split; [|reflexivity]. intros _. left. exact Hty.
Qed.

Lemma numeric_bounds_are_attained_witness :
  exists st,
    analyzeColumnData noDateStrings priceRows "price" (plainColumn "price") = Ok st /\
    statMin st = Some 10%Q /\ statMax st = Some 30%Q /\
    forall q, In (JNum q) [JNum 10%Q; JNull; JNum 30%Q] -> (10 <= q)%Q /\ (q <= 30)%Q.
Proof.
  eexists. split; [vm_compute; reflexivity|]. split; [reflexivity|].
  split; [reflexivity|].
  destruct (@numeric_bounds_are_attained noDateStrings priceRows "price"
              (plainColumn "price") _ eq_refl) as (cells & Hc & _ & _ & H).
  injection Hc as <-.
  destruct (H 10%Q 30%Q eq_refl eq_refl) as (_ & _ & Hall). exact Hall.
Defined.

Section NumericSort.

Lemma ascending_le (x y : Q) : Qle_bool (x - y) 0 = true <-> (x <= y)%Q.
Proof.
  rewrite Qle_bool_iff. split; intro H.
  - apply Qle_minus_iff. apply Qle_minus_iff in H.
    setoid_replace (y + - x)%Q with (0 + - (x - y))%Q by ring. exact H.
  - apply Qle_minus_iff. apply Qle_minus_iff in H.
    setoid_replace (0 + - (x - y))%Q with (y + - x)%Q by ring. exact H.
Qed.

Lemma sortInsert_permutes (A : Type) (cmp : A -> A -> Q) (x : A) (l : list A) :
  Permutation (x :: l) (sortInsert cmp x l).
Proof.
  induction l as [|y l IH]; simpl; [apply Permutation_refl|].
  destruct (Qle_bool (cmp x y) 0); [apply Permutation_refl|].
  eapply Permutation_trans; [apply perm_swap|]. apply perm_skip. exact IH.
Qed.

Lemma jsSort_permutes (A : Type) (cmp : A -> A -> Q) (l : list A) :
  Permutation l (jsSort cmp l).
Proof.
  induction l as [|x l IH]; simpl; [apply perm_nil|].
  eapply Permutation_trans; [apply perm_skip; exact IH|].
  apply sortInsert_permutes.
Qed.


End NumericSort.






Section SetFacts.






End SetFacts.



(* ================================================================== *)
(** * The totals of a summary *)
(* ================================================================== *)

Section TypeCounts.

Lemma lookup_bump_same (t : string) (m : list (string * nat)) :
  lookup t (bump t m)
  = Some (S (match lookup t m with Some n => n | None => 0 end)).
Proof.
  induction m as [|[k n] m IH]; simpl.
  - rewrite String.eqb_refl. reflexivity.
  - destruct (String.eqb t k) eqn:E; simpl; rewrite E; [reflexivity|exact IH].
Qed.

Lemma lookup_bump_other (t k : string) (m : list (string * nat)) :
  t <> k -> lookup k (bump t m) = lookup k m.
Proof.
  intro Hne. induction m as [|[k' n] m IH]; simpl.
  - destruct (String.eqb_spec k t); [congruence|reflexivity].
  - destruct (String.eqb_spec t k') as [->|Hk]; simpl.
    + destruct (String.eqb_spec k k'); [congruence|reflexivity].
    + rewrite IH. reflexivity.
Qed.

Lemma keys_bump (t k : string) (m : list (string * nat)) :
  In k (map fst (bump t m)) <-> k = t \/ In k (map fst m).
Proof.
  induction m as [|[k' n] m IH]; simpl.
  - split; [intros [H|[]]; left; congruence|intros [H|[]]; left; congruence].
  - destruct (String.eqb_spec t k') as [->|Hk]; simpl.
    + split; [tauto|]. intros [->|H]; [left; reflexivity|exact H].
    + rewrite IH. tauto.
Qed.

Lemma NoDup_bump (t : string) (m : list (string * nat)) :
  NoDup (map fst m) -> NoDup (map fst (bump t m)).
Proof.
  induction m as [|[k n] m IH]; simpl; intro H.
  - constructor; [tauto|constructor].
  - inversion H as [|? ? Hnotin Hrest]; subst.
    destruct (String.eqb_spec t k) as [->|Hk]; simpl.
    + constructor; assumption.
    + constructor; [|apply IH; exact Hrest].
      rewrite keys_bump. intros [E|E]; [congruence|contradiction].
Qed.

Lemma sum_bump (t : string) (m : list (string * nat)) :
  list_sum (map snd (bump t m)) = S (list_sum (map snd m)).
Proof.
  induction m as [|[k n] m IH]; simpl; [reflexivity|].
  destruct (String.eqb t k); simpl; [reflexivity|]. rewrite IH. lia.
Qed.

Lemma bump_fold (A : Type) (key : A -> string) (l : list A)
    (acc : list (string * nat)) :
  let counts := fold_left (fun m a => bump (key a) m) l acc in
  (NoDup (map fst acc) -> NoDup (map fst counts)) /\
  list_sum (map snd counts) = list_sum (map snd acc) + List.length l /\
  forall t,
    lookup t counts
    = match lookup t acc with
      | Some n => Some (n + countIf (fun a => String.eqb (key a) t) l)
      | None => counted (countIf (fun a => String.eqb (key a) t) l)
      end.
Proof.
  revert acc. induction l as [|a l IH]; intro acc; cbn zeta.
  - simpl. split; [tauto|]. split; [lia|].
    intro t. destruct (lookup t acc); [f_equal; unfold countIf; simpl; lia|].
    reflexivity.
  - cbn [fold_left]. destruct (IH (bump (key a) acc)) as (Hnd & Hsum & Hl).
    split; [intro H; apply Hnd, NoDup_bump, H|].
    split; [rewrite Hsum, sum_bump; simpl; lia|].
    intro t. rewrite Hl. unfold countIf. cbn [filter].
    destruct (String.eqb_spec (key a) t) as [->|Hne].
    + rewrite lookup_bump_same. cbn [List.length].
      destruct (lookup t acc); simpl; f_equal; lia.
    + rewrite lookup_bump_other by exact Hne. reflexivity.
Qed.

Lemma dataTypes_fold (stats : list ColumnStats) (acc : list (string * nat)) :
  let types := fold_left (fun m stat => bump (statType stat) m) stats acc in
  (NoDup (map fst acc) -> NoDup (map fst types)) /\
  list_sum (map snd types) = list_sum (map snd acc) + List.length stats /\
  forall t,
    lookup t types
    = match lookup t acc with
      | Some n => Some (n + columnsOfType t stats)
      | None => counted (columnsOfType t stats)
      end.
Proof.
  exact (bump_fold statType stats acc).
Qed.

Lemma analyzeColumns_fields (dp : string -> bool) (data : list JsValue)
    (defs : list ColumnDef) (stats : list ColumnStats) :
  analyzeColumns dp data defs = Ok stats ->
  map statField stats = map field defs /\
  Forall (fun st => nullCount st <= List.length data) stats.
Proof.
  revert stats. induction defs as [|d defs IH]; intros stats H; simpl in H.
  - injection H as <-. split; [reflexivity|constructor].
  - destruct (analyzeColumnData dp data (field d) d) as [st|] eqn:Hd; [|discriminate].
    destruct (analyzeColumns dp data defs) as [sts|]; [|discriminate].
    injection H as <-. destruct (IH sts eq_refl) as [Hf Hn].
    unfold analyzeColumnData in Hd.
    destruct (columnCells data (field d)); [|discriminate].
    injection Hd as <-. simpl. split; [f_equal; exact Hf|].
    constructor; [simpl; lia|exact Hn].
Qed.

Lemma sumNulls_bound (rows : nat) (stats : list ColumnStats) :
  Forall (fun st => nullCount st <= rows) stats ->
  sumNulls stats <= rows * List.length stats.
Proof.
  unfold sumNulls.
  assert (H : forall acc,
             Forall (fun st => nullCount st <= rows) stats ->
             fold_left (fun sum stat => sum + nullCount stat) stats acc
             <= acc + rows * List.length stats).
  { induction stats as [|st stats IH]; intros acc Hall; simpl; [lia|].
    inversion Hall; subst. specialize (IH (acc + nullCount st) H2). lia. }
  intro Hall. exact (H 0 Hall).
Qed.

Lemma Math_round_range (y : Q) :
  (0 <= y)%Q -> (y <= 10000)%Q ->
  (0 <= Math_round y / 100)%Q /\ (Math_round y / 100 <= 100)%Q.
Proof.
  intros H0 H1. unfold Math_round.
  assert (Hlo : (0 <= Qfloor (y + (1 # 2)))%Z).
  { change 0%Z with (Qfloor (0 + (1 # 2))).
    apply Qfloor_resp_le. apply Qplus_le_compat; [exact H0|apply Qle_refl]. }
  assert (Hhi : (Qfloor (y + (1 # 2)) <= 10000)%Z).
  { change 10000%Z with (Qfloor (10000 + (1 # 2))).
    apply Qfloor_resp_le. apply Qplus_le_compat; [exact H1|apply Qle_refl]. }
  split.
  - apply Qle_shift_div_l; [reflexivity|].
    unfold Qle, Qmult, inject_Z; cbn [Qnum Qden Pos.mul]. lia.
  - apply Qle_shift_div_r; [reflexivity|].
    unfold Qle, Qmult, inject_Z; cbn [Qnum Qden Pos.mul]. lia.
Qed.
End TypeCounts.

(** X19. The totals of a summary are consistent.  When summarising a
    grid returns, the summary names the grid and the time of the call,
    and has one column entry per declared column, in the declared order
    and under the declared fields; completeness lies between 0 and 100,
    and it is 100 when there are cells and none of them is null or
    undefined; and when no column declares as its type a name that every
    object inherits (constructor, toString and the like), the type
    distribution has each type once, gives for each type the number of
    columns of that type (and no entry for a type that no column has),
    and its counts add up to the number of columns. *)
Theorem summary_totals_are_consistent {Api} {GA : GridApi Api}
    (dp : string -> bool) (env : Env) (gridId : string)
    (m m' : GridManager Api) (s : GridSummaryStats) :
  generateGridSummary dp env gridId m = (m', Ok s) ->
  exists grid,
    getGridInstance gridId m = Ok grid /\
    summaryGridId s = gridId /\
    generatedAt s = isoNow env /\
    map statField (columnStats s) = map field (columnDefs (config grid)) /\
    totalColumns s = List.length (columnDefs (config grid)) /\
    (declaresOwnNames (columnDefs (config grid)) ->
     NoDup (map fst (dataTypes s)) /\
     (forall t, lookup t (dataTypes s) = counted (columnsOfType t (columnStats s))) /\
     list_sum (map snd (dataTypes s)) = totalColumns s) /\
    (0 <= completeness s)%Q /\ (completeness s <= 100)%Q /\
    (0 < totalRows s * totalColumns s -> sumNulls (columnStats s) = 0 ->
     (completeness s == 100)%Q).
Proof.
  intro H.
  destruct (generateGridSummary_Ok _ _ _ _ H) as (grid & cd & rows & Hg & _ & Hs).
  exists grid. split; [exact Hg|].
  unfold summaryOf in Hs.
  destruct (analyzeColumns dp rows (columnDefs (config grid))) as [stats|e] eqn:Ha;
    [|discriminate].
  destruct (analyzeColumns_nth _ _ _ Ha) as [Hlen _].
  destruct (analyzeColumns_fields _ _ _ Ha) as [Hfields Hnulls].
  destruct (dataTypes_fold stats []) as (Hnd & Hsum & Hl).
  pose proof (sumNulls_bound Hnulls) as Hbound.
  injection Hs as <-.
  cbn [summaryGridId generatedAt columnStats totalColumns totalRows dataTypes
       completeness].
  split; [reflexivity|]. split; [reflexivity|]. split; [exact Hfields|].
  split; [exact Hlen|]. split.
  { intros _. split; [apply Hnd; constructor|].
    split; [intro t; rewrite Hl; reflexivity|].
    rewrite Hsum. reflexivity. }
  set (cells := List.length rows * List.length stats) in *.
  destruct (Nat.ltb_spec 0 cells) as [Hpos|Hzero].
  - assert (Htc : (0 < ofNat cells)%Q).
    { unfold ofNat, Qlt; simpl. lia. }
    assert (Hnc : (0 <= ofNat (sumNulls stats))%Q).
    { unfold ofNat, Qle; simpl. lia. }
    assert (Hle : (ofNat (sumNulls stats) <= ofNat cells)%Q).
    { unfold ofNat, Qle; simpl. lia. }
    set (tc := ofNat cells) in *. set (nc := ofNat (sumNulls stats)) in *.
    assert (Hr0 : (0 <= (tc - nc) / tc)%Q).
    { apply Qle_shift_div_l; [exact Htc|]. rewrite Qmult_0_l.
      apply Qle_minus_iff in Hle. unfold Qminus. exact Hle. }
    assert (Hr1 : ((tc - nc) / tc <= 1)%Q).
    { apply Qle_shift_div_r; [exact Htc|]. rewrite Qmult_1_l.
      apply Qle_minus_iff. setoid_replace (tc + - (tc - nc))%Q with nc by ring.
      exact Hnc. }
    assert (Hy0 : (0 <= (tc - nc) / tc * 100 * 100)%Q).
    { apply Qmult_le_0_compat; [apply Qmult_le_0_compat|]; [exact Hr0|discriminate|discriminate]. }
    assert (Hy1 : ((tc - nc) / tc * 100 * 100 <= 10000)%Q).
    { setoid_replace 10000%Q with (1 * 100 * 100)%Q by reflexivity.
      apply Qmult_le_compat_r; [|discriminate].
      apply Qmult_le_compat_r; [exact Hr1|discriminate]. }
    destruct (Math_round_range Hy0 Hy1) as [Hc0 Hc1].
    split; [exact Hc0|]. split; [exact Hc1|].
    intros _ Hnone.
    assert (Hnc0 : (nc == 0)%Q).
    { unfold nc. rewrite Hnone. reflexivity. }
    rewrite (Math_round_comp (x := ((tc - nc) / tc * 100 * 100)%Q) (y := 10000%Q)).
    + reflexivity.
    + rewrite Hnc0. field. intro Hz. rewrite Hz in Htc. discriminate Htc.
  - split; [discriminate|]. split; [discriminate|]. intro Hpos. lia.
Qed.

Lemma summary_totals_are_consistent_witness :
  exists m' s,
    generateGridSummary noDateStrings simEnv (generateGridId simEnv)
      (fst (createGrid simEnv priceConfig idleManager)) = (m', Ok s) /\
    lookup "number" (dataTypes s) = Some 1 /\
    list_sum (map snd (dataTypes s)) = totalColumns s /\
    (completeness s <= 100)%Q.
Proof.
  destruct (generateGridSummary noDateStrings simEnv (generateGridId simEnv)
              (fst (createGrid simEnv priceConfig idleManager)))
    as [m' [s|e]] eqn:Hrun; [|vm_compute in Hrun; discriminate].
  exists m', s. split; [reflexivity|].
  destruct (@summary_totals_are_consistent SimApi SimGrid noDateStrings simEnv
              (generateGridId simEnv)
              (fst (createGrid simEnv priceConfig idleManager)) m' s Hrun)
    as (grid & Hg & _ & _ & _ & _ & Htypes & _ & Hc & _).
  assert (Hown : declaresOwnNames (columnDefs (config grid))).
  { vm_compute in Hg. injection Hg as <-.
    intros def t [<-|[]] Ht. discriminate Ht. }
  destruct (Htypes Hown) as (_ & _ & Hsum).
  split; [|split; [exact Hsum|exact Hc]].
  vm_compute in Hrun. injection Hrun as _ <-. reflexivity.
Defined.

(* ================================================================== *)
(** * The type of a column *)
(* ================================================================== *)





(* ================================================================== *)
(** * What method calls leave of the stored snapshots *)
(* ================================================================== *)

Section SnapshotFacts.
Context {Api : Type} {GA : GridApi Api}.

Lemma lookup_snapshots (k : string) (m : GridManager Api) :
  lookup k (snapshots m) = option_map snapshotOf (lookup k (grids m)).
Proof.
  unfold snapshots. induction (grids m) as [|[k' g] l IH]; simpl; [reflexivity|].
  destruct (String.eqb k k'); [reflexivity|exact IH].
Qed.

Lemma mapKeys_snapshots (m : GridManager Api) :
  mapKeys (snapshots m) = mapKeys (grids m).
Proof.
  unfold snapshots, mapKeys. rewrite map_map. reflexivity.
Qed.

Lemma snapshots_stored (gridId : string) (grid : GridInstance Api) (p : Page Api)
    (l : list (string * GridInstance Api)) :
  lookup gridId l = Some grid ->
  map (fun kv => (fst kv, snapshotOf (snd kv))) (mapSet gridId (withPage grid p) l)
  = map (fun kv => (fst kv, snapshotOf (snd kv))) l.
Proof.
  induction l as [|[k g] l IH]; simpl; [discriminate|].
  destruct (String.eqb_spec gridId k) as [->|Hne]; simpl.
  - intro H. injection H as ->. reflexivity.
  - intro H. rewrite (IH H). reflexivity.
Qed.

Lemma getGridInfo_snapshots (k : string) (m m' : GridManager Api) :
  snapshots m' = snapshots m -> getGridInfo k m' = getGridInfo k m.
Proof.
  intro H. unfold getGridInfo, getGridInstance.
  pose proof (lookup_snapshots k m) as Hm. pose proof (lookup_snapshots k m') as Hm'.
  rewrite H, Hm in Hm'.
  destruct (lookup k (grids m)) as [g|], (lookup k (grids m')) as [g'|];
    simpl in Hm'; try discriminate; [|reflexivity].
  assert (Hs : snapshotOf g' = snapshotOf g) by congruence.
  pose proof (f_equal infoIsDestroyed Hs) as Hd. simpl in Hd. rewrite Hd.
  destruct (isDestroyed g); [reflexivity|]. f_equal. exact Hs.
Qed.

Lemma getActiveGrids_snapshots (m m' : GridManager Api) :
  snapshots m' = snapshots m -> getActiveGrids m' = getActiveGrids m.
Proof.
  intro H. unfold getActiveGrids.
  rewrite <- (mapKeys_snapshots m), <- (mapKeys_snapshots m'), H.
  apply filter_ext. intro k.
  pose proof (lookup_snapshots k m) as Hm. pose proof (lookup_snapshots k m') as Hm'.
  rewrite H, Hm in Hm'.
  destruct (lookup k (grids m)) as [g|], (lookup k (grids m')) as [g'|];
    simpl in Hm'; try discriminate; [|reflexivity].
  assert (Hs : snapshotOf g' = snapshotOf g) by congruence.
  pose proof (f_equal infoIsDestroyed Hs) as Hd. simpl in Hd. rewrite Hd.
  reflexivity.
Qed.

Lemma snapshots_storePage (gridId : string) (grid : GridInstance Api) (p : Page Api)
    (m m' : GridManager Api) :
  lookup gridId (grids m) = Some grid ->
  grids m' = grids (storePage gridId grid p m) ->
  snapshots m' = snapshots m.
Proof.
  intros Hl Hg. unfold snapshots. rewrite Hg. simpl.
  apply snapshots_stored. exact Hl.
Qed.

Lemma executeGridMethod_snapshots (gridId method : string)
    (params : option (list JsValue)) (m : GridManager Api) :
  snapshots (fst (executeGridMethod gridId method params m)) = snapshots m.
Proof.
  unfold executeGridMethod.
  destruct (getGridInstance gridId m) as [grid|e] eqn:Hg; [|reflexivity].
  destruct (getGridInstance_lookup _ _ Hg) as [Hl Hd].
  destruct (evaluate (inPageMethod method params) (page grid)) as [p [r|e]];
    [|eapply snapshots_storePage; [exact Hl|reflexivity]].
  destruct (webSocketManager m) as [calls|];
    [|eapply snapshots_storePage; [exact Hl|reflexivity]].
  destruct (String.eqb method "setFilterModel").
  - destruct (firstTruthy params) as [v|];
      [|eapply snapshots_storePage; [exact Hl|reflexivity]].
    destruct (evaluate inPageDisplayedRows p) as [p' [n|e]]; simpl;
      eapply snapshots_storePage; solve [exact Hl|reflexivity].
  - destruct (String.eqb method "applyColumnState");
      [|eapply snapshots_storePage; [exact Hl|reflexivity]].
    destruct (firstTruthy params) as [v|];
      eapply snapshots_storePage; solve [exact Hl|reflexivity].
Qed.

Lemma exportGridData_snapshots (env : Env) (gridId fmt : string)
    (m : GridManager Api) :
  snapshots (fst (exportGridData env gridId fmt m)) = snapshots m.
Proof.
  unfold exportGridData.
  destruct (getGridInstance gridId m) as [grid|e] eqn:Hg; [|reflexivity].
  destruct (getGridInstance_lookup _ _ Hg) as [Hl Hd].
  destruct (ExportFormatSchema fmt); [|reflexivity].
  destruct (evaluate inPageCsv (page grid)) as [p [csv|e]]; simpl;
    eapply snapshots_storePage; solve [exact Hl|reflexivity].
Qed.

Lemma getGridState_snapshots (gridId : string) (m : GridManager Api) :
  snapshots (fst (getGridState gridId m)) = snapshots m.
Proof.
  unfold getGridState.
  destruct (getGridInstance gridId m) as [grid|e] eqn:Hg; [|reflexivity].
  destruct (getGridInstance_lookup _ _ Hg) as [Hl Hd].
  destruct (evaluate inPageState (page grid)) as [p [st|e]]; simpl;
    eapply snapshots_storePage; solve [exact Hl|reflexivity].
Qed.

Lemma generateGridSummary_snapshots (dp : string -> bool) (env : Env)
    (gridId : string) (m : GridManager Api) :
  snapshots (fst (generateGridSummary dp env gridId m)) = snapshots m.
Proof.
  unfold generateGridSummary.
  destruct (getGridInfo gridId m) as [info|e]; [|reflexivity].
  pose proof (getGridState_snapshots gridId m) as H1.
  destruct (getGridState gridId m) as [m1 [st|e]]; simpl in H1; [|exact H1].
  pose proof (executeGridMethod_snapshots gridId "getRenderedNodes" None m1) as H2.
  rewrite H1 in H2.
  destruct (executeGridMethod gridId "getRenderedNodes" None m1) as [m2 [cd|e]];
    simpl in H2; [|exact H2].
  destruct (currentRows cd (rowData (infoConfig info))) as [rows|e]; [|exact H2].
  destruct (summaryOf dp gridId (isoNow env) (columnDefs (infoConfig info)) rows);
    exact H2.
Qed.

Lemma performAll_snapshots (ops : list Operation) (m : GridManager Api) :
  forallb keepsSnapshot ops = true ->
  snapshots (performAll ops m) = snapshots m.
Proof.
  unfold performAll. revert m. induction ops as [|op ops IH]; intros m Hall;
    [reflexivity|].
  simpl in Hall. apply andb_true_iff in Hall. destruct Hall as [Hop Hall].
  cbn [fold_left]. rewrite (IH _ Hall).
  destruct op; try discriminate; simpl.
  - apply executeGridMethod_snapshots.
  - apply exportGridData_snapshots.
  - apply getGridState_snapshots.
  - apply generateGridSummary_snapshots.
Qed.
End SnapshotFacts.

(** X21. Method calls do not refresh the stored snapshot.  Whatever
    sequence of method calls, exports, state reads and summaries is
    run, on whatever grids and whether they return or fail, the manager
    afterwards lists the same active grids and getGridInfo returns for
    every identifier what it returned before: the stored configuration
    and rows, createdAt and lastUpdated are kept, also when a method
    that was called changed the rows or the filter inside the page. *)
Theorem method_calls_keep_the_snapshots {Api} {GA : GridApi Api}
    (ops : list Operation) (m : GridManager Api) :
  forallb keepsSnapshot ops = true ->
  getActiveGrids (performAll ops m) = getActiveGrids m /\
  forall k, getGridInfo k (performAll ops m) = getGridInfo k m.
Proof.
  intro Hall. pose proof (performAll_snapshots ops m Hall) as H. split.
  - apply getActiveGrids_snapshots. exact H.
  - intro k. apply getGridInfo_snapshots. exact H.
Qed.

Lemma method_calls_keep_the_snapshots_witness :
  snd (executeGridMethod "g1" "setFilterModel" (Some [completedOnly]) healthyManager)
  = Ok JUndefined /\
  getGridInfo "g1"
    (performAll [ExecuteGridMethod "g1" "setFilterModel" (Some [completedOnly]);
                 ExportGridData simEnv "g1" "csv";
                 GenerateGridSummary noDateStrings simEnv "g1"]
       healthyManager)
  = getGridInfo "g1" healthyManager.
Proof.
  split; [vm_compute; reflexivity|].
  apply (@method_calls_keep_the_snapshots SimApi SimGrid). reflexivity.
Defined.

(* ================================================================== *)
(** * The sink's own bookkeeping *)
(* ================================================================== *)

(** X22. updateGridState merges into the mirrored state, and creates
    it when there is none.  After updateGridState the mirror holds a
    state under the identifier, stamped with the time of the call as
    lastUpdated, and that state is what was broadcast, as one
    grid_state_updated message; the states of the other identifiers are
    untouched.  When the identifier was known, it keeps its place in
    the mirror and every field that the update does not carry keeps its
    value, createdAt included.  When it was not known, it is added
    after the others, and the fields that the update does not carry are
    the identifier, an empty config, no data, no filters, no sorting,
    and the time of the call as createdAt. *)
Theorem updateGridState_merges (clock : nat -> string) (gridId : string)
    (updates : WebSocket.Updates) (ws : WebSocket.WebSocketManager) :
  let ws' := WebSocket.updateGridState clock gridId updates ws in
  exists s',
    WebSocket.getGridState gridId ws' = Some s' /\
    WebSocket.emitted ws'
    = WebSocket.emitted ws ++ [WebSocket.grid_state_updated s'] /\
    WebSocket.lastUpdated s' = clock (S (WebSocket.clockReads ws)) /\
    (forall k, k <> gridId ->
       WebSocket.getGridState k ws' = WebSocket.getGridState k ws) /\
    (forall s, WebSocket.getGridState gridId ws = Some s ->
       mapKeys (WebSocket.gridStates ws') = mapKeys (WebSocket.gridStates ws) /\
       (WebSocket.newId updates = None -> WebSocket.id s' = WebSocket.id s) /\
       (WebSocket.newConfig updates = None ->
        WebSocket.config s' = WebSocket.config s) /\
       (WebSocket.newData updates = None -> WebSocket.data s' = WebSocket.data s) /\
       (WebSocket.newFilters updates = None ->
        WebSocket.filters s' = WebSocket.filters s) /\
       (WebSocket.newSorting updates = None ->
        WebSocket.sorting s' = WebSocket.sorting s) /\
       (WebSocket.newStats updates = None ->
        WebSocket.stats s' = WebSocket.stats s) /\
       (WebSocket.newCreatedAt updates = None ->
        WebSocket.createdAt s' = WebSocket.createdAt s)) /\
    (WebSocket.getGridState gridId ws = None ->
       mapKeys (WebSocket.gridStates ws')
       = mapKeys (WebSocket.gridStates ws) ++ [gridId] /\
       (WebSocket.newId updates = None -> WebSocket.id s' = gridId) /\
       (WebSocket.newConfig updates = None ->
        WebSocket.config s' = WebSocket.EmptyObject) /\
       (WebSocket.newData updates = None -> WebSocket.data s' = []) /\
       (WebSocket.newFilters updates = None -> WebSocket.filters s' = None) /\
       (WebSocket.newSorting updates = None -> WebSocket.sorting s' = None) /\
       (WebSocket.newStats updates = None -> WebSocket.stats s' = None) /\
       (WebSocket.newCreatedAt updates = None ->
        WebSocket.createdAt s' = clock (WebSocket.clockReads ws))).
Proof.
  intro ws'. unfold ws', WebSocket.updateGridState, WebSocket.getGridState.
  cbn [WebSocket.gridStates WebSocket.emitted].
  eexists. split; [apply lookup_mapSet_same|]. split; [reflexivity|].
  split; [reflexivity|]. split.
  { intros k Hk. apply lookup_mapSet_other. congruence. }
  split.
  - intros s Hs. rewrite Hs.
    split.
    { rewrite mapKeys_mapSet, (lookup_Some_existsb _ _ Hs). reflexivity. }
    unfold WebSocket.mergeState. cbn.
    repeat split; intros ->; reflexivity.
  - intros Hnone. rewrite Hnone.
    split.
    { rewrite mapKeys_mapSet.
      destruct (existsb (String.eqb gridId) (mapKeys (WebSocket.gridStates ws))) eqn:E;
        [|reflexivity].
      exfalso. apply existsb_exists in E. destruct E as (k & Hin & Hk).
      apply String.eqb_eq in Hk. subst k.
      exact (lookup_None_not_In_keys _ _ Hnone Hin). }
    unfold WebSocket.mergeState. cbn.
    repeat split; intros ->; reflexivity.
Qed.

(** X23. removeGrid forgets the grid, and nothing else guards the
    mirror.  After removeGrid the mirror has no state under the
    identifier and does not list it; the states of the other identifiers
    and their order are untouched; two messages were broadcast, first
    grid_removed and then a grid_destroyed event stamped with the time of
    the call, also when the identifier was not known.  A filter
    notification that arrives for the removed identifier afterwards
    brings a state back under it, with an empty config and no data. *)
Theorem removeGrid_forgets_the_grid (clock : nat -> string) (gridId : string)
    (ws : WebSocket.WebSocketManager) :
  let ws' := WebSocket.removeGrid clock gridId ws in
  WebSocket.getGridState gridId ws' = None /\
  ~ In gridId (mapKeys (WebSocket.gridStates ws')) /\
  mapKeys (WebSocket.gridStates ws')
  = filter (fun k => negb (String.eqb gridId k)) (mapKeys (WebSocket.gridStates ws)) /\
  (forall k, k <> gridId ->
     WebSocket.getGridState k ws' = WebSocket.getGridState k ws) /\
  WebSocket.emitted ws'
  = WebSocket.emitted ws ++
    [WebSocket.grid_removed gridId;
     WebSocket.grid_event
       (WebSocket.mkGridEvent WebSocket.grid_destroyed gridId
          (clock (WebSocket.clockReads ws)) WebSocket.NoData)] /\
  (WebSocket.getGridState gridId ws = None ->
   WebSocket.gridStates ws' = WebSocket.gridStates ws) /\
  forall filterModel displayedRows,
    exists s,
      WebSocket.getGridState gridId
        (WebSocket.onGridFiltered clock gridId filterModel displayedRows ws')
      = Some s /\
      WebSocket.config s = WebSocket.EmptyObject /\ WebSocket.data s = [] /\
      WebSocket.filters s = Some filterModel /\
      WebSocket.createdAt s = clock (S (WebSocket.clockReads ws)).
Proof.
  intro ws'. unfold ws', WebSocket.removeGrid, WebSocket.getGridState.
  cbn [WebSocket.gridStates WebSocket.emitted].
  assert (Hgone : lookup gridId (mapDelete gridId (WebSocket.gridStates ws)) = None)
    by apply lookup_mapDelete_same.
  split; [exact Hgone|].
  split; [apply lookup_None_not_In_keys; exact Hgone|].
  split; [apply mapKeys_mapDelete|].
  split; [intros k Hk; apply lookup_mapDelete_other; congruence|].
  split; [reflexivity|]. split.
  - intro Hnone. clear Hgone. unfold mapDelete.
    induction (WebSocket.gridStates ws) as [|[k v] l IH]; simpl in *; [reflexivity|].
    destruct (String.eqb gridId k); [discriminate|]. simpl. f_equal.
    apply IH. exact Hnone.
  - intros filterModel displayedRows.
    unfold WebSocket.onGridFiltered, WebSocket.updateGridState.
    cbn [WebSocket.gridStates WebSocket.emitted WebSocket.clockReads].
    rewrite Hgone. eexists. split; [apply lookup_mapSet_same|].
    repeat split.
Qed.

(* ================================================================== *)
(** * The grid list resource and the routes *)
(* ================================================================== *)

(** X24. The grid list never reports a grid it could not read.  The
    response of the grid list resource counts and lists the active
    grids, in the order of the registry, and every entry is a full one:
    the identifier, the stored timestamps, the number of declared columns
    and their fields, the number of stored rows, and whether a key of the
    grid options contains the word filter.  The entry that reports a
    failure to retrieve the grid's information is never produced. *)
Theorem grid_list_has_no_failed_entry {Api} {GA : GridApi Api}
    (env : Env) (m : GridManager Api) :
  totalGrids (gridListResource env m) = List.length (listedGrids (gridListResource env m)) /\
  List.length (listedGrids (gridListResource env m)) = List.length (getActiveGrids m) /\
  forall i gridId,
    nth_error (getActiveGrids m) i = Some gridId ->
    exists grid,
      lookup gridId (grids m) = Some grid /\
      isDestroyed grid = false /\
      nth_error (listedGrids (gridListResource env m)) i
      = Some (Listed
                {| listedId := gridId;
                   listedCreatedAt := createdAt grid;
                   listedLastUpdated := lastUpdated grid;
                   listedColumnCount := List.length (columnDefs (config grid));
                   listedRowCount := List.length (rowData (config grid));
                   listedColumnFields := map field (columnDefs (config grid));
                   listedHasFilters :=
                     existsb (includes "filter")
                       (optionKeys (gridOptions (config grid))) |}).
Proof.
  unfold gridListResource. cbn [totalGrids listedGrids].
  rewrite length_map. split; [reflexivity|]. split; [reflexivity|].
  intros i gridId Hi.
  assert (Hin : In gridId (getActiveGrids m)) by (eapply nth_error_In; exact Hi).
  unfold getActiveGrids in Hin. apply filter_In in Hin. destruct Hin as [Hkey Hlive].
  destruct (In_keys_lookup _ _ Hkey) as [grid Hl].
  rewrite Hl in Hlive. apply negb_true_iff in Hlive.
  exists grid. split; [exact Hl|]. split; [exact Hlive|].
  rewrite nth_error_map. fold (getActiveGrids m). rewrite Hi. simpl.
  unfold gridListItem, getGridInfo, getGridInstance. rewrite Hl, Hlive. reflexivity.
Qed.



Lemma nodesData_length (nodes rows : list JsValue) :
  nodesData nodes = Ok rows -> List.length rows = List.length nodes.
Proof.
  revert rows. induction nodes as [|n nodes IH]; intros rows H; simpl in H.
  - injection H as <-. reflexivity.
  - destruct (getField n "data"); [|discriminate].
    destruct (nodesData nodes) as [ds|]; [|discriminate].
    injection H as <-. simpl. f_equal. apply IH. reflexivity.
Qed.

Lemma renderedSample_length (displayedNodes : JsValue) (rows : list JsValue) :
  renderedSample displayedNodes = Ok rows -> List.length rows <= 10.
Proof.
  unfold renderedSample. destruct (truthy displayedNodes).
  - destruct displayedNodes; try discriminate. intro H.
    rewrite (nodesData_length _ H), length_firstn. apply Nat.le_min_l.
  - intro H. injection H as <-. simpl. lia.
Qed.

(** X26. The data sample has at most ten rows, and falls back to the
    stored rows.  When the data sample resource gives its contents for a
    grid, the grid resolves; the sample has at most ten rows and
    sampleSize is their number; the note says that all available data is
    shown exactly when there are fewer than ten, and that the first ten
    rows are shown exactly when there are ten; the column fields are the
    declared ones; and when the read of the rendered nodes fails, the
    sample is made of the first ten stored rows.  When the grid does not
    resolve, the resource reports the failure with the manager's message
    and the manager is unchanged. *)
Theorem data_sample_is_bounded {Api} {GA : GridApi Api}
    (env : Env) (gridId : string) (m : GridManager Api) :
  (forall m' r,
     dataSampleResource env gridId m = (m', Contents r) ->
     exists grid,
       getGridInstance gridId m = Ok grid /\
       sampleSize r = List.length (sampleData r) /\
       sampleSize r <= 10 /\
       (sampleNote r = "Showing all available data" <-> sampleSize r < 10) /\
       (sampleNote r = "Showing first 10 rows of displayed data" <->
        sampleSize r = 10) /\
       sampleColumnFields r = map field (columnDefs (config grid)) /\
       (isOk (snd (executeGridMethod gridId "getRenderedNodes" None
                     (fst (getGridState gridId m)))) = false ->
        sampleData r = map JObj (firstn 10 (rowData (config grid))))) /\
  (forall e,
     getGridInstance gridId m = Throw e ->
     dataSampleResource env gridId m
     = (m, ErrorReport gridId "Failed to retrieve grid data sample"
             (errorMessage e) (isoNow env))).
Proof.
  split.
  - intros m' r H. unfold dataSampleResource, getGridInfo in H.
    destruct (getGridInstance gridId m) as [grid|e] eqn:Hg; [|discriminate].
    exists grid. split; [reflexivity|].
    destruct (getGridState gridId m) as [m1 [st|e]]; [|discriminate].
    cbn [fst infoConfig] in *.
    destruct (executeGridMethod gridId "getRenderedNodes" None m1) as [m2 read].
    cbn [snd]. cbv beta iota zeta in H.
    destruct (hasKeys (filterState st)) as [filtered|e]; [|discriminate].
    set (fallback := map JObj (firstn 10 (rowData (config grid)))) in H.
    set (sample := match read with Ok _ => _ | Throw _ => _ end) in H.
    set (few := Nat.ltb (List.length sample) 10) in H.
    injection H as _ <-.
    cbn [sampleSize sampleData sampleNote sampleColumnFields].
    subst few.
    assert (Hfb : List.length fallback <= 10).
    { unfold fallback. rewrite length_map, length_firstn. apply Nat.le_min_l. }
    assert (Hlen : List.length sample <= 10).
    { unfold sample. destruct read as [nodes|e]; [|exact Hfb].
      destruct (renderedSample nodes) as [rows|e] eqn:Hr; [|exact Hfb].
      exact (renderedSample_length _ Hr). }
    split; [reflexivity|]. split; [exact Hlen|].
    split; [|split; [|split; [reflexivity|]]].
    + destruct (Nat.ltb_spec (List.length sample) 10) as [Hlt|Hge]; split.
      * intros _. exact Hlt.
      * intros _. reflexivity.
      * intro Hd. discriminate Hd.
      * intro Hlt. lia.
    + destruct (Nat.ltb_spec (List.length sample) 10) as [Hlt|Hge]; split.
      * intro Hd. discriminate Hd.
      * intro Hten. lia.
      * intros _. lia.
      * intros _. reflexivity.
    + intro Hfail. unfold sample. destruct read; [discriminate|reflexivity].
  - intros e He. unfold dataSampleResource, getGridInfo. rewrite He. reflexivity.
Qed.

Lemma data_sample_is_bounded_witness :
  exists m' r,
    dataSampleResource simEnv "g1" healthyManager = (m', Contents r) /\
    sampleSize r = 2 /\ sampleNote r = "Showing all available data" /\
    dataSampleResource simEnv "g2" healthyManager
    = (healthyManager,
       ErrorReport "g2" "Failed to retrieve grid data sample"
         "Grid with ID g2 not found" (isoNow simEnv)).
Proof.
  destruct (dataSampleResource simEnv "g1" healthyManager) as [m' [r|g e msg t]] eqn:Hrun;
    [|vm_compute in Hrun; discriminate].
  exists m', r. split; [reflexivity|].
  destruct (@data_sample_is_bounded SimApi SimGrid simEnv "g1" healthyManager)
    as [Hok _].
  destruct (@data_sample_is_bounded SimApi SimGrid simEnv "g2" healthyManager)
    as [_ Hmissing].
  destruct (Hok m' r Hrun) as (grid & _ & _ & _ & Hnote & _).
  assert (Hsize : sampleSize r = 2).
  { vm_compute in Hrun. injection Hrun as _ <-. reflexivity. }
  split; [exact Hsize|]. split; [apply Hnote; rewrite Hsize; lia|].
  apply (Hmissing (GridManagerError "Grid with ID g2 not found" GRID_NOT_FOUND
                     (Some "g2") None)).
  reflexivity.
Defined.

(** X27. A sink attached late does not know the grids that exist.
    When a fresh sink is attached to a manager and a filter is then set
    on one of its grids through executeGridMethod, the only call the sink
    receives is onGridFiltered; its mirror then holds a state for the
    grid with an empty config, no data and the filter model, and the
    route GET /api/grids/:gridId/data answers 200 with the declared
    columns and no rows, whatever rows the manager has stored. *)
Theorem late_sink_misses_existing_grids {Api} {GA : GridApi Api}
    (clock : nat -> string) (gridId : string) (filterModel result : JsValue)
    (m m' : GridManager Api) :
  truthy filterModel = true ->
  executeGridMethod gridId "setFilterModel" (Some [filterModel])
    (setWebSocketManager m) = (m', Ok result) ->
  exists grid displayedRows s,
    getGridInstance gridId m = Ok grid /\
    webSocketManager m' = Some [onGridFiltered gridId filterModel displayedRows] /\
    WebSocket.getGridState gridId
      (replay clock [onGridFiltered gridId filterModel displayedRows]) = Some s /\
    WebSocket.config s = WebSocket.EmptyObject /\
    WebSocket.data s = [] /\
    WebSocket.filters s = Some filterModel /\
    gridDataRoute gridId m'
      (replay clock [onGridFiltered gridId filterModel displayedRows])
    = Replied 200
        {| servedColumnDefs := columnDefs (config grid);
           servedRowData := [];
           servedGridOptions :=
             match gridOptions (config grid) with
             | Some options => options
             | None => []
             end |}.
Proof.
  intros Htruthy Hrun. unfold executeGridMethod in Hrun.
  change (getGridInstance gridId (setWebSocketManager m))
    with (getGridInstance gridId m) in Hrun.
  destruct (getGridInstance gridId m) as [grid|e] eqn:Hg; [|discriminate].
  destruct (getGridInstance_lookup _ _ Hg) as [Hl Hd].
  destruct (evaluate (inPageMethod "setFilterModel" (Some [filterModel])) (page grid))
    as [p [r|e]]; [|discriminate].
  cbn [webSocketManager setWebSocketManager String.eqb firstTruthy] in Hrun.
  change (String.eqb "setFilterModel" "setFilterModel") with true in Hrun.
  cbn iota in Hrun. rewrite Htruthy in Hrun.
  destruct (evaluate inPageDisplayedRows p) as [p' [n|e]]; [|discriminate].
  injection Hrun as <- _.
  exists grid, n. eexists.
  split; [reflexivity|]. split; [reflexivity|].
  split; [unfold replay, WebSocket.getGridState; simpl; rewrite String.eqb_refl;
          reflexivity|].
  split; [reflexivity|]. split; [reflexivity|]. split; [reflexivity|].
  unfold gridDataRoute, getGridInfo, getGridInstance.
  cbn [log notify storePage withGrids grids].
  rewrite lookup_mapSet_same. cbn [withPage isDestroyed]. rewrite Hd.
  unfold replay, WebSocket.getGridState. simpl. rewrite String.eqb_refl.
  reflexivity.
Qed.

Lemma late_sink_misses_existing_grids_witness :
  exists m' s,
    executeGridMethod "g1" "setFilterModel" (Some [completedOnly])
      (setWebSocketManager sortedManager) = (m', Ok JUndefined) /\
    WebSocket.getGridState "g1"
      (replay (fun _ => "t") [onGridFiltered "g1" completedOnly 0%Z]) = Some s /\
    WebSocket.config s = WebSocket.EmptyObject.
Proof.
  destruct (executeGridMethod "g1" "setFilterModel" (Some [completedOnly])
              (setWebSocketManager sortedManager)) as [m' [r|e]] eqn:Hrun;
    [|vm_compute in Hrun; discriminate].
  assert (Hr : r = JUndefined).
  { vm_compute in Hrun. injection Hrun as _ <-. reflexivity. }
  subst r. exists m'.
  destruct (@late_sink_misses_existing_grids SimApi SimGrid (fun _ => "t") "g1"
              completedOnly JUndefined sortedManager m' eq_refl Hrun)
    as (grid & n & s & _ & Hcalls & Hs & Hc & _).
  assert (Hn : n = 0%Z).
  { vm_compute in Hrun. injection Hrun as <- . vm_compute in Hcalls.
    injection Hcalls as <-. reflexivity. }
  subst n. exists s. split; [reflexivity|]. split; [exact Hs|exact Hc].
Defined.

(* ================================================================== *)
(** * The insights of the demo scenarios *)
(* ================================================================== *)

Section SortedBy.
Variable A : Type.
Variable cmp : A -> A -> Q.
Variable R : A -> A -> Prop.
Hypothesis R_of_le : forall x y, Qle_bool (cmp x y) 0 = true -> R x y.
Hypothesis R_of_gt : forall x y, Qle_bool (cmp x y) 0 = false -> R y x.
Hypothesis R_trans : forall x y z, R x y -> R y z -> R x z.

Lemma sortInsert_sorted_by (x : A) (l : list A) :
  StronglySorted R l -> StronglySorted R (sortInsert cmp x l).
Proof.
  induction 1 as [|y l Hs IH Hall]; simpl.
  - constructor; constructor.
  - destruct (Qle_bool (cmp x y) 0) eqn:E.
    + constructor; [constructor; assumption|].
      constructor; [apply R_of_le; exact E|].
      eapply Forall_impl; [|exact Hall]. intros z Hz.
      eapply R_trans; [apply R_of_le; exact E|exact Hz].
    + constructor; [exact IH|].
      apply (Permutation_Forall (sortInsert_permutes cmp x l)).
      constructor; [apply R_of_gt; exact E|exact Hall].
Qed.

Lemma jsSort_sorted_by (l : list A) : StronglySorted R (jsSort cmp l).
Proof.
  induction l as [|x l IH]; simpl; [constructor|].
  apply sortInsert_sorted_by. exact IH.
Qed.
End SortedBy.

Section TableFacts.

Lemma filter_partition_perm (A : Type) (p : A -> bool) (l : list A) :
  Permutation l (filter p l ++ filter (fun a => negb (p a)) l).
Proof.
  induction l as [|a l IH]; simpl; [apply perm_nil|].
  destruct (p a); simpl.
  - apply perm_skip. exact IH.
  - apply Permutation_cons_app. exact IH.
Qed.

Lemma objectEntries_perm (V : Type) (o : list (string * V)) :
  Permutation o (objectEntries o).
Proof.
  unfold objectEntries.
  eapply Permutation_trans; [apply (filter_partition_perm isArrayIndex)|].
  apply Permutation_app_tail. apply jsSort_perm.
Qed.

Lemma In_lookup_NoDup (V : Type) (k : string) (v : V) (l : list (string * V)) :
  NoDup (map fst l) -> (In (k, v) l <-> lookup k l = Some v).
Proof.
  induction l as [|[k' v'] l IH]; simpl; intro Hnd.
  - split; [tauto|discriminate].
  - inversion Hnd as [|? ? Hnotin Hrest]; subst.
    destruct (String.eqb_spec k k') as [->|Hne].
    + split.
      * intros [E|Hin]; [congruence|].
        exfalso. apply Hnotin. apply in_map_iff. exists (k', v). auto.
      * intro E. left. congruence.
    + rewrite <- (IH Hrest). split.
      * intros [E|Hin]; [congruence|exact Hin].
      * intro Hin. right. exact Hin.
Qed.

Lemma list_sum_perm (l l' : list nat) :
  Permutation l l' -> list_sum l = list_sum l'.
Proof.
  induction 1; simpl; lia.
Qed.






End TableFacts.

Section Totals.
Variable A : Type.
Variable key : A -> string.
Variable amount : A -> Q.





End Totals.






Lemma mostFirst_sorted (l : list (string * nat)) :
  StronglySorted (fun x y => snd y <= snd x) (jsSort mostFirst l).
Proof.
  assert (Hle : forall x y : string * nat,
             Qle_bool (mostFirst x y) 0 = true <-> snd y <= snd x).
  { intros x y. unfold mostFirst. rewrite ascending_le.
    unfold ofNat, Qle; simpl. lia. }
  apply jsSort_sorted_by.
  - intros x y H. apply Hle. exact H.
  - intros x y H. assert (Hn : ~ snd y <= snd x).
    { intro Hc. apply Hle in Hc. congruence. }
    lia.
  - intros x y z Hxy Hyz. lia.
Qed.

(** X30. The department distribution counts every employee once.
    On employees that are filed under no name that every object
    inherits, getDepartmentDistribution lists each department once, with
    the number of employees of that department, and lists no department
    without employee; the counts add up to the number of employees; the
    entries are in descending order of count, so that the first one is a
    largest department; and the list is empty exactly when there is no
    employee. *)
Theorem department_distribution_counts (Employee : Type)
    (department : Employee -> string) (employeeData : list Employee) :
  ownNames department employeeData ->
  let distribution := getDepartmentDistribution department employeeData in
  NoDup (map fst distribution) /\
  (forall d n,
     In (d, n) distribution <->
     0 < n /\
     n = countIf (fun emp => String.eqb (department emp) d) employeeData) /\
  list_sum (map snd distribution) = List.length employeeData /\
  StronglySorted (fun x y => snd y <= snd x) distribution /\
  (distribution = [] <-> employeeData = []).
Proof.
  intros _ distribution. unfold distribution, getDepartmentDistribution.
  destruct (bump_fold department employeeData []) as (Hnd & Hsum & Hl).
  set (counts := fold_left (fun acc emp => bump (department emp) acc) employeeData [])
    in *.
  assert (Hperm : Permutation counts (jsSort mostFirst (objectEntries counts))).
  { eapply Permutation_trans; [apply objectEntries_perm|apply jsSort_permutes]. }
  specialize (Hnd (NoDup_nil _)).
  assert (Htotal : list_sum (map snd (jsSort mostFirst (objectEntries counts)))
                   = List.length employeeData).
  { rewrite <- (list_sum_perm (Permutation_map snd Hperm)), Hsum. reflexivity. }
  split.
  { eapply Permutation_NoDup; [apply Permutation_map; exact Hperm|exact Hnd]. }
  split.
  { intros d n. split.
    - intro Hin. apply (Permutation_in _ (Permutation_sym Hperm)) in Hin.
      apply (@In_lookup_NoDup _ d n _ Hnd) in Hin. rewrite Hl in Hin. simpl in Hin.
      destruct (countIf (fun emp => String.eqb (department emp) d) employeeData);
        [discriminate|].
      simpl in Hin. injection Hin as <-. split; [lia|reflexivity].
    - intros [Hpos ->]. apply (Permutation_in _ Hperm).
      apply (@In_lookup_NoDup _ d _ _ Hnd). rewrite Hl. simpl.
      destruct (countIf (fun emp => String.eqb (department emp) d) employeeData);
        [lia|reflexivity]. }
  split; [exact Htotal|]. split; [apply mostFirst_sorted|].
  split.
  - intro Hnil. rewrite Hnil in Htotal. simpl in Htotal.
    destruct employeeData; [reflexivity|discriminate].
  - intro Hnil. subst employeeData. reflexivity.
Qed.

Lemma department_distribution_counts_witness :
  getDepartmentDistribution snd staff = [("Engineering", 2); ("Sales", 1)] /\
  list_sum (map snd (getDepartmentDistribution snd staff)) = 3.
Proof.
  assert (Hown : ownNames snd staff).
  { intros item Hin Hbad. unfold staff in Hin. simpl in Hin.
    destruct Hin as [<-|[<-|[<-|[]]]]; simpl in Hbad;
      repeat (destruct Hbad as [Hbad|Hbad]; [discriminate Hbad|]); exact Hbad. }
  destruct (@department_distribution_counts _ snd staff Hown) as (_ & _ & Hsum & _).
  split; [vm_compute; reflexivity|exact Hsum].
Defined.
